(** * Order tracking synchronizer and map adapter: a shallow embedding

    Sources embedded here:
    - [src/pages/user/hooks/useOrderTracking.ts] (the [useOrderTracking] hook),
    - [src/pages/user/index.tsx] (the earlier, self-contained portal page),
    - [src/components/map.tsx] (the map component's load effect),
    - the [TrackingData] and [OrderItem] interfaces of the page's types file.

    React state, the Supabase client, the timer queue, the notifier and the
    console are gathered in one record and the hook's callbacks are written
    in a small state monad over it.  An [async] function is cut at its
    [await]s: each piece is one atomic step of the event loop, and a run of
    the component is a list of such steps.  A step that resumes an [async]
    function carries what the function had in hand at the [await], so the
    runs considered include every interleaving of searches, deliveries of
    the change feed, timeouts and teardown.  The Supabase client outlives
    the component: [Mounts] gives a mount on a client in any state, and the
    properties that do not depend on the client being empty are stated for
    every world.

    The memoised views of the hook (map points, end points, item totals)
    read the session and write nothing; they are not embedded. *)

From Stdlib Require Import List String Ascii Bool NArith PeanoNat Lia.
Import ListNotations.

Set Implicit Arguments.

(** ** JavaScript strings and [String.prototype.trim] *)

Module JS.

(** A JavaScript string is a sequence of UTF-16 code units. *)
Definition jsstring := list N.

(** ECMAScript WhiteSpace and LineTerminator code points, the characters
    [trim] strips.  All of them lie in the basic plane, so the test is on
    single code units. *)
Definition isWhiteSpace (c : N) : bool :=
  ((c =? 9) || (c =? 10) || (c =? 11) || (c =? 12) || (c =? 13) ||
   (c =? 32) || (c =? 160) || (c =? 5760) ||
   ((8192 <=? c) && (c <=? 8202)) ||
   (c =? 8232) || (c =? 8233) || (c =? 8239) || (c =? 8287) ||
   (c =? 12288) || (c =? 65279))%N.

Fixpoint trimStart (s : jsstring) : jsstring :=
  match s with
  | [] => []
  | c :: rest => if isWhiteSpace c then trimStart rest else s
  end.

Definition trimEnd (s : jsstring) : jsstring := rev (trimStart (rev s)).

Definition trim (s : jsstring) : jsstring := trimEnd (trimStart s).

(** Truthiness of a string: only the empty string is falsy. *)
Definition truthy (s : jsstring) : bool :=
  match s with [] => false | _ :: _ => true end.

(** ASCII literals as code units. *)
Definition lit (s : string) : jsstring :=
  map N_of_ascii (list_ascii_of_string s).

End JS.

Import JS.

(** ** Data model *)

(** The five order states of the portal's status table ([STATUS_MAP] in
    [index.tsx]); a status the table does not know is kept as text. *)
Inductive OrderStatus :=
| pending | confirmed | shipping | delivered | cancelled
| otherStatus (tag : string).

(** Modelled from the spec: the [Order] interface of [@/types/order] is not
    among the sources.  The spec gives: identifier, human-readable order
    number, status, raw sender and receiver location fields, estimated and
    actual delivery timestamps. *)
Record Order := mkOrder {
  order_id : string;            (* [id] *)
  order_number : string;
  status : OrderStatus;
  sender_location : option string;
  receiver_location : option string;
  estimated_delivery : option string;
  actual_delivery : option string
}.

(** Modelled from the spec: the [TrajectoryPoint] interface of
    [@/types/order] is not among the sources.  The spec gives: identifier,
    owning order identifier, status tag, free-text description, location
    fields, timestamp.  Timestamps are strings, as the [created_at] and
    [updated_at] fields of [OrderItem] are. *)
Record TrajectoryPoint := mkTrajectoryPoint {
  trajectory_id : string;
  trajectory_order_id : string;
  trajectory_status : string;
  description : string;
  location : option string;
  timestamp : string
}.

(** [number] fields are carried along and never computed on by the
    operations below. *)
Definition number := N.

(** [OrderItem], from the page's types file. *)
Record OrderItem := mkOrderItem {
  item_id : string;
  item_order_id : string;
  product_name : string;
  product_price : number;
  quantity : number;
  subtotal : number;
  created_at : string;
  updated_at : string
}.

(** [TrackingData], from the page's types file. *)
Record TrackingData := mkTrackingData {
  order : Order;
  trajectories : list TrajectoryPoint;
  orderItems : list OrderItem
}.

(** Recency of trajectory points.  The store orders the [timestamp] column;
    on the client a timestamp is an ISO-8601 string, and such strings in
    one offset compare as instants under the lexicographic order. *)
Definition notOlder (a b : TrajectoryPoint) : bool :=
  String.leb (timestamp b) (timestamp a).

(** Newest first: every entry is at least as recent as the one after it. *)
Fixpoint newestFirst (l : list TrajectoryPoint) : bool :=
  match l with
  | [] => true
  | a :: rest =>
      match rest with
      | [] => true
      | b :: _ => notOlder a b && newestFirst rest
      end
  end.

(** ** Collaborators: store responses, thrown values, the change feed *)

(** [PostgrestError]: its message, and whether the object is an instance of
    [Error] (it is in recent versions of the client library, a plain object
    in older ones). *)
Record PostgrestError := mkPostgrestError {
  pg_message : string;
  pg_instanceofError : bool
}.

(** The client library's response: a success with data and a null error,
    or a failure with an error and null data. *)
Inductive PostgrestResponse (T : Type) :=
| ResponseSuccess (d : T)
| ResponseFailure (e : PostgrestError).
Arguments ResponseSuccess {T} d.
Arguments ResponseFailure {T} e.

Definition data {T} (r : PostgrestResponse T) : option T :=
  match r with ResponseSuccess d => Some d | ResponseFailure _ => None end.

Definition error {T} (r : PostgrestResponse T) : option PostgrestError :=
  match r with ResponseSuccess _ => None | ResponseFailure e => Some e end.

(** What a [catch] clause can receive here. *)
Inductive Thrown :=
| ThrownError (message : string)        (* [new Error(message)] *)
| ThrownPostgrest (e : PostgrestError).  (* [throw orderError] *)

(** [error instanceof Error ? error.message : fallback] *)
Definition errorMessageOf (e : Thrown) (fallback : string) : string :=
  match e with
  | ThrownError m => m
  | ThrownPostgrest p => if pg_instanceofError p then pg_message p else fallback
  end.

(** A channel of the realtime client: the handle the hook keeps in
    [subscriptionRef], the topic it was opened under and the order id of
    its two row filters. *)
Record RealtimeChannel := mkChannel {
  chan_id : nat;
  chan_topic : string;
  chan_orderId : string
}.

(** Calls made on the store, in the order they were issued. *)
Inductive Request :=
| RpcGetOrderByNumber (p_order_number : jsstring)
| SelectTrajectories (orderId : string)   (* order by timestamp, descending *)
| SelectOrderItems (orderId : string).    (* order by created_at, ascending *)

Inductive Level := LSuccess | LError | LInfo | LWarning.

Inductive ConsoleLine :=
| ConsoleLog (level : Level) (content : string)       (* [console.log(`[type] content`)] *)
| ConsoleError (label : string) (e : PostgrestError).  (* [console.error(label, e)] *)

(** The only callback ever handed to [setTimeout]: [() => setIsUpdating(false)]. *)
Inductive TimerCallback := ClearIsUpdating.

(** ** The environment: Supabase client, timer queue, notifier, console *)

Record Env := mkEnv {
  channels : list RealtimeChannel;   (* channels the client holds open *)
  nextChannel : nat;                 (* supply of fresh handles *)
  requests : list Request;
  now : N;                           (* milliseconds *)
  timers : list (N * TimerCallback); (* pending timeouts with their due time *)
  toasts : list (Level * string);
  console : list ConsoleLine
}.

Definition initialEnv : Env := mkEnv [] 0 [] 0%N [] [] [].

(** [supabase.removeChannel(c)]: the channel is unsubscribed and dropped
    from the client; a channel the client no longer holds is left alone.
    The callers never await the call, and the release is taken to hold from
    the call on. *)
Definition removeChannel (c : RealtimeChannel) (e : Env) : Env :=
  mkEnv (filter (fun c' => negb (chan_id c' =? chan_id c)) (channels e))
        (nextChannel e) (requests e) (now e) (timers e) (toasts e) (console e).

(** [supabase.channel(topic).on(..orders..).on(..logistics_trajectories..).subscribe()]:
    a fresh channel, filtered on [orderId], joins the client's channels. *)
Definition openChannel (topic orderId : string) (e : Env) : RealtimeChannel * Env :=
  let c := mkChannel (nextChannel e) topic orderId in
  (c, mkEnv (channels e ++ [c]) (S (nextChannel e)) (requests e) (now e)
            (timers e) (toasts e) (console e)).

Definition issue (r : Request) (e : Env) : Env :=
  mkEnv (channels e) (nextChannel e) (requests e ++ [r]) (now e) (timers e)
        (toasts e) (console e).

(** [setTimeout(cb, delay)] *)
Definition addTimer (cb : TimerCallback) (delay : N) (e : Env) : Env :=
  mkEnv (channels e) (nextChannel e) (requests e) (now e)
        (timers e ++ [((now e + delay)%N, cb)]) (toasts e) (console e).

Definition toast (l : Level) (content : string) (e : Env) : Env :=
  mkEnv (channels e) (nextChannel e) (requests e) (now e) (timers e)
        (toasts e ++ [(l, content)]) (console e).

Definition logLine (c : ConsoleLine) (e : Env) : Env :=
  mkEnv (channels e) (nextChannel e) (requests e) (now e) (timers e)
        (toasts e) (console e ++ [c]).

(** The timeouts due by [t], in the order they were set. *)
Definition dueBy (t : N) (e : Env) : list (N * TimerCallback) :=
  filter (fun tm => (fst tm <=? t)%N) (timers e).

(** The clock moves to [t]; the timeouts due by then leave the queue. *)
Definition advanceTo (t : N) (e : Env) : Env :=
  mkEnv (channels e) (nextChannel e) (requests e) t
        (filter (fun tm => negb (fst tm <=? t)%N) (timers e))
        (toasts e) (console e).

(** The channel with handle [h], if the client still holds it. *)
Definition liveChannel (h : nat) (e : Env) : option RealtimeChannel :=
  find (fun c => chan_id c =? h) (channels e).

(** ** A state monad for callbacks

    The callbacks of a component read and write its state cells, its refs
    and the collaborators it was given; they are written as state
    transformers over a record holding all of them. *)

Definition State (S A : Type) : Type := S -> A * S.

Definition ret {S A} (a : A) : State S A := fun w => (a, w).

Definition bind {S A B} (c : State S A) (k : A -> State S B) : State S B :=
  fun w => k (fst (c w)) (snd (c w)).

Definition exec {S A} (c : State S A) (w : S) : S := snd (c w).

Notation "x <- c ;; k" := (bind c (fun x => k))
  (at level 61, c at next level, right associativity).
Notation "c ;; k" := (bind c (fun _ => k))
  (at level 61, right associativity).

(** An [async] function with [await]s inside one [try]/[catch]/[finally] is
    cut at the [await]s.  A piece that stops at an [await] leaves the [try]
    block open; one that returns or throws runs [catch] and [finally]. *)
Inductive Outcome :=
| Returned
| Awaiting
| Threw (e : Thrown).

Definition tryCatchFinally {S} (body : State S Outcome)
  (handler : Thrown -> State S unit) (finalizer : State S unit)
  : State S unit :=
  r <- body ;;
  match r with
  | Returned => finalizer
  | Awaiting => ret tt
  | Threw e => handler e ;; finalizer
  end.

(** [data || []] for an array. *)
Definition orEmpty {T} (d : option (list T)) : list T :=
  match d with Some l => l | None => [] end.

(** [.maybeSingle()] answers with one row or [null]. *)
Definition orderDataOf (r : PostgrestResponse (option Order)) : option Order :=
  match data r with
  | Some (Some o) => Some o
  | _ => None
  end.

(** ** The hook [useOrderTracking] *)

Module Hook.

Record World := mkWorld {
  (* [useState] cells *)
  loading : bool;
  searched : bool;
  trackingData : option TrackingData;
  isUpdating : bool;
  (* [useRef] cell *)
  subscriptionRef : option RealtimeChannel;
  (* the hook's argument: was a toast callback passed? *)
  toastMessage : bool;
  (* whether React still has the component mounted; the hook never reads
     it, and the cells above record what the setters were called with *)
  mounted : bool;
  env : Env
}.

Definition initial (withToast : bool) : World :=
  mkWorld false false None false None withToast true initialEnv.

Definition M : Type -> Type := State World.

Definition setLoading (v : bool) : M unit := fun w =>
  (tt, mkWorld v (searched w) (trackingData w) (isUpdating w)
               (subscriptionRef w) (toastMessage w) (mounted w) (env w)).

Definition setSearched (v : bool) : M unit := fun w =>
  (tt, mkWorld (loading w) v (trackingData w) (isUpdating w)
               (subscriptionRef w) (toastMessage w) (mounted w) (env w)).

(** [setTrackingData(prev => f(prev))]; [setTrackingData(v)] is the
    constant updater. *)
Definition setTrackingData (f : option TrackingData -> option TrackingData)
  : M unit := fun w =>
  (tt, mkWorld (loading w) (searched w) (f (trackingData w)) (isUpdating w)
               (subscriptionRef w) (toastMessage w) (mounted w) (env w)).

Definition setIsUpdating (v : bool) : M unit := fun w =>
  (tt, mkWorld (loading w) (searched w) (trackingData w) v
               (subscriptionRef w) (toastMessage w) (mounted w) (env w)).

Definition readSubscriptionRef : M (option RealtimeChannel) := fun w =>
  (subscriptionRef w, w).

Definition writeSubscriptionRef (c : option RealtimeChannel) : M unit :=
  fun w =>
  (tt, mkWorld (loading w) (searched w) (trackingData w) (isUpdating w)
               c (toastMessage w) (mounted w) (env w)).

Definition markUnmounted : M unit := fun w =>
  (tt, mkWorld (loading w) (searched w) (trackingData w) (isUpdating w)
               (subscriptionRef w) (toastMessage w) false (env w)).

Definition withEnv {A} (f : Env -> A * Env) : M A := fun w =>
  (fst (f (env w)),
   mkWorld (loading w) (searched w) (trackingData w) (isUpdating w)
           (subscriptionRef w) (toastMessage w) (mounted w) (snd (f (env w)))).

Definition onEnv (f : Env -> Env) : M unit := withEnv (fun e => (tt, f e)).

Definition supabase_removeChannel (c : RealtimeChannel) : M unit :=
  onEnv (removeChannel c).

Definition supabase_channel (topic orderId : string) : M RealtimeChannel :=
  withEnv (openChannel topic orderId).

Definition supabase_query (r : Request) : M unit := onEnv (issue r).

Definition setTimeout (cb : TimerCallback) (delay : N) : M unit :=
  onEnv (addTimer cb delay).

Definition console_error (label : string) (e : PostgrestError) : M unit :=
  onEnv (logLine (ConsoleError label e)).

(** *** [showMessage] *)

Definition showMessage (type : Level) (content : string) : M unit := fun w =>
  if toastMessage w
  then onEnv (toast type content) w
  else onEnv (logLine (ConsoleLog type content)) w.

(** *** The unmount cleanup and [cleanupSubscription]

    Both are the same statement:
    [if (subscriptionRef.current) supabase.removeChannel(subscriptionRef.current)].
    The ref itself is left as it is. *)

Definition removeHeldChannel : M unit :=
  current <- readSubscriptionRef ;;
  match current with
  | Some c => supabase_removeChannel c
  | None => ret tt
  end.

Definition effectCleanup : M unit := removeHeldChannel.

Definition cleanupSubscription : M unit := removeHeldChannel.

(** *** [subscribeToOrderUpdates] and its two handlers *)

(** Handler of [UPDATE] on [orders]. *)
Definition onOrderUpdate (payload_new : Order) : M unit :=
  setIsUpdating true ;;
  setTrackingData (fun prev =>
    match prev with
    | None => None
    | Some p => Some (mkTrackingData payload_new (trajectories p) (orderItems p))
    end) ;;
  setTimeout ClearIsUpdating 1500.

(** Handler of [INSERT] on [logistics_trajectories]. *)
Definition onTrajectoryInsert (payload_new : TrajectoryPoint) : M unit :=
  setIsUpdating true ;;
  let newTrajectory := payload_new in
  setTrackingData (fun prev =>
    match prev with
    | None => None
    | Some p =>
        Some (mkTrackingData (order p) (newTrajectory :: trajectories p)
                             (orderItems p))
    end) ;;
  showMessage LSuccess "有新的物流动态" ;;
  setTimeout ClearIsUpdating 1500.

Definition subscribeToOrderUpdates (orderId : string) : M unit :=
  removeHeldChannel ;;
  channel <- supabase_channel ("order-tracking-" ++ orderId) orderId ;;
  writeSubscriptionRef (Some channel).

(** *** [handleSearch]

    The function is [async] with two [await]s inside one
    [try]/[catch]/[finally].  It is cut into the piece that runs when it
    is called, the piece that runs when the order lookup settles and the
    piece that runs when [Promise.all] of the two secondary queries
    settles. *)

Definition handleSearch_catch (e : Thrown) : M unit :=
  let errorMessage := errorMessageOf e "查询失败，请稍后重试" in
  showMessage LError errorMessage.

Definition handleSearch_finally : M unit := setLoading false.

(** From the call to the first [await]. *)
Definition handleSearch (orderNumber : jsstring) : M unit :=
  if negb (truthy (trim orderNumber)) then ret tt
  else
    setLoading true ;;
    setSearched true ;;
    setTrackingData (fun _ => None) ;;
    tryCatchFinally
      (supabase_query (RpcGetOrderByNumber (trim orderNumber)) ;;
       ret Awaiting)
      handleSearch_catch handleSearch_finally.

(** From the settled lookup to the second [await]. *)
Definition handleSearch_afterLookup (r : PostgrestResponse (option Order))
  : M unit :=
  tryCatchFinally
    (match error r with
     | Some orderError => ret (Threw (ThrownPostgrest orderError))
     | None =>
         match orderDataOf r with
         | None => ret (Threw (ThrownError "未找到该订单信息，请检查单号"))
         | Some orderData =>
             let orderId := order_id orderData in
             supabase_query (SelectTrajectories orderId) ;;
             supabase_query (SelectOrderItems orderId) ;;
             ret Awaiting
         end
     end)
    handleSearch_catch handleSearch_finally.

(** From the settled secondary queries to the end. *)
Definition handleSearch_afterSecondary (orderData : Order)
  (trajectoryResult : PostgrestResponse (list TrajectoryPoint))
  (itemsResult : PostgrestResponse (list OrderItem)) : M unit :=
  tryCatchFinally
    (let orderId := order_id orderData in
     match error trajectoryResult with
     | Some e => console_error "轨迹加载失败" e
     | None => ret tt
     end ;;
     match error itemsResult with
     | Some e => console_error "物品加载失败" e
     | None => ret tt
     end ;;
     setTrackingData (fun _ =>
       Some (mkTrackingData orderData
               (orEmpty (data trajectoryResult))
               (orEmpty (data itemsResult)))) ;;
     subscribeToOrderUpdates orderId ;;
     ret Returned)
    handleSearch_catch handleSearch_finally.

(** *** Steps of the event loop *)

Definition runCallback (cb : TimerCallback) : M unit :=
  match cb with
  | ClearIsUpdating => setIsUpdating false
  end.

Fixpoint runCallbacks (l : list (N * TimerCallback)) : M unit :=
  match l with
  | [] => ret tt
  | (_, cb) :: rest => runCallback cb ;; runCallbacks rest
  end.

(** [ms] milliseconds pass: the timeouts that fall due run, in the order
    they were set. *)
Definition elapse (ms : N) : M unit := fun w =>
  let t := (now (env w) + ms)%N in
  (runCallbacks (dueBy t (env w)) ;; onEnv (advanceTo t)) w.

(** The feed delivers a row change on channel [h]: nothing happens unless
    the client still holds the channel and the row passes its filter. *)
Definition deliverOrderUpdate (h : nat) (payload_new : Order) : M unit :=
  fun w =>
  match liveChannel h (env w) with
  | Some c =>
      if (order_id payload_new =? chan_orderId c)%string
      then onOrderUpdate payload_new w
      else (tt, w)
  | None => (tt, w)
  end.

Definition deliverTrajectoryInsert (h : nat) (payload_new : TrajectoryPoint)
  : M unit := fun w =>
  match liveChannel h (env w) with
  | Some c =>
      if (trajectory_order_id payload_new =? chan_orderId c)%string
      then onTrajectoryInsert payload_new w
      else (tt, w)
  | None => (tt, w)
  end.

Definition unmount : M unit := effectCleanup ;; markUnmounted.

Inductive Action :=
| CallHandleSearch (orderNumber : jsstring)
| LookupSettled (r : PostgrestResponse (option Order))
| SecondarySettled (orderData : Order)
    (trajectoryResult : PostgrestResponse (list TrajectoryPoint))
    (itemsResult : PostgrestResponse (list OrderItem))
| OrderUpdated (h : nat) (payload_new : Order)
| TrajectoryInserted (h : nat) (payload_new : TrajectoryPoint)
| Elapse (ms : N)
| CallCleanupSubscription
| Unmount.

Definition step (a : Action) : M unit :=
  match a with
  | CallHandleSearch n => handleSearch n
  | LookupSettled r => handleSearch_afterLookup r
  | SecondarySettled o t i => handleSearch_afterSecondary o t i
  | OrderUpdated h o => deliverOrderUpdate h o
  | TrajectoryInserted h p => deliverTrajectoryInsert h p
  | Elapse ms => elapse ms
  | CallCleanupSubscription => cleanupSubscription
  | Unmount => unmount
  end.

Fixpoint run (l : list Action) (w : World) : World :=
  match l with
  | [] => w
  | a :: rest => run rest (exec (step a) w)
  end.

(** Steps that come from the change feed or the clock, not from the user
    or from a settling query. *)
Definition fromFeed (a : Action) : bool :=
  match a with
  | OrderUpdated _ _ | TrajectoryInserted _ _ | Elapse _ => true
  | _ => false
  end.

(** Number of change-subscriptions the client holds. *)
Definition subscriptionCount (w : World) : nat :=
  List.length (channels (env w)).

(** The subscription invariant: the client holds no channel, or exactly
    the one [subscriptionRef] points to. *)
Definition heldIsOnly (w : World) : Prop :=
  channels (env w) = [] \/
  exists c, channels (env w) = [c] /\ subscriptionRef w = Some c.

(** The steps that release or replace the channel. *)
Definition touchesSubscription (a : Action) : bool :=
  match a with
  | SecondarySettled _ _ _ | CallCleanupSubscription | Unmount => true
  | _ => false
  end.

(** The two kinds of event a channel hands to its handlers. *)
Inductive FeedEvent :=
| OrderUpdate (payload_new : Order)
| TrajectoryInsert (payload_new : TrajectoryPoint).

Definition handle (ev : FeedEvent) : M unit :=
  match ev with
  | OrderUpdate o => onOrderUpdate o
  | TrajectoryInsert p => onTrajectoryInsert p
  end.

End Hook.

(** ** The earlier portal page ([CustomerPortal] of [index.tsx])

    The page keeps the same cells as the hook and reports through antd's
    [message]; its session has no item list and its trajectory query is
    awaited on its own.  The [user] cell and the sign-out call are left
    out: no callback below reads them. *)

Module Page.

Record TrackingData := mkTrackingData {
  order : Order;
  trajectories : list TrajectoryPoint
}.

Record World := mkWorld {
  loading : bool;
  searched : bool;
  trackingData : option TrackingData;
  isUpdating : bool;
  subscriptionRef : option RealtimeChannel;
  (* whether React still has the page mounted; the page never reads it *)
  mounted : bool;
  env : Env
}.

Definition initial : World :=
  mkWorld false false None false None true initialEnv.

Definition M : Type -> Type := State World.

Definition setLoading (v : bool) : M unit := fun w =>
  (tt, mkWorld v (searched w) (trackingData w) (isUpdating w)
               (subscriptionRef w) (mounted w) (env w)).

Definition setSearched (v : bool) : M unit := fun w =>
  (tt, mkWorld (loading w) v (trackingData w) (isUpdating w)
               (subscriptionRef w) (mounted w) (env w)).

Definition setTrackingData (f : option TrackingData -> option TrackingData)
  : M unit := fun w =>
  (tt, mkWorld (loading w) (searched w) (f (trackingData w)) (isUpdating w)
               (subscriptionRef w) (mounted w) (env w)).

Definition setIsUpdating (v : bool) : M unit := fun w =>
  (tt, mkWorld (loading w) (searched w) (trackingData w) v
               (subscriptionRef w) (mounted w) (env w)).

Definition readSubscriptionRef : M (option RealtimeChannel) := fun w =>
  (subscriptionRef w, w).

Definition writeSubscriptionRef (c : option RealtimeChannel) : M unit :=
  fun w =>
  (tt, mkWorld (loading w) (searched w) (trackingData w) (isUpdating w)
               c (mounted w) (env w)).

Definition markUnmounted : M unit := fun w =>
  (tt, mkWorld (loading w) (searched w) (trackingData w) (isUpdating w)
               (subscriptionRef w) false (env w)).

Definition withEnv {A} (f : Env -> A * Env) : M A := fun w =>
  (fst (f (env w)),
   mkWorld (loading w) (searched w) (trackingData w) (isUpdating w)
           (subscriptionRef w) (mounted w) (snd (f (env w)))).

Definition onEnv (f : Env -> Env) : M unit := withEnv (fun e => (tt, f e)).

Definition supabase_removeChannel (c : RealtimeChannel) : M unit :=
  onEnv (removeChannel c).

Definition supabase_channel (topic orderId : string) : M RealtimeChannel :=
  withEnv (openChannel topic orderId).

Definition supabase_query (r : Request) : M unit := onEnv (issue r).

Definition setTimeout (cb : TimerCallback) (delay : N) : M unit :=
  onEnv (addTimer cb delay).

Definition console_error (label : string) (e : PostgrestError) : M unit :=
  onEnv (logLine (ConsoleError label e)).

(** [message.info], [message.success], [message.error] *)
Definition message (type : Level) (content : string) : M unit :=
  onEnv (toast type content).

(** [if (subscriptionRef.current) supabase.removeChannel(subscriptionRef.current)],
    written out in the unmount cleanup, in [subscribeToOrderUpdates] and
    in [handleLogout]. *)
Definition removeHeldChannel : M unit :=
  current <- readSubscriptionRef ;;
  match current with
  | Some c => supabase_removeChannel c
  | None => ret tt
  end.

Definition effectCleanup : M unit := removeHeldChannel.

(** [handleLogout] up to its [await] of the sign-out. *)
Definition handleLogout : M unit := removeHeldChannel.

Definition onOrderUpdate (payload_new : Order) : M unit :=
  setIsUpdating true ;;
  setTrackingData (fun prev =>
    match prev with
    | None => None
    | Some p => Some (mkTrackingData payload_new (trajectories p))
    end) ;;
  message LInfo "订单状态已更新" ;;
  setTimeout ClearIsUpdating 1500.

Definition onTrajectoryInsert (payload_new : TrajectoryPoint) : M unit :=
  setIsUpdating true ;;
  let newTrajectory := payload_new in
  setTrackingData (fun prev =>
    match prev with
    | None => None
    | Some p => Some (mkTrackingData (order p) (newTrajectory :: trajectories p))
    end) ;;
  message LSuccess "有新的物流动态" ;;
  setTimeout ClearIsUpdating 1500.

Definition subscribeToOrderUpdates (orderId : string) : M unit :=
  removeHeldChannel ;;
  channel <- supabase_channel ("order-tracking-" ++ orderId) orderId ;;
  writeSubscriptionRef (Some channel).

Definition handleSearch_catch (e : Thrown) : M unit :=
  let errorMessage := errorMessageOf e "查询失败，请稍后重试" in
  message LError errorMessage.

Definition handleSearch_finally : M unit := setLoading false.

(** From the call to the first [await]. *)
Definition handleSearch (orderNumber : jsstring) : M unit :=
  if negb (truthy (trim orderNumber)) then ret tt
  else
    setLoading true ;;
    setSearched true ;;
    setTrackingData (fun _ => None) ;;
    tryCatchFinally
      (supabase_query (RpcGetOrderByNumber (trim orderNumber)) ;;
       ret Awaiting)
      handleSearch_catch handleSearch_finally.

(** From the settled lookup to the second [await]. *)
Definition handleSearch_afterLookup (r : PostgrestResponse (option Order))
  : M unit :=
  tryCatchFinally
    (match error r with
     | Some orderError => ret (Threw (ThrownPostgrest orderError))
     | None =>
         match orderDataOf r with
         | None => ret (Threw (ThrownError "未找到该订单信息，请检查单号"))
         | Some orderData =>
             supabase_query (SelectTrajectories (order_id orderData)) ;;
             ret Awaiting
         end
     end)
    handleSearch_catch handleSearch_finally.

(** From the settled trajectory query to the end. *)
Definition handleSearch_afterTrajectories (orderData : Order)
  (r : PostgrestResponse (list TrajectoryPoint)) : M unit :=
  tryCatchFinally
    (match error r with
     | Some trajError => console_error "轨迹加载失败" trajError
     | None => ret tt
     end ;;
     setTrackingData (fun _ =>
       Some (mkTrackingData orderData (orEmpty (data r)))) ;;
     subscribeToOrderUpdates (order_id orderData) ;;
     ret Returned)
    handleSearch_catch handleSearch_finally.

Definition runCallback (cb : TimerCallback) : M unit :=
  match cb with
  | ClearIsUpdating => setIsUpdating false
  end.

Fixpoint runCallbacks (l : list (N * TimerCallback)) : M unit :=
  match l with
  | [] => ret tt
  | (_, cb) :: rest => runCallback cb ;; runCallbacks rest
  end.

Definition elapse (ms : N) : M unit := fun w =>
  let t := (now (env w) + ms)%N in
  (runCallbacks (dueBy t (env w)) ;; onEnv (advanceTo t)) w.

Definition deliverOrderUpdate (h : nat) (payload_new : Order) : M unit :=
  fun w =>
  match liveChannel h (env w) with
  | Some c =>
      if (order_id payload_new =? chan_orderId c)%string
      then onOrderUpdate payload_new w
      else (tt, w)
  | None => (tt, w)
  end.

Definition deliverTrajectoryInsert (h : nat) (payload_new : TrajectoryPoint)
  : M unit := fun w =>
  match liveChannel h (env w) with
  | Some c =>
      if (trajectory_order_id payload_new =? chan_orderId c)%string
      then onTrajectoryInsert payload_new w
      else (tt, w)
  | None => (tt, w)
  end.

Definition unmount : M unit := effectCleanup ;; markUnmounted.

Inductive Action :=
| CallHandleSearch (orderNumber : jsstring)
| LookupSettled (r : PostgrestResponse (option Order))
| TrajectoriesSettled (orderData : Order)
    (r : PostgrestResponse (list TrajectoryPoint))
| OrderUpdated (h : nat) (payload_new : Order)
| TrajectoryInserted (h : nat) (payload_new : TrajectoryPoint)
| Elapse (ms : N)
| CallHandleLogout
| Unmount.

Definition step (a : Action) : M unit :=
  match a with
  | CallHandleSearch n => handleSearch n
  | LookupSettled r => handleSearch_afterLookup r
  | TrajectoriesSettled o r => handleSearch_afterTrajectories o r
  | OrderUpdated h o => deliverOrderUpdate h o
  | TrajectoryInserted h p => deliverTrajectoryInsert h p
  | Elapse ms => elapse ms
  | CallHandleLogout => handleLogout
  | Unmount => unmount
  end.

Fixpoint run (l : list Action) (w : World) : World :=
  match l with
  | [] => w
  | a :: rest => run rest (exec (step a) w)
  end.

(** Steps that come from the change feed or the clock, not from the user
    or from a settling query. *)
Definition fromFeed (a : Action) : bool :=
  match a with
  | OrderUpdated _ _ | TrajectoryInserted _ _ | Elapse _ => true
  | _ => false
  end.

Definition subscriptionCount (w : World) : nat :=
  List.length (channels (env w)).

Definition heldIsOnly (w : World) : Prop :=
  channels (env w) = [] \/
  exists c, channels (env w) = [c] /\ subscriptionRef w = Some c.

Definition touchesSubscription (a : Action) : bool :=
  match a with
  | TrajectoriesSettled _ _ | CallHandleLogout | Unmount => true
  | _ => false
  end.

End Page.

(** ** The map component ([Map] of [components/map.tsx])

    One mount of the component: the effect runs once, its closure variables
    [destroyed] and [animationFrameId] live until the cleanup, and the
    loader promise is shared by all mounts.  The SDK is seen through what
    the component does with it: a load that settles, a frame callback, and
    the map's [complete] and [error] events. *)

Module MapAdapter.

(** [import.meta.env]; a variable that is not configured is [undefined]. *)
Record ImportMetaEnv := mkImportMetaEnv {
  VITE_AMAP_KEY : option string;
  VITE_AMAP_SECURITY_CODE : option string
}.

(** Truthiness of [string | undefined]. *)
Definition truthyVar (v : option string) : bool :=
  match v with
  | Some s => negb (s =? "")%string
  | None => false
  end.

Record World := mkWorld {
  loading : bool;  (* [useState(true)] *)
  loaderPromise : bool;  (* module-level [loaderPromise]: has a load been started? *)
  loadCalls : nat;  (* calls of [AMapLoader.load] so far *)
  securityConfig : option string;  (* [window._AMapSecurityConfig] *)
  containerRef : bool;  (* is the container element attached? *)
  mapInstanceRef : option nat;  (* the map instance the component holds *)
  nextMap : nat;  (* supply of fresh map handles *)
  destroyedMaps : list nat;  (* instances on which [destroy()] was called *)
  windowAMap : bool;  (* [window.AMap] set *)
  destroyed : bool;  (* [let destroyed] of the effect *)
  animationFrameId : option nat;  (* [let animationFrameId] of the effect *)
  pendingFrame : option nat;  (* the browser's pending animation-frame request *)
  nextFrame : nat;  (* supply of frame request ids (from 1) *)
  messages : list string;  (* [messageApi.error] texts *)
  console : list string  (* [console.error] labels *)
}.

(** A fresh mount: the overlay is shown, the container is attached. *)
Definition initial (loaderStarted : bool) : World :=
  mkWorld true loaderStarted 0 None true None 0 [] false false None None 1
          [] [].

Definition M : Type -> Type := State World.

Definition setLoading (v : bool) : M unit := fun w =>
  (tt, mkWorld v (loaderPromise w) (loadCalls w) (securityConfig w)
         (containerRef w) (mapInstanceRef w) (nextMap w) (destroyedMaps w)
         (windowAMap w) (destroyed w) (animationFrameId w) (pendingFrame w)
         (nextFrame w) (messages w) (console w)).

Definition setLoaderPromise (v : bool) : M unit := fun w =>
  (tt, mkWorld (loading w) v (loadCalls w) (securityConfig w)
         (containerRef w) (mapInstanceRef w) (nextMap w) (destroyedMaps w)
         (windowAMap w) (destroyed w) (animationFrameId w) (pendingFrame w)
         (nextFrame w) (messages w) (console w)).

Definition setLoadCalls (v : nat) : M unit := fun w =>
  (tt, mkWorld (loading w) (loaderPromise w) v (securityConfig w)
         (containerRef w) (mapInstanceRef w) (nextMap w) (destroyedMaps w)
         (windowAMap w) (destroyed w) (animationFrameId w) (pendingFrame w)
         (nextFrame w) (messages w) (console w)).

Definition setSecurityConfig (v : option string) : M unit := fun w =>
  (tt, mkWorld (loading w) (loaderPromise w) (loadCalls w) v
         (containerRef w) (mapInstanceRef w) (nextMap w) (destroyedMaps w)
         (windowAMap w) (destroyed w) (animationFrameId w) (pendingFrame w)
         (nextFrame w) (messages w) (console w)).

Definition setMapInstanceRef (v : option nat) : M unit := fun w =>
  (tt, mkWorld (loading w) (loaderPromise w) (loadCalls w)
         (securityConfig w) (containerRef w) v (nextMap w) (destroyedMaps w)
         (windowAMap w) (destroyed w) (animationFrameId w) (pendingFrame w)
         (nextFrame w) (messages w) (console w)).

Definition setNextMap (v : nat) : M unit := fun w =>
  (tt, mkWorld (loading w) (loaderPromise w) (loadCalls w)
         (securityConfig w) (containerRef w) (mapInstanceRef w) v
         (destroyedMaps w) (windowAMap w) (destroyed w) (animationFrameId w)
         (pendingFrame w) (nextFrame w) (messages w) (console w)).

Definition setDestroyedMaps (v : list nat) : M unit := fun w =>
  (tt, mkWorld (loading w) (loaderPromise w) (loadCalls w)
         (securityConfig w) (containerRef w) (mapInstanceRef w) (nextMap w)
         v (windowAMap w) (destroyed w) (animationFrameId w)
         (pendingFrame w) (nextFrame w) (messages w) (console w)).

Definition setWindowAMap (v : bool) : M unit := fun w =>
  (tt, mkWorld (loading w) (loaderPromise w) (loadCalls w)
         (securityConfig w) (containerRef w) (mapInstanceRef w) (nextMap w)
         (destroyedMaps w) v (destroyed w) (animationFrameId w)
         (pendingFrame w) (nextFrame w) (messages w) (console w)).

Definition setDestroyed (v : bool) : M unit := fun w =>
  (tt, mkWorld (loading w) (loaderPromise w) (loadCalls w)
         (securityConfig w) (containerRef w) (mapInstanceRef w) (nextMap w)
         (destroyedMaps w) (windowAMap w) v (animationFrameId w)
         (pendingFrame w) (nextFrame w) (messages w) (console w)).

Definition setAnimationFrameId (v : option nat) : M unit := fun w =>
  (tt, mkWorld (loading w) (loaderPromise w) (loadCalls w)
         (securityConfig w) (containerRef w) (mapInstanceRef w) (nextMap w)
         (destroyedMaps w) (windowAMap w) (destroyed w) v (pendingFrame w)
         (nextFrame w) (messages w) (console w)).

Definition setPendingFrame (v : option nat) : M unit := fun w =>
  (tt, mkWorld (loading w) (loaderPromise w) (loadCalls w)
         (securityConfig w) (containerRef w) (mapInstanceRef w) (nextMap w)
         (destroyedMaps w) (windowAMap w) (destroyed w) (animationFrameId w)
         v (nextFrame w) (messages w) (console w)).

Definition setNextFrame (v : nat) : M unit := fun w =>
  (tt, mkWorld (loading w) (loaderPromise w) (loadCalls w)
         (securityConfig w) (containerRef w) (mapInstanceRef w) (nextMap w)
         (destroyedMaps w) (windowAMap w) (destroyed w) (animationFrameId w)
         (pendingFrame w) v (messages w) (console w)).

Definition setMessages (v : list string) : M unit := fun w =>
  (tt, mkWorld (loading w) (loaderPromise w) (loadCalls w)
         (securityConfig w) (containerRef w) (mapInstanceRef w) (nextMap w)
         (destroyedMaps w) (windowAMap w) (destroyed w) (animationFrameId w)
         (pendingFrame w) (nextFrame w) v (console w)).

Definition setConsole (v : list string) : M unit := fun w =>
  (tt, mkWorld (loading w) (loaderPromise w) (loadCalls w)
         (securityConfig w) (containerRef w) (mapInstanceRef w) (nextMap w)
         (destroyedMaps w) (windowAMap w) (destroyed w) (animationFrameId w)
         (pendingFrame w) (nextFrame w) (messages w) v).

Definition get {A} (f : World -> A) : M A := fun w => (f w, w).

Definition messageApi_error (content : string) : M unit :=
  l <- get messages ;; setMessages (l ++ [content]).

Definition console_error (label : string) : M unit :=
  l <- get console ;; setConsole (l ++ [label]).

(** [AMapLoader.load({...})] *)
Definition AMapLoader_load : M unit :=
  n <- get loadCalls ;; setLoadCalls (S n) ;; setLoaderPromise true.

Definition requestAnimationFrame : M nat :=
  n <- get nextFrame ;;
  setNextFrame (S n) ;; setPendingFrame (Some n) ;; ret n.

Definition cancelAnimationFrame (h : nat) : M unit :=
  p <- get pendingFrame ;;
  match p with
  | Some h' => if h' =? h then setPendingFrame None else ret tt
  | None => ret tt
  end.

Definition destroyMap (h : nat) : M unit :=
  l <- get destroyedMaps ;; setDestroyedMaps (l ++ [h]).

Definition newMap : M nat :=
  n <- get nextMap ;; setNextMap (S n) ;; ret n.

(** *** [initMap], cut at its [await] *)

(** From the call to [await loaderPromise]. *)
Definition initMap (key securityCode : option string) : M unit :=
  if negb (truthyVar key) || negb (truthyVar securityCode) then
    d <- get destroyed ;;
    if negb d then
      messageApi_error "地图配置错误：缺少 Key 或 Security Code" ;;
      setLoading false
    else ret tt
  else ret tt.

Inductive LoadResult :=
| Loaded
| LoadFailed.

(** From the settled load to the end of [initMap]. *)
Definition initMap_afterLoad (r : LoadResult) : M unit :=
  match r with
  | Loaded =>
      d <- get destroyed ;;
      c <- get containerRef ;;
      if d || negb c then ret tt
      else
        h <- requestAnimationFrame ;;
        setAnimationFrameId (Some h)
  | LoadFailed =>
      console_error "地图初始化失败:" ;;
      d <- get destroyed ;;
      if negb d then
        messageApi_error "地图服务连接失败" ;;
        setLoading false
      else ret tt
  end.

(** The callback handed to [requestAnimationFrame]. *)
Definition frameCallback : M unit :=
  d <- get destroyed ;;
  c <- get containerRef ;;
  if d || negb c then ret tt
  else
    old <- get mapInstanceRef ;;
    match old with
    | Some h => destroyMap h
    | None => ret tt
    end ;;
    map <- newMap ;;
    setMapInstanceRef (Some map) ;;
    setWindowAMap true.
    (* the tool bar, the scale and the two event handlers below are then
       attached to the new map *)

(** Handler of the map's [complete] event. *)
Definition onComplete : M unit :=
  d <- get destroyed ;;
  if negb d then setLoading false else ret tt.

(** Handler of the map's [error] event. *)
Definition onError : M unit :=
  d <- get destroyed ;;
  if negb d then
    messageApi_error "地图加载发生错误" ;;
    setLoading false
  else ret tt.

(** *** The effect and its cleanup *)

Definition effect (e : ImportMetaEnv) : M unit :=
  setDestroyed false ;;
  setAnimationFrameId None ;;
  let key := VITE_AMAP_KEY e in
  let securityCode := VITE_AMAP_SECURITY_CODE e in
  (if truthyVar securityCode then setSecurityConfig securityCode else ret tt) ;;
  started <- get loaderPromise ;;
  (if negb started && truthyVar key then AMapLoader_load else ret tt) ;;
  initMap key securityCode.

Definition cleanup : M unit :=
  setDestroyed true ;;
  f <- get animationFrameId ;;
  match f with
  | Some h => cancelAnimationFrame h
  | None => ret tt
  end ;;
  m <- get mapInstanceRef ;;
  match m with
  | Some h => destroyMap h ;; setMapInstanceRef None
  | None => ret tt
  end.

(** *** What can happen after the effect has run *)

Inductive Action :=
| LoadSettled (r : LoadResult)
| Frame
| MapComplete
| MapError
| Cleanup.

(** A frame runs its callback only while the request is pending. *)
Definition frame : M unit :=
  p <- get pendingFrame ;;
  match p with
  | Some _ => setPendingFrame None ;; frameCallback
  | None => ret tt
  end.

Definition step (a : Action) : M unit :=
  match a with
  | LoadSettled r => initMap_afterLoad r
  | Frame => frame
  | MapComplete => onComplete
  | MapError => onError
  | Cleanup => cleanup
  end.

Fixpoint run (l : list Action) (w : World) : World :=
  match l with
  | [] => w
  | a :: rest => run rest (exec (step a) w)
  end.

End MapAdapter.

(** ** Sample data

    The order of the portal's quick-search button and a session for it. *)

Module Samples.

Definition sampleOrder : Order :=
  mkOrder "o-1" "ORD202401150001" shipping None None None None.

Definition deliveredOrder : Order :=
  mkOrder "o-1" "ORD202401150001" delivered None None None None.

Definition pointAt (ts : string) : TrajectoryPoint :=
  mkTrajectoryPoint ("t-" ++ ts) "o-1" "in_transit" "" None ts.

Definition sampleItem : OrderItem :=
  mkOrderItem "i-1" "o-1" "box" 10%N 2%N 20%N "2024-01-15T07:00:00Z"
              "2024-01-15T07:00:00Z".

Definition sampleTrajectories : list TrajectoryPoint :=
  [pointAt "2024-01-15T10:00:00Z"; pointAt "2024-01-15T08:00:00Z"].

(** A point older than the newest one of [sampleTrajectories]. *)
Definition latePoint : TrajectoryPoint := pointAt "2024-01-15T09:00:00Z".

Definition sampleSession : TrackingData :=
  mkTrackingData sampleOrder sampleTrajectories [sampleItem].

Definition samplePageSession : Page.TrackingData :=
  Page.mkTrackingData sampleOrder sampleTrajectories.

(** A search for the sample order that succeeds, in the hook. *)
Definition trackedSearch : list Hook.Action :=
  [Hook.CallHandleSearch (lit "ORD202401150001");
   Hook.LookupSettled (ResponseSuccess (Some sampleOrder));
   Hook.SecondarySettled sampleOrder (ResponseSuccess sampleTrajectories)
     (ResponseSuccess [sampleItem])].

Definition tracked : Hook.World :=
  Hook.run trackedSearch (Hook.initial true).

(** The same on the earlier page. *)
Definition pageTrackedSearch : list Page.Action :=
  [Page.CallHandleSearch (lit "ORD202401150001");
   Page.LookupSettled (ResponseSuccess (Some sampleOrder));
   Page.TrajectoriesSettled sampleOrder (ResponseSuccess sampleTrajectories)].

Definition pageTracked : Page.World := Page.run pageTrackedSearch Page.initial.

(** The user has started a second search, whose lookup is still in
    flight: the session is cleared, the first channel is still held. *)
Definition researching : Hook.World :=
  Hook.run [Hook.CallHandleSearch (lit "ORD202401150002")] tracked.

Definition pageResearching : Page.World :=
  Page.run [Page.CallHandleSearch (lit "ORD202401150002")] pageTracked.

(** The view is unmounted while the lookup of a search is in flight; the
    lookup and the secondary queries then settle. *)
Definition unmountedMidFetch : list Hook.Action :=
  [Hook.CallHandleSearch (lit "ORD202401150001");
   Hook.Unmount;
   Hook.LookupSettled (ResponseSuccess (Some sampleOrder));
   Hook.SecondarySettled sampleOrder (ResponseSuccess sampleTrajectories)
     (ResponseSuccess [sampleItem])].

(** Map configurations: complete, without key, without security code. *)
Definition configured : MapAdapter.ImportMetaEnv :=
  MapAdapter.mkImportMetaEnv (Some "amap-key"%string) (Some "amap-code"%string).

Definition withoutKey : MapAdapter.ImportMetaEnv :=
  MapAdapter.mkImportMetaEnv None (Some "amap-code"%string).

Definition withoutSecurityCode : MapAdapter.ImportMetaEnv :=
  MapAdapter.mkImportMetaEnv (Some "amap-key"%string) None.

(** The map is mounted with a complete configuration and the load is
    awaited. *)
Definition mapLoading : MapAdapter.World :=
  exec (MapAdapter.effect configured) (MapAdapter.initial false).

Definition networkDown : PostgrestError :=
  mkPostgrestError "Failed to fetch" false.

End Samples.

(** ** Predicates on the hook's world used by the invariants below *)

Module HookInv.

Import Hook.

(** A delivery of the change feed, as opposed to a timer firing. *)
Definition isDelivery (a : Action) : bool :=
  match a with
  | OrderUpdated _ _ | TrajectoryInserted _ _ => true
  | _ => false
  end.

(** Every pending timeout falls due within 1500 ms, and the indicator is
    set only while some timeout is pending. *)
Definition timersWithinDelay (w : World) : Prop :=
  Forall (fun tm => (fst tm <= now (env w) + 1500)%N) (timers (env w)) /\
  (isUpdating w = true -> timers (env w) <> []).

(** The shown order is the one the held ref was opened for. *)
Definition sessionMatchesRef (w : World) : Prop :=
  forall d, trackingData w = Some d ->
    exists c, subscriptionRef w = Some c /\ chan_orderId c = order_id (order d).

(** First and last code unit of a string. *)
Definition firstUnit (s : jsstring) : option N := hd_error s.

Definition lastUnit (s : jsstring) : option N := hd_error (rev s).

(** Does the console hold a line written by [showMessage]? *)
Definition isConsoleLog (c : ConsoleLine) : bool :=
  match c with
  | ConsoleLog _ _ => true
  | ConsoleError _ _ => false
  end.

End HookInv.

(** ** Deliveries of the feed on the earlier page *)

Module PageInv.

Import Page.

Definition isDelivery (a : Action) : bool :=
  match a with
  | OrderUpdated _ _ | TrajectoryInserted _ _ => true
  | _ => false
  end.

End PageInv.

(** ** The memoised views of the hook

    [parseTrajectoryCoordinate] and [parseOrderCoordinate] come from the
    coordinate parser, which is not among the sources, and [Coordinate]
    from [@/types/amap]: the views are given over any parser and any
    coordinate type.  [orderItemsStats] adds floating-point numbers and is
    left out. *)

Module Views.

Inductive Endpoint := sender | receiver.

Section Derived.

Variable Coordinate : Type.
Variable parseTrajectoryCoordinate : TrajectoryPoint -> option Coordinate.
Variable parseOrderCoordinate : Order -> Endpoint -> option Coordinate.

(** [{ ...t, ...coord }]: the point with its coordinate beside it. *)
Definition TrajectoryPointWithCoords : Type := (TrajectoryPoint * Coordinate)%type.

(** [.filter((t) => t !== null)] *)
Fixpoint notNull {A} (l : list (option A)) : list A :=
  match l with
  | [] => []
  | None :: rest => notNull rest
  | Some a :: rest => a :: notNull rest
  end.

Definition mapTrajectories (trackingData : option TrackingData)
  : list TrajectoryPointWithCoords :=
  match trackingData with
  | None => []
  | Some d =>
      notNull
        (map (fun t =>
                match parseTrajectoryCoordinate t with
                | None => None
                | Some coord => Some (t, coord)
                end)
             (trajectories d))
  end.

Definition startPoint (trackingData : option TrackingData) : option Coordinate :=
  match trackingData with
  | None => None
  | Some d => parseOrderCoordinate (order d) sender
  end.

Definition endPoint (trackingData : option TrackingData) : option Coordinate :=
  match trackingData with
  | None => None
  | Some d => parseOrderCoordinate (order d) receiver
  end.

End Derived.

End Views.

(** ** Runs of the map component's effect

    React runs the effect again after its cleanup (twice on mount in strict
    mode, and whenever [messageApi] changes).  A new run has closure
    variables of its own; [destroyed] and [animationFrameId] below are
    those of the latest run. *)

Module MapLifecycle.

Import MapAdapter.

Inductive Event :=
| EffectRun (e : ImportMetaEnv)
| After (a : Action).

Definition stepEvent (ev : Event) : M unit :=
  match ev with
  | EffectRun e => effect e
  | After a => step a
  end.

Fixpoint runEvents (l : list Event) (w : World) : World :=
  match l with
  | [] => w
  | ev :: rest => runEvents rest (exec (stepEvent ev) w)
  end.

(** The map currently held, as a list. *)
Definition held (w : World) : list nat :=
  match mapInstanceRef w with
  | Some h => [h]
  | None => []
  end.

(** Every map constructed so far is destroyed or is the one held, and none
    is destroyed twice. *)
Definition mapsAccountedFor (w : World) : Prop :=
  destroyedMaps w ++ held w = seq 0 (nextMap w).

(** A pending frame request is the one the effect remembers. *)
Definition frameTracked (w : World) : Prop :=
  pendingFrame w = None \/ pendingFrame w = animationFrameId w.

(** The part of the world the user and the SDK can see. *)
Definition visible (w : World)
  : bool * list string * option nat * nat * list nat * bool :=
  (loading w, messages w, mapInstanceRef w, nextMap w, destroyedMaps w,
   windowAMap w).

End MapLifecycle.

(** ** Later mounts on the shared client

    The Supabase client is a module-level singleton: it outlives the
    component, while the state cells and the ref are created anew by every
    mount.  A mount therefore starts on whatever the client holds at that
    moment.  Only the steps of the newly mounted instance are run on such
    a world; callbacks of earlier instances write to cells that no longer
    exist. *)

Module Mounts.

(** The hook mounted on a client, timer queue and outputs in state [e]. *)
Definition hookOn (withToast : bool) (e : Env) : Hook.World :=
  Hook.mkWorld false false None false None withToast true e.

(** The earlier page mounted on [e]. *)
Definition pageOn (e : Env) : Page.World :=
  Page.mkWorld false false None false None true e.

(** The channels left when the channel the hook's ref points to is removed. *)
Definition releasedChannels (w : Hook.World) : list RealtimeChannel :=
  match Hook.subscriptionRef w with
  | Some r => filter (fun c' => negb (chan_id c' =? chan_id r)) (channels (Hook.env w))
  | None => channels (Hook.env w)
  end.

Definition pageReleasedChannels (w : Page.World) : list RealtimeChannel :=
  match Page.subscriptionRef w with
  | Some r => filter (fun c' => negb (chan_id c' =? chan_id r)) (channels (Page.env w))
  | None => channels (Page.env w)
  end.

(** The client as the run of [Samples.unmountedMidFetch] leaves it: the
    view is gone and the channel of order o-1 is still subscribed. *)
Definition leakedClient : Env :=
  Hook.env (Hook.run Samples.unmountedMidFetch (Hook.initial true)).

Definition otherOrder : Order :=
  mkOrder "o-2" "ORD202401150002" pending None None None None.

(** A search for the other order that succeeds. *)
Definition searchOther : list Hook.Action :=
  [Hook.CallHandleSearch (lit "ORD202401150002");
   Hook.LookupSettled (ResponseSuccess (Some otherOrder));
   Hook.SecondarySettled otherOrder (ResponseSuccess []) (ResponseSuccess [])].

(** The view is mounted again on the leaked client and the other order is
    searched. *)
Definition secondMount : Hook.World :=
  Hook.run searchOther (hookOn true leakedClient).

(** The same on the earlier page, whose [handleSearch] has no mounted
    check either. *)
Definition pageLeakedClient : Env :=
  Page.env
    (Page.run [Page.CallHandleSearch (lit "ORD202401150001");
               Page.Unmount;
               Page.LookupSettled (ResponseSuccess (Some Samples.sampleOrder));
               Page.TrajectoriesSettled Samples.sampleOrder
                 (ResponseSuccess Samples.sampleTrajectories)]
              Page.initial).

Definition pageSecondMount : Page.World :=
  Page.run [Page.CallHandleSearch (lit "ORD202401150002");
            Page.LookupSettled (ResponseSuccess (Some otherOrder));
            Page.TrajectoriesSettled otherOrder (ResponseSuccess [])]
           (pageOn pageLeakedClient).

(** Two searches overlap: the first, for an unknown number, is still
    waiting for its lookup when the second is started, found and
    published; the first lookup then answers with no record. *)
Definition overlappingSearches : list Hook.Action :=
  [Hook.CallHandleSearch (lit "UNKNOWN123");
   Hook.CallHandleSearch (lit "ORD202401150001");
   Hook.LookupSettled (ResponseSuccess (Some Samples.sampleOrder));
   Hook.SecondarySettled Samples.sampleOrder
     (ResponseSuccess Samples.sampleTrajectories)
     (ResponseSuccess [Samples.sampleItem]);
   Hook.LookupSettled (ResponseSuccess None)].

End Mounts.

(** ** When [initMap] reaches its [await]

    [initMap] returns at the configuration check when the key or the
    security code is missing: only with both set does it await the loader,
    and only then is there a continuation for the settled load. *)

Module MapMount.

Import MapAdapter.

Definition awaitsLoad (e : ImportMetaEnv) : bool :=
  truthyVar (VITE_AMAP_KEY e) && truthyVar (VITE_AMAP_SECURITY_CODE e).

Definition isLoadSettled (a : Action) : bool :=
  match a with
  | LoadSettled _ => true
  | _ => false
  end.

(** One mount: the effect runs on [w], then the steps of [l]; a settled
    load is taken up only if [initMap] awaits it. *)
Definition runMount (e : ImportMetaEnv) (l : list Action) (w : World) : World :=
  run (if awaitsLoad e then l else filter (fun a => negb (isLoadSettled a)) l)
      (exec (effect e) w).

End MapMount.

(** * Properties of the hook *)

Module HookFacts.

Import Hook.

(** Unfolds the monadic plumbing of the hook down to record projections. *)
Ltac run_hook :=
  unfold exec, step, unmount, effectCleanup, cleanupSubscription,
    handleSearch_afterSecondary, handleSearch_afterLookup,
    tryCatchFinally, handleSearch_catch, handleSearch_finally,
    subscribeToOrderUpdates, removeHeldChannel,
    onOrderUpdate, onTrajectoryInsert, showMessage,
    supabase_removeChannel, supabase_channel, supabase_query, setTimeout,
    console_error, onEnv, withEnv, markUnmounted, writeSubscriptionRef,
    readSubscriptionRef, setIsUpdating, setTrackingData, setSearched,
    setLoading, bind, ret in *;
  cbn [fst snd loading searched trackingData isUpdating subscriptionRef
       toastMessage mounted env channels nextChannel requests now timers
       toasts console removeChannel openChannel issue addTimer toast
       logLine advanceTo] in *.

(** A property kept by every step holds along every run. *)
Lemma run_invariant (P : World -> Prop) :
  (forall a w, P w -> P (exec (step a) w)) ->
  forall l w, P w -> P (run l w).
Proof.
  intros Hstep l. induction l as [|a l IH]; intros w Hw; cbn [run].
  - exact Hw.
  - apply IH, Hstep, Hw.
Qed.

(** Timer callbacks touch [isUpdating] only. *)
Lemma runCallbacks_frame l w :
  let w' := snd (runCallbacks l w) in
  loading w' = loading w /\ searched w' = searched w /\
  trackingData w' = trackingData w /\
  subscriptionRef w' = subscriptionRef w /\
  toastMessage w' = toastMessage w /\ mounted w' = mounted w /\
  env w' = env w.
Proof.
  revert w. induction l as [|[t cb] l IH]; intros w; cbn.
  - repeat split.
  - destruct cb. unfold bind. cbn.
    specialize (IH (snd (setIsUpdating false w))). cbn in IH.
    exact IH.
Qed.

Lemma runCallbacks_isUpdating l w :
  isUpdating (snd (runCallbacks l w)) =
  match l with [] => isUpdating w | _ :: _ => false end.
Proof.
  revert w. induction l as [|[t cb] l IH]; intros w; cbn.
  - reflexivity.
  - destruct cb. unfold bind. cbn. rewrite IH.
    destruct l; reflexivity.
Qed.

(** What [elapse] does to each part of the world. *)
Lemma elapse_spec ms w :
  let t := (now (env w) + ms)%N in
  let w' := exec (elapse ms) w in
  loading w' = loading w /\ searched w' = searched w /\
  trackingData w' = trackingData w /\
  subscriptionRef w' = subscriptionRef w /\
  toastMessage w' = toastMessage w /\ mounted w' = mounted w /\
  env w' = advanceTo t (env w) /\
  isUpdating w' =
    match dueBy t (env w) with [] => isUpdating w | _ :: _ => false end.
Proof.
  cbn zeta. unfold exec, elapse, bind, onEnv, withEnv. cbn [fst snd].
  pose proof (runCallbacks_frame (dueBy (now (env w) + ms) (env w)) w) as F.
  cbn zeta in F. destruct F as (F1 & F2 & F3 & F4 & F5 & F6 & F7).
  cbn [loading searched trackingData subscriptionRef toastMessage mounted
       env isUpdating].
  rewrite F7. repeat split; try assumption.
  apply runCallbacks_isUpdating.
Qed.

Lemma removeHeldChannel_releases w :
  heldIsOnly w ->
  channels (env (exec removeHeldChannel w)) = [] /\
  subscriptionRef (exec removeHeldChannel w) = subscriptionRef w /\
  nextChannel (env (exec removeHeldChannel w)) = nextChannel (env w).
Proof.
  intros [H | (c & Hc & Hr)]; run_hook.
  - destruct (subscriptionRef w) eqn:E; cbn; rewrite ?H, ?E; auto.
  - rewrite Hr. cbn. rewrite Hc. cbn. rewrite Nat.eqb_refl. auto.
Qed.

Lemma subscribe_installs orderId w :
  heldIsOnly w ->
  let w' := exec (subscribeToOrderUpdates orderId) w in
  let c := mkChannel (nextChannel (env w))
                     ("order-tracking-" ++ orderId) orderId in
  channels (env w') = [c] /\ subscriptionRef w' = Some c.
Proof.
  intros H. destruct (removeHeldChannel_releases H) as (Hc & _ & Hn).
  cbn zeta. unfold subscribeToOrderUpdates, exec, bind in *.
  unfold supabase_channel, withEnv, writeSubscriptionRef, openChannel.
  cbn [fst snd env channels nextChannel subscriptionRef].
  rewrite Hc, Hn. split; reflexivity.
Qed.

Lemma heldIsOnly_same_channels w w' :
  channels (env w') = channels (env w) ->
  subscriptionRef w' = subscriptionRef w ->
  heldIsOnly w -> heldIsOnly w'.
Proof.
  intros Hc Hr [H | (c & H1 & H2)].
  - left. congruence.
  - right. exists c. split; congruence.
Qed.

Lemma showMessage_frame type content w :
  let w' := snd (showMessage type content w) in
  loading w' = loading w /\ searched w' = searched w /\
  trackingData w' = trackingData w /\ isUpdating w' = isUpdating w /\
  subscriptionRef w' = subscriptionRef w /\
  toastMessage w' = toastMessage w /\ mounted w' = mounted w /\
  channels (env w') = channels (env w) /\
  nextChannel (env w') = nextChannel (env w) /\
  requests (env w') = requests (env w) /\
  now (env w') = now (env w) /\ timers (env w') = timers (env w).
Proof.
  unfold showMessage. destruct (toastMessage w) eqn:E; run_hook;
    rewrite ?E; repeat split.
Qed.

(** Apart from the three steps that release or replace the channel, a
    step leaves the client's channels and the ref alone. *)
Lemma step_subscription_frame a w :
  touchesSubscription a = false ->
  channels (env (exec (step a) w)) = channels (env w) /\
  nextChannel (env (exec (step a) w)) = nextChannel (env w) /\
  subscriptionRef (exec (step a) w) = subscriptionRef w.
Proof.
  destruct a as [n | r | o t i | h o | h p | ms | | ]; cbn [touchesSubscription];
    intros Ht; try discriminate.
  - unfold exec, step, handleSearch.
    destruct (negb (truthy (trim n))); [cbn; auto|].
    run_hook. auto.
  - destruct r as [[o|]|e]; run_hook; cbn; run_hook;
      try (destruct (toastMessage w); cbn; auto); auto.
  - unfold exec, step, deliverOrderUpdate.
    destruct (liveChannel h (env w)) as [c|]; [|cbn; auto].
    destruct (order_id o =? chan_orderId c)%string; [|cbn; auto].
    run_hook. auto.
  - unfold exec, step, deliverTrajectoryInsert.
    destruct (liveChannel h (env w)) as [c|]; [|cbn; auto].
    destruct (trajectory_order_id p =? chan_orderId c)%string; [|cbn; auto].
    run_hook. destruct (toastMessage w); cbn; auto.
  - destruct (elapse_spec ms w) as (_ & _ & _ & Hr & _ & _ & He & _).
    unfold step. rewrite He, Hr. cbn. auto.
Qed.

Lemma secondary_is_subscribe o t i w :
  channels (env (exec (handleSearch_afterSecondary o t i) w)) =
    channels (env (exec (subscribeToOrderUpdates (order_id o)) w)) /\
  subscriptionRef (exec (handleSearch_afterSecondary o t i) w) =
    subscriptionRef (exec (subscribeToOrderUpdates (order_id o)) w).
Proof.
  destruct t as [tl|te], i as [il|ie]; run_hook; cbn;
    destruct (subscriptionRef w); cbn; auto.
Qed.

Lemma step_keeps_heldIsOnly a w : heldIsOnly w -> heldIsOnly (exec (step a) w).
Proof.
  intros H. destruct (touchesSubscription a) eqn:Ht.
  - destruct a; try discriminate; cbn [step].
    + destruct (secondary_is_subscribe orderData trajectoryResult itemsResult w)
        as (Hc & Hr).
      destruct (subscribe_installs (order_id orderData) H) as (Hc' & Hr').
      right. eexists. rewrite Hc, Hr. split; eassumption.
    + left. apply (removeHeldChannel_releases H).
    + left. destruct (removeHeldChannel_releases H) as (Hc & _).
      unfold unmount, effectCleanup, exec, bind, markUnmounted in *.
      cbn [snd env]. exact Hc.
  - destruct (step_subscription_frame a w Ht) as (Hc & _ & Hr).
    eapply heldIsOnly_same_channels; eassumption.
Qed.

Lemma initial_heldIsOnly b : heldIsOnly (initial b).
Proof. left. reflexivity. Qed.

Lemma reachable_heldIsOnly b l : heldIsOnly (run l (initial b)).
Proof.
  apply run_invariant; [exact step_keeps_heldIsOnly | apply initial_heldIsOnly].
Qed.

End HookFacts.

(** * Properties of the earlier page *)

Module PageFacts.

Import Page.

Ltac run_page :=
  unfold exec, step, unmount, effectCleanup, handleLogout,
    handleSearch_afterTrajectories, handleSearch_afterLookup,
    tryCatchFinally, handleSearch_catch, handleSearch_finally,
    subscribeToOrderUpdates, removeHeldChannel,
    onOrderUpdate, onTrajectoryInsert, message,
    supabase_removeChannel, supabase_channel, supabase_query, setTimeout,
    console_error, onEnv, withEnv, markUnmounted, writeSubscriptionRef,
    readSubscriptionRef, setIsUpdating, setTrackingData, setSearched,
    setLoading, bind, ret in *;
  cbn [fst snd loading searched trackingData isUpdating subscriptionRef
       mounted env channels nextChannel requests now timers
       toasts console removeChannel openChannel issue addTimer toast
       logLine advanceTo] in *.

Lemma page_run_invariant (P : World -> Prop) :
  (forall a w, P w -> P (exec (step a) w)) ->
  forall l w, P w -> P (run l w).
Proof.
  intros Hstep l. induction l as [|a l IH]; intros w Hw; cbn [run];
    [assumption | now apply IH, Hstep].
Qed.

Lemma page_runCallbacks_frame l w :
  let w' := snd (runCallbacks l w) in
  loading w' = loading w /\ searched w' = searched w /\
  trackingData w' = trackingData w /\
  subscriptionRef w' = subscriptionRef w /\
  mounted w' = mounted w /\ env w' = env w.
Proof.
  revert w. induction l as [|[t []] l IH]; intros w; cbn.
  - repeat split.
  - unfold bind. cbn. apply (IH (snd (setIsUpdating false w))).
Qed.

Lemma page_runCallbacks_isUpdating l w :
  isUpdating (snd (runCallbacks l w)) =
  match l with [] => isUpdating w | _ :: _ => false end.
Proof.
  revert w. induction l as [|[t []] l IH]; intros w; cbn; [reflexivity|].
  unfold bind. cbn. rewrite IH. destruct l; reflexivity.
Qed.

Lemma page_elapse_spec ms w :
  let t := (now (env w) + ms)%N in
  let w' := exec (elapse ms) w in
  loading w' = loading w /\ searched w' = searched w /\
  trackingData w' = trackingData w /\
  subscriptionRef w' = subscriptionRef w /\
  mounted w' = mounted w /\
  env w' = advanceTo t (env w) /\
  isUpdating w' =
    match dueBy t (env w) with [] => isUpdating w | _ :: _ => false end.
Proof.
  cbn zeta. unfold exec, elapse, bind, onEnv, withEnv. cbn [fst snd].
  destruct (page_runCallbacks_frame (dueBy (now (env w) + ms) (env w)) w)
    as (F1 & F2 & F3 & F4 & F5 & F6).
  cbn [loading searched trackingData subscriptionRef mounted env isUpdating].
  rewrite F6. repeat split; try assumption.
  apply page_runCallbacks_isUpdating.
Qed.

Lemma page_removeHeldChannel_releases w :
  heldIsOnly w ->
  channels (env (exec removeHeldChannel w)) = [] /\
  subscriptionRef (exec removeHeldChannel w) = subscriptionRef w /\
  nextChannel (env (exec removeHeldChannel w)) = nextChannel (env w).
Proof.
  intros [H | (c & Hc & Hr)]; run_page.
  - destruct (subscriptionRef w) eqn:E; cbn; rewrite ?H, ?E; auto.
  - rewrite Hr. cbn. rewrite Hc. cbn. rewrite Nat.eqb_refl. auto.
Qed.

Lemma page_subscribe_installs orderId w :
  heldIsOnly w ->
  let w' := exec (subscribeToOrderUpdates orderId) w in
  let c := mkChannel (nextChannel (env w))
                     ("order-tracking-" ++ orderId) orderId in
  channels (env w') = [c] /\ subscriptionRef w' = Some c.
Proof.
  intros H. destruct (page_removeHeldChannel_releases H) as (Hc & _ & Hn).
  cbn zeta. unfold subscribeToOrderUpdates, exec, bind in *.
  unfold supabase_channel, withEnv, writeSubscriptionRef, openChannel.
  cbn [fst snd env channels nextChannel subscriptionRef].
  rewrite Hc, Hn. split; reflexivity.
Qed.

Lemma page_step_subscription_frame a w :
  touchesSubscription a = false ->
  channels (env (exec (step a) w)) = channels (env w) /\
  nextChannel (env (exec (step a) w)) = nextChannel (env w) /\
  subscriptionRef (exec (step a) w) = subscriptionRef w.
Proof.
  destruct a as [n | r | o t | h o | h p | ms | | ]; cbn [touchesSubscription];
    intros Ht; try discriminate.
  - unfold exec, step, handleSearch.
    destruct (negb (truthy (trim n))); [cbn; auto|].
    run_page. auto.
  - destruct r as [[o|]|e]; run_page; cbn; run_page; auto.
  - unfold exec, step, deliverOrderUpdate.
    destruct (liveChannel h (env w)) as [c|]; [|cbn; auto].
    destruct (order_id o =? chan_orderId c)%string; [|cbn; auto].
    run_page. auto.
  - unfold exec, step, deliverTrajectoryInsert.
    destruct (liveChannel h (env w)) as [c|]; [|cbn; auto].
    destruct (trajectory_order_id p =? chan_orderId c)%string; [|cbn; auto].
    run_page. auto.
  - destruct (page_elapse_spec ms w) as (_ & _ & _ & Hr & _ & He & _).
    unfold step. rewrite He, Hr. cbn. auto.
Qed.

Lemma trajectories_is_subscribe o t w :
  channels (env (exec (handleSearch_afterTrajectories o t) w)) =
    channels (env (exec (subscribeToOrderUpdates (order_id o)) w)) /\
  subscriptionRef (exec (handleSearch_afterTrajectories o t) w) =
    subscriptionRef (exec (subscribeToOrderUpdates (order_id o)) w).
Proof.
  destruct t as [tl|te]; run_page; cbn;
    destruct (subscriptionRef w); cbn; auto.
Qed.

Lemma page_step_keeps_heldIsOnly a w : heldIsOnly w -> heldIsOnly (exec (step a) w).
Proof.
  intros H. destruct (touchesSubscription a) eqn:Ht.
  - destruct a; try discriminate; cbn [step].
    + destruct (trajectories_is_subscribe orderData r w) as (Hc & Hr).
      destruct (page_subscribe_installs (order_id orderData) H) as (Hc' & Hr').
      right. eexists. rewrite Hc, Hr. split; eassumption.
    + left. apply (page_removeHeldChannel_releases H).
    + left. destruct (page_removeHeldChannel_releases H) as (Hc & _).
      unfold unmount, effectCleanup, exec, bind, markUnmounted in *.
      cbn [snd env]. exact Hc.
  - destruct (page_step_subscription_frame a w Ht) as (Hc & _ & Hr).
    destruct H as [H | (c & H1 & H2)].
    + left. congruence.
    + right. exists c. split; congruence.
Qed.

Lemma page_reachable_heldIsOnly l : heldIsOnly (run l initial).
Proof.
  apply page_run_invariant; [exact page_step_keeps_heldIsOnly | left; reflexivity].
Qed.

End PageFacts.

(** * Properties of the map component *)

Module MapFacts.

Import MapAdapter.

Ltac run_map :=
  unfold exec, step, frame, cleanup, effect, onError, onComplete,
    frameCallback, initMap_afterLoad, initMap, newMap, destroyMap,
    cancelAnimationFrame, requestAnimationFrame, AMapLoader_load,
    console_error, messageApi_error, get, setConsole, setMessages,
    setNextFrame, setPendingFrame, setAnimationFrameId, setDestroyed,
    setWindowAMap, setDestroyedMaps, setNextMap, setMapInstanceRef,
    setSecurityConfig, setLoadCalls, setLoaderPromise, setLoading,
    bind, ret in *;
  cbn [fst snd loading loaderPromise loadCalls securityConfig containerRef
       mapInstanceRef nextMap destroyedMaps windowAMap destroyed
       animationFrameId pendingFrame nextFrame messages console] in *.

(** No step of the component turns the overlay back on. *)
Lemma step_keeps_loaded a w :
  loading w = false -> loading (exec (step a) w) = false.
Proof.
  intros H. destruct a as [[|] | | | | ]; run_map.
  - destruct (destroyed w || negb (containerRef w)); cbn; exact H.
  - destruct (destroyed w); cbn; [exact H | reflexivity].
  - destruct (pendingFrame w); cbn; [|exact H].
    destruct (destroyed w || negb (containerRef w)); cbn; [exact H|].
    destruct (mapInstanceRef w); cbn; exact H.
  - destruct (destroyed w); cbn; [exact H | reflexivity].
  - destruct (destroyed w); cbn; [exact H | reflexivity].
  - destruct (animationFrameId w) as [h|]; cbn.
    + destruct (pendingFrame w) as [h'|]; cbn.
      * destruct (h' =? h); cbn; destruct (mapInstanceRef w); cbn; exact H.
      * destruct (mapInstanceRef w); cbn; exact H.
    + destruct (mapInstanceRef w); cbn; exact H.
Qed.

Lemma run_keeps_loaded l : forall w, loading w = false -> loading (run l w) = false.
Proof.
  induction l as [|a l IH]; intros w H; cbn [run]; [exact H|].
  apply IH, step_keeps_loaded, H.
Qed.

End MapFacts.

(** * Runs of the embedding on the specification's scenarios *)

(** A search that succeeds publishes the session as fetched, newest point
    first, clears the loading flag and holds one channel for the order. *)
Example tracked_search_outcome :
  Hook.trackingData Samples.tracked = Some Samples.sampleSession /\
  newestFirst Samples.sampleTrajectories = true /\
  Hook.loading Samples.tracked = false /\
  Hook.searched Samples.tracked = true /\
  channels (Hook.env Samples.tracked) = [mkChannel 0 "order-tracking-o-1" "o-1"] /\
  requests (Hook.env Samples.tracked)
    = [RpcGetOrderByNumber (lit "ORD202401150001");
       SelectTrajectories "o-1"; SelectOrderItems "o-1"].
Proof. vm_compute. repeat split. Qed.

(** A trajectory insert on the tracked order: three entries, the new one
    first, the indicator set and cleared 1500 ms later. *)
Example tracked_insert_outcome :
  option_map (fun d => List.length (trajectories d))
    (Hook.trackingData
       (Hook.run [Hook.TrajectoryInserted 0 (Samples.pointAt "2024-01-15T11:00:00Z")]
                 Samples.tracked)) = Some 3 /\
  Hook.isUpdating
    (Hook.run [Hook.TrajectoryInserted 0 (Samples.pointAt "2024-01-15T11:00:00Z")]
              Samples.tracked) = true /\
  Hook.isUpdating
    (Hook.run [Hook.TrajectoryInserted 0 (Samples.pointAt "2024-01-15T11:00:00Z");
               Hook.Elapse 1500]
              Samples.tracked) = false.
Proof. vm_compute. repeat split. Qed.

(** An event for another order does not pass the channel's filter, and an
    event on a handle the client does not hold reaches no handler. *)
Example filtered_events_are_dropped :
  Hook.run [Hook.OrderUpdated 0
              (mkOrder "o-2" "ORD202401150002" pending None None None None)]
           Samples.tracked = Samples.tracked /\
  Hook.run [Hook.OrderUpdated 7 Samples.deliveredOrder] Samples.tracked
    = Samples.tracked.
Proof. vm_compute. split; reflexivity. Qed.

(** The trajectory query fails while the lookup and the item query succeed. *)
Example degraded_search_outcome :
  Hook.trackingData
    (Hook.run [Hook.CallHandleSearch (lit "ORD202401150001");
               Hook.LookupSettled (ResponseSuccess (Some Samples.sampleOrder));
               Hook.SecondarySettled Samples.sampleOrder
                 (ResponseFailure Samples.networkDown)
                 (ResponseSuccess [Samples.sampleItem])]
              (Hook.initial true))
  = Some (mkTrackingData Samples.sampleOrder [] [Samples.sampleItem]) /\
  console (Hook.env
    (Hook.run [Hook.CallHandleSearch (lit "ORD202401150001");
               Hook.LookupSettled (ResponseSuccess (Some Samples.sampleOrder));
               Hook.SecondarySettled Samples.sampleOrder
                 (ResponseFailure Samples.networkDown)
                 (ResponseSuccess [Samples.sampleItem])]
              (Hook.initial true)))
  = [ConsoleError "轨迹加载失败" Samples.networkDown].
Proof. vm_compute. split; reflexivity. Qed.

(** A lookup that fails with a store error which is not an [Error] object
    is reported with the fallback text. *)
Example failed_lookup_outcome :
  toasts (Hook.env
    (Hook.run [Hook.CallHandleSearch (lit "ORD202401150001");
               Hook.LookupSettled (ResponseFailure Samples.networkDown)]
              (Hook.initial true)))
  = [(LError, "查询失败，请稍后重试"%string)].
Proof. vm_compute. reflexivity. Qed.

Example trim_examples :
  trim (lit "  ORD 1 ") = lit "ORD 1" /\
  trim [32; 9; 10; 160; 12288; 65279]%N = [] /\
  trim [] = [].
Proof. vm_compute. repeat split. Qed.

(** The map with a complete configuration: load, frame, [complete]. *)
Example map_loads :
  MapAdapter.loading Samples.mapLoading = true /\
  MapAdapter.loadCalls Samples.mapLoading = 1 /\
  MapAdapter.loading
    (MapAdapter.run [MapAdapter.LoadSettled MapAdapter.Loaded; MapAdapter.Frame;
                     MapAdapter.MapComplete]
                    Samples.mapLoading) = false /\
  MapAdapter.mapInstanceRef
    (MapAdapter.run [MapAdapter.LoadSettled MapAdapter.Loaded; MapAdapter.Frame;
                     MapAdapter.MapComplete]
                    Samples.mapLoading) = Some 0 /\
  MapAdapter.messages
    (MapAdapter.run [MapAdapter.LoadSettled MapAdapter.Loaded; MapAdapter.Frame;
                     MapAdapter.MapComplete]
                    Samples.mapLoading) = [].
Proof. vm_compute. repeat split. Qed.

(** * The claims *)

(** ** Subscriptions *)

(** Within one mount on a client that holds no channel, the client holds
    at most one change-subscription at every point: whatever the steps
    taken since the mount, the count is at most 1; inside
    [subscribeToOrderUpdates] the held channel is released first (count 0)
    and the new channel is then the only one, stored in [subscriptionRef];
    a search that succeeds leaves exactly one.  Shown for the hook and for
    the earlier page.  A later mount on a client that still holds a channel
    is outside this statement: see [Mounts] and the lemma on the second
    mount below. *)
Theorem subscription_count_at_most_one :
  (forall (withToast : bool) (trace : list Hook.Action),
     let w := Hook.run trace (Hook.initial withToast) in
     Hook.subscriptionCount w <= 1 /\
     forall orderId,
       Hook.subscriptionCount (exec Hook.removeHeldChannel w) = 0 /\
       (exists c,
          channels (Hook.env (exec (Hook.subscribeToOrderUpdates orderId) w)) = [c] /\
          Hook.subscriptionRef (exec (Hook.subscribeToOrderUpdates orderId) w) = Some c /\
          chan_orderId c = orderId) /\
       forall o t i,
         Hook.subscriptionCount (exec (Hook.handleSearch_afterSecondary o t i) w) = 1)
  /\
  (forall trace : list Page.Action,
     let w := Page.run trace Page.initial in
     Page.subscriptionCount w <= 1 /\
     forall orderId,
       Page.subscriptionCount (exec Page.removeHeldChannel w) = 0 /\
       (exists c,
          channels (Page.env (exec (Page.subscribeToOrderUpdates orderId) w)) = [c] /\
          Page.subscriptionRef (exec (Page.subscribeToOrderUpdates orderId) w) = Some c /\
          chan_orderId c = orderId) /\
       forall o t,
         Page.subscriptionCount (exec (Page.handleSearch_afterTrajectories o t) w) = 1).
Proof.
  split.
  - intros b trace w.
    pose proof (HookFacts.reachable_heldIsOnly b trace) as H. fold w in H.
    split.
    + unfold Hook.subscriptionCount.
      destruct H as [H | (c & H & _)]; rewrite H; cbn; lia.
    + intros orderId. split; [|split].
      * unfold Hook.subscriptionCount.
        now rewrite (proj1 (HookFacts.removeHeldChannel_releases H)).
      * destruct (HookFacts.subscribe_installs orderId H) as (Hc & Hr).
        eexists. split; [exact Hc | split; [exact Hr | reflexivity]].
      * intros o t i. unfold Hook.subscriptionCount.
        rewrite (proj1 (HookFacts.secondary_is_subscribe o t i w)).
        now rewrite (proj1 (HookFacts.subscribe_installs (order_id o) H)).
  - intros trace w.
    pose proof (PageFacts.page_reachable_heldIsOnly trace) as H. fold w in H.
    split.
    + unfold Page.subscriptionCount.
      destruct H as [H | (c & H & _)]; rewrite H; cbn; lia.
    + intros orderId. split; [|split].
      * unfold Page.subscriptionCount.
        now rewrite (proj1 (PageFacts.page_removeHeldChannel_releases H)).
      * destruct (PageFacts.page_subscribe_installs orderId H) as (Hc & Hr).
        eexists. split; [exact Hc | split; [exact Hr | reflexivity]].
      * intros o t. unfold Page.subscriptionCount.
        rewrite (proj1 (PageFacts.trajectories_is_subscribe o t w)).
        now rewrite (proj1 (PageFacts.page_subscribe_installs (order_id o) H)).
Qed.

(** ** Change events *)

Lemma newestFirst_cons p l :
  newestFirst (p :: l) = true <->
  newestFirst l = true /\ (forall b, hd_error l = Some b -> notOlder p b = true).
Proof.
  destruct l as [|b l].
  - cbn. split; [intros _; split; [reflexivity | discriminate] | reflexivity].
  - change (newestFirst (p :: b :: l)) with (notOlder p b && newestFirst (b :: l)).
    rewrite andb_true_iff. cbn [hd_error]. split.
    + intros [H1 H2]. split; [exact H2 | intros b' E; now inversion E; subst].
    + intros [H1 H2]. split; [now apply H2 | exact H1].
Qed.

(** C2, the claim as written fails: a point that reaches the handler after
    a newer one is put at index 0 all the same and nothing is sorted.  The
    tracked session holds the points of 10:00 and 08:00; the feed then
    delivers the point of 09:00. *)
Lemma late_insert_breaks_newest_first :
  option_map trajectories (Hook.trackingData Samples.tracked)
    = Some Samples.sampleTrajectories /\
  newestFirst Samples.sampleTrajectories = true /\
  option_map trajectories
    (Hook.trackingData
       (exec (Hook.step (Hook.TrajectoryInserted 0 Samples.latePoint))
             Samples.tracked))
    = Some (Samples.latePoint :: Samples.sampleTrajectories) /\
  newestFirst (Samples.latePoint :: Samples.sampleTrajectories) = false.
Proof. vm_compute. repeat split. Qed.

(** C2, amended.  For every trajectory-inserted event delivered to an
    active session the handler prepends the new point and does not sort:
    the list is the new point followed by the old list, so its length grows
    by exactly 1 and the new entry is at index 0, and the order and the
    items are untouched.  The result is newest-first exactly when the old
    list was and the new point is not older than the old first entry.
    Shown for the hook and for the earlier page. *)
Theorem trajectory_insert_prepends :
  (forall (w : Hook.World) (d : TrackingData) (p : TrajectoryPoint),
     Hook.trackingData w = Some d ->
     exists d',
       Hook.trackingData (exec (Hook.onTrajectoryInsert p) w) = Some d' /\
       trajectories d' = p :: trajectories d /\
       List.length (trajectories d') = S (List.length (trajectories d)) /\
       nth_error (trajectories d') 0 = Some p /\
       order d' = order d /\ orderItems d' = orderItems d /\
       (newestFirst (trajectories d') = true <->
        newestFirst (trajectories d) = true /\
        forall b, hd_error (trajectories d) = Some b -> notOlder p b = true))
  /\
  (forall (w : Page.World) (d : Page.TrackingData) (p : TrajectoryPoint),
     Page.trackingData w = Some d ->
     exists d',
       Page.trackingData (exec (Page.onTrajectoryInsert p) w) = Some d' /\
       Page.trajectories d' = p :: Page.trajectories d /\
       List.length (Page.trajectories d') = S (List.length (Page.trajectories d)) /\
       nth_error (Page.trajectories d') 0 = Some p /\
       Page.order d' = Page.order d /\
       (newestFirst (Page.trajectories d') = true <->
        newestFirst (Page.trajectories d) = true /\
        forall b, hd_error (Page.trajectories d) = Some b -> notOlder p b = true)).
Proof.
  split; intros w d p Hd.
  - exists (mkTrackingData (order d) (p :: trajectories d) (orderItems d)).
    split.
    + unfold exec, Hook.onTrajectoryInsert, bind, Hook.setIsUpdating,
        Hook.setTrackingData. cbn [fst snd Hook.trackingData].
      rewrite Hd.
      destruct (HookFacts.showMessage_frame LSuccess "有新的物流动态"
        (Hook.mkWorld (Hook.loading w) (Hook.searched w)
           (Some (mkTrackingData (order d) (p :: trajectories d) (orderItems d)))
           true (Hook.subscriptionRef w) (Hook.toastMessage w) (Hook.mounted w)
           (Hook.env w))) as (_ & _ & H & _).
      cbn [Hook.trackingData] in H.
      unfold Hook.setTimeout, Hook.onEnv, Hook.withEnv.
      cbn [snd Hook.trackingData]. exact H.
    + cbn [trajectories order orderItems List.length nth_error].
      repeat (split; [reflexivity|]). apply newestFirst_cons.
  - exists (Page.mkTrackingData (Page.order d) (p :: Page.trajectories d)).
    split.
    + PageFacts.run_page. now rewrite Hd.
    + cbn [Page.trajectories Page.order List.length nth_error].
      repeat (split; [reflexivity|]). apply newestFirst_cons.
Qed.

Lemma trajectory_insert_prepends_witness :
  Hook.trackingData Samples.tracked = Some Samples.sampleSession /\
  Page.trackingData Samples.pageTracked = Some Samples.samplePageSession /\
  (exists d',
     Hook.trackingData
       (exec (Hook.onTrajectoryInsert (Samples.pointAt "2024-01-15T11:00:00Z"))
             Samples.tracked) = Some d' /\
     List.length (trajectories d') = 3) /\
  (exists d',
     Page.trackingData
       (exec (Page.onTrajectoryInsert (Samples.pointAt "2024-01-15T11:00:00Z"))
             Samples.pageTracked) = Some d' /\
     List.length (Page.trajectories d') = 3).
Proof.
  split; [reflexivity | split; [reflexivity | split]].
  - destruct (proj1 trajectory_insert_prepends Samples.tracked
                Samples.sampleSession
                (Samples.pointAt "2024-01-15T11:00:00Z") eq_refl)
      as (d' & H1 & _ & H3 & _).
    exists d'. split; [exact H1 | exact H3].
  - destruct (proj2 trajectory_insert_prepends Samples.pageTracked
                Samples.samplePageSession
                (Samples.pointAt "2024-01-15T11:00:00Z") eq_refl)
      as (d' & H1 & _ & H3 & _).
    exists d'. split; [exact H1 | exact H3].
Defined.

(** C5.  For every order-updated event delivered to an active session the
    handler replaces the order record by the event's record and leaves the
    trajectory list and the item list as they were; the same holds of the
    delivery as a whole, whether the channel passes the event on or not. *)
Theorem order_update_replaces_order_only :
  forall (w : Hook.World) (d : TrackingData) (payload_new : Order),
    Hook.trackingData w = Some d ->
    Hook.trackingData (exec (Hook.onOrderUpdate payload_new) w)
      = Some (mkTrackingData payload_new (trajectories d) (orderItems d)) /\
    forall h, exists d',
      Hook.trackingData (exec (Hook.deliverOrderUpdate h payload_new) w) = Some d' /\
      trajectories d' = trajectories d /\ orderItems d' = orderItems d /\
      (order d' = payload_new \/ order d' = order d).
Proof.
  intros w d o Hd.
  assert (E : Hook.trackingData (exec (Hook.onOrderUpdate o) w)
              = Some (mkTrackingData o (trajectories d) (orderItems d))).
  { HookFacts.run_hook. now rewrite Hd. }
  split; [exact E|].
  intros h. unfold Hook.deliverOrderUpdate, exec.
  destruct (liveChannel h (Hook.env w)) as [c|].
  - destruct (order_id o =? chan_orderId c)%string.
    + eexists. split; [exact E|]. cbn. auto.
    + exists d. cbn. auto.
  - exists d. cbn. auto.
Qed.

Lemma order_update_replaces_order_only_witness :
  Hook.trackingData Samples.tracked = Some Samples.sampleSession /\
  Hook.trackingData
    (exec (Hook.onOrderUpdate Samples.deliveredOrder) Samples.tracked)
  = Some (mkTrackingData Samples.deliveredOrder Samples.sampleTrajectories
            [Samples.sampleItem]).
Proof.
  split; [reflexivity|].
  exact (proj1 (order_update_replaces_order_only Samples.tracked
                  Samples.deliveredOrder eq_refl)).
Defined.

Lemma hook_feed_keeps_null l :
  forall w, forallb Hook.fromFeed l = true ->
    Hook.trackingData w = None -> Hook.trackingData (Hook.run l w) = None.
Proof.
  induction l as [|a l IH]; intros w Hf Hn; cbn [Hook.run]; [exact Hn|].
  cbn [forallb] in Hf. apply andb_true_iff in Hf. destruct Hf as [Ha Hl].
  apply IH; [exact Hl|].
  destruct a as [n | r | o t i | h o | h p | ms | | ]; try discriminate;
    cbn [Hook.step].
  - unfold exec, Hook.deliverOrderUpdate.
    destruct (liveChannel h (Hook.env w)) as [c|]; [|exact Hn].
    destruct (order_id o =? chan_orderId c)%string; [|exact Hn].
    HookFacts.run_hook. now rewrite Hn.
  - unfold exec, Hook.deliverTrajectoryInsert.
    destruct (liveChannel h (Hook.env w)) as [c|]; [|exact Hn].
    destruct (trajectory_order_id p =? chan_orderId c)%string; [|exact Hn].
    HookFacts.run_hook. destruct (Hook.toastMessage w); cbn; now rewrite Hn.
  - destruct (HookFacts.elapse_spec ms w) as (_ & _ & H & _). now rewrite H.
Qed.

Lemma page_feed_keeps_null l :
  forall w, forallb Page.fromFeed l = true ->
    Page.trackingData w = None -> Page.trackingData (Page.run l w) = None.
Proof.
  induction l as [|a l IH]; intros w Hf Hn; cbn [Page.run]; [exact Hn|].
  cbn [forallb] in Hf. apply andb_true_iff in Hf. destruct Hf as [Ha Hl].
  apply IH; [exact Hl|].
  destruct a as [n | r | o t | h o | h p | ms | | ]; try discriminate;
    cbn [Page.step].
  - unfold exec, Page.deliverOrderUpdate.
    destruct (liveChannel h (Page.env w)) as [c|]; [|exact Hn].
    destruct (order_id o =? chan_orderId c)%string; [|exact Hn].
    PageFacts.run_page. now rewrite Hn.
  - unfold exec, Page.deliverTrajectoryInsert.
    destruct (liveChannel h (Page.env w)) as [c|]; [|exact Hn].
    destruct (trajectory_order_id p =? chan_orderId c)%string; [|exact Hn].
    PageFacts.run_page. now rewrite Hn.
  - destruct (PageFacts.page_elapse_spec ms w) as (_ & _ & H & _). now rewrite H.
Qed.

(** C10.  An order-updated or trajectory-inserted event that arrives while
    no session is active leaves the session null: each handler returns null
    for a null session, and so does every sequence of feed deliveries and
    timer firings.  Shown for the hook and for the earlier page. *)
Theorem event_without_session_keeps_null :
  (forall w : Hook.World,
     Hook.trackingData w = None ->
     (forall o, Hook.trackingData (exec (Hook.onOrderUpdate o) w) = None) /\
     (forall p, Hook.trackingData (exec (Hook.onTrajectoryInsert p) w) = None) /\
     (forall events, forallb Hook.fromFeed events = true ->
        Hook.trackingData (Hook.run events w) = None))
  /\
  (forall w : Page.World,
     Page.trackingData w = None ->
     (forall o, Page.trackingData (exec (Page.onOrderUpdate o) w) = None) /\
     (forall p, Page.trackingData (exec (Page.onTrajectoryInsert p) w) = None) /\
     (forall events, forallb Page.fromFeed events = true ->
        Page.trackingData (Page.run events w) = None)).
Proof.
  split; intros w Hn; (split; [|split]).
  - intros o. HookFacts.run_hook. now rewrite Hn.
  - intros p. HookFacts.run_hook.
    destruct (Hook.toastMessage w); cbn; now rewrite Hn.
  - intros events Hf. now apply hook_feed_keeps_null.
  - intros o. PageFacts.run_page. now rewrite Hn.
  - intros p. PageFacts.run_page. now rewrite Hn.
  - intros events Hf. now apply page_feed_keeps_null.
Qed.

Lemma event_without_session_keeps_null_witness :
  Hook.trackingData Samples.researching = None /\
  Hook.trackingData
    (Hook.run [Hook.TrajectoryInserted 0 Samples.latePoint;
               Hook.OrderUpdated 0 Samples.deliveredOrder]
              Samples.researching) = None /\
  Page.trackingData Samples.pageResearching = None /\
  Page.trackingData
    (Page.run [Page.TrajectoryInserted 0 Samples.latePoint;
               Page.OrderUpdated 0 Samples.deliveredOrder]
              Samples.pageResearching) = None.
Proof.
  split; [reflexivity | split; [| split; [reflexivity|]]].
  - apply (proj1 event_without_session_keeps_null Samples.researching eq_refl).
    reflexivity.
  - apply (proj2 event_without_session_keeps_null Samples.pageResearching eq_refl).
    reflexivity.
Defined.

(** ** The "updating" indicator *)

(** C4, the claim as written fails: no timeout is ever cancelled.  An order
    update arrives at 0 ms and a trajectory insert at 1000 ms; at 1500 ms
    the first timeout fires and clears the indicator, 500 ms after the most
    recent event, while the second timeout is still pending for 2500 ms. *)
Lemma earlier_timer_clears_indicator_early :
  Hook.isUpdating
    (Hook.run [Hook.OrderUpdated 0 Samples.deliveredOrder; Hook.Elapse 1000;
               Hook.TrajectoryInserted 0 (Samples.pointAt "2024-01-15T11:00:00Z")]
              Samples.tracked) = true /\
  Hook.isUpdating
    (Hook.run [Hook.OrderUpdated 0 Samples.deliveredOrder; Hook.Elapse 1000;
               Hook.TrajectoryInserted 0 (Samples.pointAt "2024-01-15T11:00:00Z");
               Hook.Elapse 500]
              Samples.tracked) = false /\
  now (Hook.env
    (Hook.run [Hook.OrderUpdated 0 Samples.deliveredOrder; Hook.Elapse 1000;
               Hook.TrajectoryInserted 0 (Samples.pointAt "2024-01-15T11:00:00Z");
               Hook.Elapse 500]
              Samples.tracked)) = 1500%N /\
  timers (Hook.env
    (Hook.run [Hook.OrderUpdated 0 Samples.deliveredOrder; Hook.Elapse 1000;
               Hook.TrajectoryInserted 0 (Samples.pointAt "2024-01-15T11:00:00Z");
               Hook.Elapse 500]
              Samples.tracked)) = [(2500%N, ClearIsUpdating)].
Proof. vm_compute. repeat split. Qed.

Lemma handle_indicator ev w :
  Hook.isUpdating (exec (Hook.handle ev) w) = true /\
  timers (Hook.env (exec (Hook.handle ev) w))
    = timers (Hook.env w) ++ [((now (Hook.env w) + 1500)%N, ClearIsUpdating)] /\
  now (Hook.env (exec (Hook.handle ev) w)) = now (Hook.env w).
Proof.
  destruct ev as [o|p]; unfold Hook.handle; HookFacts.run_hook.
  - auto.
  - destruct (Hook.toastMessage w); cbn; auto.
Qed.

(** C4, amended.  For every order-updated or trajectory-inserted event the
    handler sets the indicator and sets one timeout of its own for 1.5 s
    after that event; it returns at once (the clock has not moved) and
    cancels none of the timeouts already pending.  The indicator is cleared
    as soon as any pending timeout falls due.  Hence it is cleared exactly
    1.5 s after an event when no earlier timeout is pending at the event. *)
Theorem indicator_cleared_by_each_timer :
  forall (w : Hook.World) (ev : Hook.FeedEvent),
    Hook.isUpdating (exec (Hook.handle ev) w) = true /\
    timers (Hook.env (exec (Hook.handle ev) w))
      = timers (Hook.env w) ++ [((now (Hook.env w) + 1500)%N, ClearIsUpdating)] /\
    now (Hook.env (exec (Hook.handle ev) w)) = now (Hook.env w) /\
    (forall ms,
       Hook.isUpdating (exec (Hook.elapse ms) (exec (Hook.handle ev) w))
       = match dueBy (now (Hook.env w) + ms)%N (Hook.env (exec (Hook.handle ev) w)) with
         | [] => true
         | _ :: _ => false
         end) /\
    (timers (Hook.env w) = [] ->
     forall ms,
       Hook.isUpdating (exec (Hook.elapse ms) (exec (Hook.handle ev) w))
       = (ms <? 1500)%N).
Proof.
  intros w ev. destruct (handle_indicator ev w) as (Hu & Ht & Hn).
  assert (Hgen : forall ms,
    Hook.isUpdating (exec (Hook.elapse ms) (exec (Hook.handle ev) w))
    = match dueBy (now (Hook.env w) + ms)%N (Hook.env (exec (Hook.handle ev) w)) with
      | [] => true
      | _ :: _ => false
      end).
  { intros ms.
    destruct (HookFacts.elapse_spec ms (exec (Hook.handle ev) w))
      as (_ & _ & _ & _ & _ & _ & _ & H).
    rewrite H, Hn, Hu. reflexivity. }
  repeat (split; [assumption|]).
  intros Hempty ms. rewrite Hgen. unfold dueBy. rewrite Ht, Hempty.
  cbn [app filter fst].
  destruct (N.leb_spec (now (Hook.env w) + 1500) (now (Hook.env w) + ms));
    destruct (N.ltb_spec ms 1500); try reflexivity; lia.
Qed.

Lemma indicator_cleared_by_each_timer_witness :
  timers (Hook.env Samples.tracked) = [] /\
  Hook.isUpdating
    (exec (Hook.elapse 1499)
       (exec (Hook.handle (Hook.OrderUpdate Samples.deliveredOrder)) Samples.tracked)) = true /\
  Hook.isUpdating
    (exec (Hook.elapse 1500)
       (exec (Hook.handle (Hook.OrderUpdate Samples.deliveredOrder)) Samples.tracked)) = false.
Proof.
  split; [reflexivity|].
  destruct (indicator_cleared_by_each_timer Samples.tracked
              (Hook.OrderUpdate Samples.deliveredOrder)) as (_ & _ & _ & _ & H).
  split; [exact (H eq_refl 1499%N) | exact (H eq_refl 1500%N)].
Defined.

(** ** Searching *)

Lemma trimStart_nil_iff s : trimStart s = [] <-> forallb isWhiteSpace s = true.
Proof.
  induction s as [|c r IH]; cbn [trimStart forallb].
  - split; reflexivity.
  - destruct (isWhiteSpace c); cbn [andb]; [exact IH|].
    split; discriminate.
Qed.

Lemma trimStart_head s c r : trimStart s = c :: r -> isWhiteSpace c = false.
Proof.
  induction s as [|a s IH]; cbn [trimStart]; [discriminate|].
  destruct (isWhiteSpace a) eqn:E; [exact IH|].
  intros H. inversion H; subst. exact E.
Qed.

Lemma forallb_rev {A} (f : A -> bool) l : forallb f (rev l) = forallb f l.
Proof.
  induction l as [|a l IH]; cbn [rev forallb]; [reflexivity|].
  rewrite forallb_app, IH. cbn. rewrite andb_true_r. apply andb_comm.
Qed.

(** [trim] gives the empty string exactly on the strings made of white
    space only, the empty one among them. *)
Lemma trim_nil_iff s : trim s = [] <-> forallb isWhiteSpace s = true.
Proof.
  unfold trim, trimEnd. split.
  - intros H.
    assert (H1 : trimStart (rev (trimStart s)) = []).
    { destruct (trimStart (rev (trimStart s))) as [|x l]; [reflexivity|].
      cbn [rev] in H. now destruct (rev l). }
    apply trimStart_nil_iff in H1. rewrite forallb_rev in H1.
    apply trimStart_nil_iff.
    destruct (trimStart s) as [|c r] eqn:E; [reflexivity|].
    apply trimStart_head in E. cbn [forallb] in H1. rewrite E in H1.
    discriminate.
  - intros H. apply trimStart_nil_iff in H. rewrite H. reflexivity.
Qed.

(** C6.  For every order number whose trim is empty, that is the empty
    string and every string of white space only, [handleSearch] returns at
    once: no request is issued and the world is the one it was called in,
    with its loading and searched flags, its session and its subscription. *)
Theorem blank_search_changes_nothing :
  forall (w : Hook.World) (orderNumber : jsstring),
    (trim orderNumber = [] <-> forallb isWhiteSpace orderNumber = true) /\
    (trim orderNumber = [] ->
     Hook.handleSearch orderNumber w = (tt, w) /\
     exec (Hook.step (Hook.CallHandleSearch orderNumber)) w = w).
Proof.
  intros w n. split; [apply trim_nil_iff|].
  intros H. unfold exec, Hook.step, Hook.handleSearch. rewrite H. cbn. auto.
Qed.

Lemma blank_search_changes_nothing_witness :
  trim (lit "   ") = [] /\
  exec (Hook.step (Hook.CallHandleSearch (lit "   "))) Samples.tracked
  = Samples.tracked.
Proof.
  split; [reflexivity|].
  exact (proj2 (proj2 (blank_search_changes_nothing Samples.tracked (lit "   "))
                  eq_refl)).
Defined.

(** Feed deliveries and timer firings leave the search flags, the requests
    and the hook's argument alone. *)
Lemma feed_step_frame a w :
  Hook.fromFeed a = true ->
  Hook.loading (exec (Hook.step a) w) = Hook.loading w /\
  Hook.searched (exec (Hook.step a) w) = Hook.searched w /\
  Hook.toastMessage (exec (Hook.step a) w) = Hook.toastMessage w /\
  requests (Hook.env (exec (Hook.step a) w)) = requests (Hook.env w).
Proof.
  destruct a as [n | r | o t i | h o | h p | ms | | ]; try discriminate;
    intros _; cbn [Hook.step].
  - unfold exec, Hook.deliverOrderUpdate.
    destruct (liveChannel h (Hook.env w)) as [c|]; [|cbn; auto].
    destruct (order_id o =? chan_orderId c)%string; [|cbn; auto].
    HookFacts.run_hook. auto.
  - unfold exec, Hook.deliverTrajectoryInsert.
    destruct (liveChannel h (Hook.env w)) as [c|]; [|cbn; auto].
    destruct (trajectory_order_id p =? chan_orderId c)%string; [|cbn; auto].
    HookFacts.run_hook. destruct (Hook.toastMessage w) eqn:E; cbn; auto.
  - destruct (HookFacts.elapse_spec ms w) as (H1 & H2 & _ & _ & H5 & _ & He & _).
    rewrite H1, H2, H5, He. cbn. auto.
Qed.

Lemma feed_run_frame l :
  forall w, forallb Hook.fromFeed l = true ->
    Hook.loading (Hook.run l w) = Hook.loading w /\
    Hook.searched (Hook.run l w) = Hook.searched w /\
    Hook.toastMessage (Hook.run l w) = Hook.toastMessage w /\
    requests (Hook.env (Hook.run l w)) = requests (Hook.env w) /\
    channels (Hook.env (Hook.run l w)) = channels (Hook.env w) /\
    nextChannel (Hook.env (Hook.run l w)) = nextChannel (Hook.env w) /\
    Hook.subscriptionRef (Hook.run l w) = Hook.subscriptionRef w.
Proof.
  induction l as [|a l IH]; intros w Hf; cbn [Hook.run].
  - repeat split.
  - cbn [forallb] in Hf. apply andb_true_iff in Hf. destruct Hf as [Ha Hl].
    destruct (IH (exec (Hook.step a) w) Hl) as (I1 & I2 & I3 & I4 & I5 & I6 & I7).
    destruct (feed_step_frame a w Ha) as (F1 & F2 & F3 & F4).
    assert (Ht : Hook.touchesSubscription a = false)
      by (destruct a; try discriminate; reflexivity).
    destruct (HookFacts.step_subscription_frame a w Ht) as (S1 & S2 & S3).
    repeat split; congruence.
Qed.

Lemma handleSearch_starts n w :
  truthy (trim n) = true ->
  let w0 := exec (Hook.step (Hook.CallHandleSearch n)) w in
  Hook.loading w0 = true /\ Hook.searched w0 = true /\
  Hook.trackingData w0 = None /\
  Hook.toastMessage w0 = Hook.toastMessage w /\
  Hook.subscriptionRef w0 = Hook.subscriptionRef w /\
  channels (Hook.env w0) = channels (Hook.env w) /\
  nextChannel (Hook.env w0) = nextChannel (Hook.env w) /\
  requests (Hook.env w0) = requests (Hook.env w) ++ [RpcGetOrderByNumber (trim n)].
Proof.
  intros Ht. cbn zeta. unfold exec, Hook.step, Hook.handleSearch.
  rewrite Ht. cbn [negb]. HookFacts.run_hook. repeat split.
Qed.

Lemma not_found_settles w :
  let w2 := exec (Hook.step (Hook.LookupSettled (ResponseSuccess None))) w in
  Hook.loading w2 = false /\ Hook.searched w2 = Hook.searched w /\
  Hook.trackingData w2 = Hook.trackingData w /\
  Hook.subscriptionRef w2 = Hook.subscriptionRef w /\
  channels (Hook.env w2) = channels (Hook.env w) /\
  nextChannel (Hook.env w2) = nextChannel (Hook.env w) /\
  requests (Hook.env w2) = requests (Hook.env w) /\
  (if Hook.toastMessage w
   then toasts (Hook.env w2)
          = toasts (Hook.env w) ++ [(LError, "未找到该订单信息，请检查单号"%string)] /\
        console (Hook.env w2) = console (Hook.env w)
   else console (Hook.env w2)
          = console (Hook.env w)
            ++ [ConsoleLog LError "未找到该订单信息，请检查单号"] /\
        toasts (Hook.env w2) = toasts (Hook.env w)).
Proof.
  cbn zeta. HookFacts.run_hook. cbn. HookFacts.run_hook.
  destruct (Hook.toastMessage w); cbn; repeat split.
Qed.


Lemma secondary_subscribes o t i w :
  exists c,
    Hook.subscriptionRef (exec (Hook.handleSearch_afterSecondary o t i) w) = Some c /\
    In c (channels (Hook.env (exec (Hook.handleSearch_afterSecondary o t i) w))) /\
    chan_orderId c = order_id o.
Proof.
  destruct (HookFacts.secondary_is_subscribe o t i w) as (Hc & Hr).
  rewrite Hc, Hr. HookFacts.run_hook.
  eexists. split; [reflexivity|]. split; [|reflexivity].
  apply in_or_app. right. destruct (Hook.subscriptionRef w); cbn; auto.
Qed.

(** C8.  For every search whose lookup succeeds and whose trajectory query
    or item query fails, the failure is written to the console under its
    label, the list concerned is published empty and the other as it was
    fetched, the order is published all the same, no error message is
    shown, the loading flag is cleared and the order's channel is
    subscribed. *)
Theorem secondary_failure_degrades_to_empty :
  forall (w : Hook.World) (orderData : Order) (e : PostgrestError),
    (forall itemsResult : PostgrestResponse (list OrderItem),
       Hook.trackingData
         (exec (Hook.handleSearch_afterSecondary orderData (ResponseFailure e)
                  itemsResult) w)
       = Some (mkTrackingData orderData [] (orEmpty (data itemsResult))) /\
       console (Hook.env
         (exec (Hook.handleSearch_afterSecondary orderData (ResponseFailure e)
                  itemsResult) w))
       = console (Hook.env w) ++ [ConsoleError "轨迹加载失败" e]
         ++ match error itemsResult with
            | Some e' => [ConsoleError "物品加载失败" e']
            | None => []
            end /\
       toasts (Hook.env
         (exec (Hook.handleSearch_afterSecondary orderData (ResponseFailure e)
                  itemsResult) w))
       = toasts (Hook.env w) /\
       Hook.loading
         (exec (Hook.handleSearch_afterSecondary orderData (ResponseFailure e)
                  itemsResult) w) = false /\
       exists c,
         Hook.subscriptionRef
           (exec (Hook.handleSearch_afterSecondary orderData (ResponseFailure e)
                    itemsResult) w) = Some c /\
         In c (channels (Hook.env
           (exec (Hook.handleSearch_afterSecondary orderData (ResponseFailure e)
                    itemsResult) w))) /\
         chan_orderId c = order_id orderData)
    /\
    (forall trajectoryResult : PostgrestResponse (list TrajectoryPoint),
       Hook.trackingData
         (exec (Hook.handleSearch_afterSecondary orderData trajectoryResult
                  (ResponseFailure e)) w)
       = Some (mkTrackingData orderData (orEmpty (data trajectoryResult)) []) /\
       console (Hook.env
         (exec (Hook.handleSearch_afterSecondary orderData trajectoryResult
                  (ResponseFailure e)) w))
       = console (Hook.env w)
         ++ match error trajectoryResult with
            | Some e' => [ConsoleError "轨迹加载失败" e']
            | None => []
            end
         ++ [ConsoleError "物品加载失败" e] /\
       toasts (Hook.env
         (exec (Hook.handleSearch_afterSecondary orderData trajectoryResult
                  (ResponseFailure e)) w))
       = toasts (Hook.env w) /\
       Hook.loading
         (exec (Hook.handleSearch_afterSecondary orderData trajectoryResult
                  (ResponseFailure e)) w) = false /\
       exists c,
         Hook.subscriptionRef
           (exec (Hook.handleSearch_afterSecondary orderData trajectoryResult
                    (ResponseFailure e)) w) = Some c /\
         In c (channels (Hook.env
           (exec (Hook.handleSearch_afterSecondary orderData trajectoryResult
                    (ResponseFailure e)) w))) /\
         chan_orderId c = order_id orderData).
Proof.
  intros w o e. split.
  - intros i. repeat (split; [|try apply secondary_subscribes]);
      destruct i as [il|ie]; HookFacts.run_hook; cbn;
      destruct (Hook.subscriptionRef w); cbn;
      rewrite <- ?app_assoc; reflexivity.
  - intros t. repeat (split; [|try apply secondary_subscribes]);
      destruct t as [tl|te]; HookFacts.run_hook; cbn;
      destruct (Hook.subscriptionRef w); cbn;
      rewrite <- ?app_assoc; reflexivity.
Qed.

(** ** Teardown *)

(** C3, at the failing input.  The view is unmounted while the lookup is in
    flight: the cleanup runs with nothing to release.  When the lookup and
    the secondary queries settle, [handleSearch] goes on as if mounted: it
    publishes the session and opens a channel that nothing will release. *)
Lemma stale_fetch_after_unmount_subscribes :
  Hook.subscriptionCount
    (Hook.run (firstn 2 Samples.unmountedMidFetch) (Hook.initial true)) = 0 /\
  Hook.mounted (Hook.run Samples.unmountedMidFetch (Hook.initial true)) = false /\
  Hook.trackingData (Hook.run Samples.unmountedMidFetch (Hook.initial true))
    = Some Samples.sampleSession /\
  Hook.subscriptionRef (Hook.run Samples.unmountedMidFetch (Hook.initial true))
    = Some (mkChannel 0 "order-tracking-o-1" "o-1") /\
  channels (Hook.env (Hook.run Samples.unmountedMidFetch (Hook.initial true)))
    = [mkChannel 0 "order-tracking-o-1" "o-1"] /\
  Hook.subscriptionCount
    (Hook.run Samples.unmountedMidFetch (Hook.initial true)) = 1.
Proof. vm_compute. repeat split. Qed.

(** ** The map's errors *)

(** C9, the claim as written fails for a run that was torn down: the
    component is mounted with key and security code, it is unmounted while
    the SDK load is in flight, and the load then fails.  Behind the
    [destroyed] guard nothing is shown and [setLoading(false)] is not
    called. *)
Lemma load_failure_after_cleanup_is_silent :
  MapAdapter.loading Samples.mapLoading = true /\
  MapAdapter.messages
    (MapAdapter.run [MapAdapter.Cleanup;
                     MapAdapter.LoadSettled MapAdapter.LoadFailed]
                    Samples.mapLoading) = [] /\
  MapAdapter.loading
    (MapAdapter.run [MapAdapter.Cleanup;
                     MapAdapter.LoadSettled MapAdapter.LoadFailed]
                    Samples.mapLoading) = true.
Proof. vm_compute. repeat split. Qed.

(** C9, amended.  When the configuration lacks the key or the security
    code, the effect shows one error and ends the loading state.  When the
    SDK load fails or the map reports an error while the effect has not
    been cleaned up, the handler shows one error and ends the loading
    state; after the cleanup it shows nothing and leaves the state as it
    is.  Once ended, the loading state is never entered again. *)
Theorem map_error_ends_loading_unless_torn_down :
  (forall (w : MapAdapter.World) (e : MapAdapter.ImportMetaEnv),
     MapAdapter.truthyVar (MapAdapter.VITE_AMAP_KEY e) = false \/
     MapAdapter.truthyVar (MapAdapter.VITE_AMAP_SECURITY_CODE e) = false ->
     MapAdapter.messages (exec (MapAdapter.effect e) w)
       = MapAdapter.messages w ++ ["地图配置错误：缺少 Key 或 Security Code"%string] /\
     MapAdapter.loading (exec (MapAdapter.effect e) w) = false)
  /\
  (forall w : MapAdapter.World,
     MapAdapter.destroyed w = false ->
     (MapAdapter.messages (exec (MapAdapter.initMap_afterLoad MapAdapter.LoadFailed) w)
        = MapAdapter.messages w ++ ["地图服务连接失败"%string] /\
      MapAdapter.loading (exec (MapAdapter.initMap_afterLoad MapAdapter.LoadFailed) w)
        = false) /\
     (MapAdapter.messages (exec MapAdapter.onError w)
        = MapAdapter.messages w ++ ["地图加载发生错误"%string] /\
      MapAdapter.loading (exec MapAdapter.onError w) = false))
  /\
  (forall w : MapAdapter.World,
     MapAdapter.destroyed w = true ->
     (MapAdapter.messages (exec (MapAdapter.initMap_afterLoad MapAdapter.LoadFailed) w)
        = MapAdapter.messages w /\
      MapAdapter.loading (exec (MapAdapter.initMap_afterLoad MapAdapter.LoadFailed) w)
        = MapAdapter.loading w) /\
     (MapAdapter.messages (exec MapAdapter.onError w) = MapAdapter.messages w /\
      MapAdapter.loading (exec MapAdapter.onError w) = MapAdapter.loading w))
  /\
  (forall (w : MapAdapter.World) (l : list MapAdapter.Action),
     MapAdapter.loading w = false ->
     MapAdapter.loading (MapAdapter.run l w) = false).
Proof.
  split; [|split; [|split]].
  - intros w e H. MapFacts.run_map.
    destruct (MapAdapter.truthyVar (MapAdapter.VITE_AMAP_KEY e)) eqn:K;
      destruct (MapAdapter.truthyVar (MapAdapter.VITE_AMAP_SECURITY_CODE e)) eqn:C;
      try (destruct H; discriminate);
      destruct (MapAdapter.loaderPromise w); cbn; split; reflexivity.
  - intros w H. MapFacts.run_map. rewrite H. cbn. repeat split.
  - intros w H. MapFacts.run_map. rewrite H. cbn. repeat split.
  - intros w l H. now apply MapFacts.run_keeps_loaded.
Qed.

Lemma map_error_ends_loading_unless_torn_down_witness :
  MapAdapter.truthyVar (MapAdapter.VITE_AMAP_KEY Samples.withoutKey) = false /\
  MapAdapter.loading
    (exec (MapAdapter.effect Samples.withoutKey) (MapAdapter.initial false))
  = false /\
  MapAdapter.destroyed Samples.mapLoading = false /\
  MapAdapter.loading
    (exec (MapAdapter.initMap_afterLoad MapAdapter.LoadFailed) Samples.mapLoading)
  = false /\
  MapAdapter.destroyed (exec MapAdapter.cleanup Samples.mapLoading) = true /\
  MapAdapter.messages
    (exec MapAdapter.onError (exec MapAdapter.cleanup Samples.mapLoading)) = [] /\
  MapAdapter.loading
    (MapAdapter.run [MapAdapter.MapError; MapAdapter.Frame]
       (exec (MapAdapter.effect Samples.withoutSecurityCode)
             (MapAdapter.initial false))) = false.
Proof.
  destruct map_error_ends_loading_unless_torn_down as (A & B & C & D).
  split; [reflexivity|].
  split; [exact (proj2 (A (MapAdapter.initial false) Samples.withoutKey
                          (or_introl eq_refl)))|].
  split; [reflexivity|].
  split; [exact (proj2 (proj1 (B Samples.mapLoading eq_refl)))|].
  split; [reflexivity|].
  split; [exact (proj1 (proj2 (C (exec MapAdapter.cleanup Samples.mapLoading)
                                 eq_refl)))|].
  apply D.
  exact (proj2 (A (MapAdapter.initial false) Samples.withoutSecurityCode
                  (or_intror eq_refl))).
Defined.

(** * Further properties of the code *)

(** ** What [handleSearch] sends and publishes *)

Lemma trimStart_decompose s :
  exists pre, s = pre ++ trimStart s /\ forallb isWhiteSpace pre = true.
Proof.
  induction s as [|c r (pre & E & W)]; cbn [trimStart].
  - exists []. split; reflexivity.
  - destruct (isWhiteSpace c) eqn:Hc.
    + exists (c :: pre). cbn [app forallb]. rewrite Hc, W.
      split; [now rewrite <- E | reflexivity].
    + exists []. split; reflexivity.
Qed.

Lemma trimEnd_decompose s :
  exists post, s = trimEnd s ++ post /\ forallb isWhiteSpace post = true.
Proof.
  destruct (trimStart_decompose (rev s)) as (pre & E & W).
  exists (rev pre). split.
  - unfold trimEnd. rewrite <- rev_app_distr, <- E. symmetry. apply rev_involutive.
  - now rewrite forallb_rev.
Qed.

(** [trim] removes white space at the two ends and nothing else. *)
Lemma trim_decompose s :
  exists pre post,
    s = pre ++ trim s ++ post /\
    forallb isWhiteSpace pre = true /\ forallb isWhiteSpace post = true /\
    (forall c, hd_error (trim s) = Some c -> isWhiteSpace c = false) /\
    (forall c, hd_error (rev (trim s)) = Some c -> isWhiteSpace c = false).
Proof.
  destruct (trimStart_decompose s) as (pre & E1 & W1).
  destruct (trimEnd_decompose (trimStart s)) as (post & E2 & W2).
  exists pre, post. fold (trim s) in E2.
  split; [now rewrite <- E2|]. split; [exact W1|]. split; [exact W2|]. split.
  - intros c Hc. destruct (trim s) as [|c' r] eqn:Et; [discriminate|].
    inversion Hc; subst. cbn [app] in E2. now apply trimStart_head in E2.
  - intros c Hc. unfold trim, trimEnd in Hc. rewrite rev_involutive in Hc.
    destruct (trimStart (rev (trimStart s))) as [|c' r] eqn:Et; [discriminate|].
    inversion Hc; subst. now apply trimStart_head in Et.
Qed.

(** X1.  A search with a non-blank order number issues exactly one lookup,
    and the number it sends is the input with the white space at its two
    ends removed and nothing else changed: it is not empty and neither
    starts nor ends with white space. *)
Theorem search_sends_trimmed_number :
  forall (w : Hook.World) (orderNumber : jsstring),
    truthy (trim orderNumber) = true ->
    exists sent pre post,
      requests (Hook.env (exec (Hook.handleSearch orderNumber) w))
        = requests (Hook.env w) ++ [RpcGetOrderByNumber sent] /\
      orderNumber = pre ++ sent ++ post /\
      forallb isWhiteSpace pre = true /\ forallb isWhiteSpace post = true /\
      sent <> [] /\
      (forall c, HookInv.firstUnit sent = Some c -> isWhiteSpace c = false) /\
      (forall c, HookInv.lastUnit sent = Some c -> isWhiteSpace c = false).
Proof.
  intros w n Ht.
  destruct (trim_decompose n) as (pre & post & E & W1 & W2 & Hf & Hl).
  exists (trim n), pre, post.
  destruct (handleSearch_starts n w Ht) as (_ & _ & _ & _ & _ & _ & _ & Hr).
  repeat (split; [assumption|]). split; [|split; assumption].
  intros Hnil. rewrite Hnil in Ht. discriminate.
Qed.

Lemma search_sends_trimmed_number_witness :
  truthy (trim (lit "  ORD 1 ")) = true /\
  exists sent,
    requests (Hook.env (exec (Hook.handleSearch (lit "  ORD 1 ")) (Hook.initial true)))
      = [RpcGetOrderByNumber sent] /\
    sent <> [].
Proof.
  split; [reflexivity|].
  destruct (search_sends_trimmed_number (Hook.initial true) (lit "  ORD 1 ") eq_refl)
    as (sent & pre & post & H & _ & _ & _ & Hne & _).
  exists sent. split; [exact H | exact Hne].
Defined.

Lemma hook_run_app l1 l2 w : Hook.run (l1 ++ l2) w = Hook.run l2 (Hook.run l1 w).
Proof.
  revert w. induction l1 as [|a l1 IH]; intros w; cbn [Hook.run app];
    [reflexivity | apply IH].
Qed.

Lemma feed_run_heldIsOnly l w :
  Hook.heldIsOnly w -> Hook.heldIsOnly (Hook.run l w).
Proof.
  apply HookFacts.run_invariant. exact HookFacts.step_keeps_heldIsOnly.
Qed.

Lemma lookup_found_issues_queries o w :
  let w' := exec (Hook.step (Hook.LookupSettled (ResponseSuccess (Some o)))) w in
  Hook.loading w' = Hook.loading w /\ Hook.searched w' = Hook.searched w /\
  Hook.trackingData w' = Hook.trackingData w /\
  Hook.toastMessage w' = Hook.toastMessage w /\
  Hook.subscriptionRef w' = Hook.subscriptionRef w /\
  channels (Hook.env w') = channels (Hook.env w) /\
  toasts (Hook.env w') = toasts (Hook.env w) /\
  console (Hook.env w') = console (Hook.env w) /\
  requests (Hook.env w')
    = requests (Hook.env w)
      ++ [SelectTrajectories (order_id o); SelectOrderItems (order_id o)].
Proof.
  cbn zeta. HookFacts.run_hook. cbn. HookFacts.run_hook.
  rewrite <- app_assoc. repeat split.
Qed.

Lemma secondary_settles o t i w :
  let w' := exec (Hook.step (Hook.SecondarySettled o t i)) w in
  Hook.trackingData w'
    = Some (mkTrackingData o (orEmpty (data t)) (orEmpty (data i))) /\
  Hook.loading w' = false /\ Hook.searched w' = Hook.searched w /\
  requests (Hook.env w') = requests (Hook.env w) /\
  toasts (Hook.env w') = toasts (Hook.env w).
Proof.
  cbn zeta. destruct t as [tl|te], i as [il|ie]; HookFacts.run_hook; cbn;
    destruct (Hook.subscriptionRef w); cbn; repeat split.
Qed.


Lemma lookup_failure_settles e w :
  let w2 := exec (Hook.step (Hook.LookupSettled (ResponseFailure e))) w in
  let text := if pg_instanceofError e then pg_message e
              else "查询失败，请稍后重试"%string in
  Hook.loading w2 = false /\ Hook.searched w2 = Hook.searched w /\
  Hook.trackingData w2 = Hook.trackingData w /\
  Hook.subscriptionRef w2 = Hook.subscriptionRef w /\
  channels (Hook.env w2) = channels (Hook.env w) /\
  requests (Hook.env w2) = requests (Hook.env w) /\
  (if Hook.toastMessage w
   then toasts (Hook.env w2) = toasts (Hook.env w) ++ [(LError, text)] /\
        console (Hook.env w2) = console (Hook.env w)
   else console (Hook.env w2) = console (Hook.env w) ++ [ConsoleLog LError text] /\
        toasts (Hook.env w2) = toasts (Hook.env w)).
Proof.
  cbn zeta. HookFacts.run_hook. cbn. HookFacts.run_hook.
  destruct (Hook.toastMessage w); cbn; repeat split.
Qed.


(** ** Release *)

Lemma delivery_without_channel a w :
  channels (Hook.env w) = [] -> HookInv.isDelivery a = true ->
  exec (Hook.step a) w = w.
Proof.
  intros Hc Ha. destruct a; try discriminate; cbn [Hook.step];
    unfold exec, Hook.deliverOrderUpdate, Hook.deliverTrajectoryInsert,
      liveChannel; rewrite Hc; reflexivity.
Qed.

Lemma deliveries_without_channel l :
  forall w, channels (Hook.env w) = [] ->
    forallb HookInv.isDelivery l = true -> Hook.run l w = w.
Proof.
  induction l as [|a l IH]; intros w Hc Hf; cbn [Hook.run]; [reflexivity|].
  cbn [forallb] in Hf. apply andb_true_iff in Hf. destruct Hf as [Ha Hl].
  rewrite (delivery_without_channel a w Hc Ha). now apply IH.
Qed.

Lemma removeHeldChannel_frame w :
  let r := exec Hook.removeHeldChannel w in
  Hook.loading r = Hook.loading w /\ Hook.searched r = Hook.searched w /\
  Hook.trackingData r = Hook.trackingData w /\
  Hook.isUpdating r = Hook.isUpdating w /\
  Hook.subscriptionRef r = Hook.subscriptionRef w /\
  timers (Hook.env r) = timers (Hook.env w) /\
  now (Hook.env r) = now (Hook.env w) /\
  toasts (Hook.env r) = toasts (Hook.env w) /\
  console (Hook.env r) = console (Hook.env w) /\
  requests (Hook.env r) = requests (Hook.env w).
Proof.
  cbn zeta. HookFacts.run_hook.
  destruct (Hook.subscriptionRef w) eqn:E; cbn; rewrite ?E; repeat split.
Qed.

Lemma removeHeldChannel_again w :
  channels (Hook.env w) = [] -> exec Hook.removeHeldChannel w = w.
Proof.
  destruct w as [l s t u r tm m [ch nx rq nw ti to co]]. cbn. intros ->.
  HookFacts.run_hook. destruct r; reflexivity.
Qed.


(** ** The indicator's timeouts *)

Lemma nonfeed_step_timer_frame a w :
  Hook.fromFeed a = false ->
  Hook.isUpdating (exec (Hook.step a) w) = Hook.isUpdating w /\
  timers (Hook.env (exec (Hook.step a) w)) = timers (Hook.env w) /\
  now (Hook.env (exec (Hook.step a) w)) = now (Hook.env w).
Proof.
  destruct a as [n | r | o t i | h o | h p | ms | | ]; try discriminate;
    intros _; cbn [Hook.step].
  - unfold exec, Hook.handleSearch.
    destruct (negb (truthy (trim n))); [cbn; auto|]. HookFacts.run_hook. auto.
  - destruct r as [[o|]|e]; HookFacts.run_hook; cbn; HookFacts.run_hook;
      try (destruct (Hook.toastMessage w); cbn; auto); auto.
  - destruct t as [tl|te], i as [il|ie]; HookFacts.run_hook; cbn;
      destruct (Hook.subscriptionRef w); cbn; auto.
  - destruct (removeHeldChannel_frame w) as (_ & _ & _ & F4 & _ & F6 & F7 & _).
    auto.
  - destruct (removeHeldChannel_frame w) as (_ & _ & _ & F4 & _ & F6 & F7 & _).
    unfold Hook.unmount, Hook.effectCleanup, exec, bind, Hook.markUnmounted.
    cbn [snd Hook.isUpdating Hook.env]. auto.
Qed.

Lemma delivery_step_cases a w :
  HookInv.isDelivery a = true ->
  exec (Hook.step a) w = w \/
  exists ev, exec (Hook.step a) w = exec (Hook.handle ev) w.
Proof.
  destruct a as [n | r | o t i | h o | h p | ms | | ]; try discriminate;
    intros _; cbn [Hook.step]; unfold exec.
  - unfold Hook.deliverOrderUpdate.
    destruct (liveChannel h (Hook.env w)) as [c|]; [|now left].
    destruct (order_id o =? chan_orderId c)%string; [|now left].
    right. exists (Hook.OrderUpdate o). reflexivity.
  - unfold Hook.deliverTrajectoryInsert.
    destruct (liveChannel h (Hook.env w)) as [c|]; [|now left].
    destruct (trajectory_order_id p =? chan_orderId c)%string; [|now left].
    right. exists (Hook.TrajectoryInsert p). reflexivity.
Qed.

Lemma filter_none_keeps_all {A} (f : A -> bool) l :
  filter f l = [] -> filter (fun x => negb (f x)) l = l.
Proof.
  induction l as [|a l IH]; cbn [filter]; [reflexivity|].
  destruct (f a); [discriminate|]. cbn [negb]. intros H. now rewrite IH.
Qed.

Lemma filter_all_drops_all {A} (f : A -> bool) l :
  forallb f l = true -> filter (fun x => negb (f x)) l = [].
Proof.
  induction l as [|a l IH]; cbn [filter forallb]; [reflexivity|].
  intros H. apply andb_true_iff in H. destruct H as [Ha Hl].
  rewrite Ha. cbn [negb]. now apply IH.
Qed.

Lemma step_keeps_timersWithinDelay a w :
  HookInv.timersWithinDelay w -> HookInv.timersWithinDelay (exec (Hook.step a) w).
Proof.
  intros [HF HU]. destruct (Hook.fromFeed a) eqn:Ef.
  - destruct (HookInv.isDelivery a) eqn:Ed.
    + destruct (delivery_step_cases a w Ed) as [E | (ev & E)]; rewrite E.
      * split; assumption.
      * destruct (handle_indicator ev w) as (Hu & Ht & Hn).
        split.
        -- rewrite Ht, Hn. apply Forall_app. split; [exact HF|].
           constructor; [cbn; lia | constructor].
        -- intros _. rewrite Ht. now destruct (timers (Hook.env w)).
    + destruct a; try discriminate. cbn [Hook.step].
      destruct (HookFacts.elapse_spec ms w) as (_ & _ & _ & _ & _ & _ & He & Hi).
      cbn zeta in He, Hi. split.
      * rewrite He. cbn [timers now advanceTo].
        apply Forall_forall. intros tm Hin. apply filter_In in Hin.
        destruct Hin as [Hin _].
        pose proof (proj1 (Forall_forall _ _) HF tm Hin) as Hle. cbn in Hle. lia.
      * rewrite Hi, He. cbn [timers advanceTo]. unfold dueBy.
        destruct (filter (fun tm => (fst tm <=? now (Hook.env w) + ms)%N)
                         (timers (Hook.env w))) eqn:Ed'; [|discriminate].
        intros Hu. rewrite (filter_none_keeps_all _ _ Ed'). now apply HU.
  - destruct (nonfeed_step_timer_frame a w Ef) as (F1 & F2 & F3).
    split.
    + rewrite F2, F3. exact HF.
    + rewrite F1, F2. exact HU.
Qed.

(** X5.  The indicator is never left on.  In every state the hook can
    reach, every pending timeout falls due within 1500 ms, and once at
    least 1500 ms pass without another event the indicator is cleared and
    no timeout is pending. *)
Theorem indicator_clears_within_delay :
  forall (withToast : bool) (trace : list Hook.Action) (ms : N),
    (1500 <= ms)%N ->
    let w := Hook.run trace (Hook.initial withToast) in
    Forall (fun tm => (fst tm <= now (Hook.env w) + 1500)%N) (timers (Hook.env w)) /\
    Hook.isUpdating (exec (Hook.elapse ms) w) = false /\
    timers (Hook.env (exec (Hook.elapse ms) w)) = [].
Proof.
  intros b trace ms Hms w.
  assert (H : HookInv.timersWithinDelay w).
  { apply HookFacts.run_invariant; [exact step_keeps_timersWithinDelay|].
    split; [constructor | discriminate]. }
  destruct H as [HF HU]. split; [exact HF|].
  destruct (HookFacts.elapse_spec ms w) as (_ & _ & _ & _ & _ & _ & He & Hi).
  cbn zeta in He, Hi.
  assert (Hfa : forallb (fun tm => (fst tm <=? now (Hook.env w) + ms)%N)
                        (timers (Hook.env w)) = true).
  { apply forallb_forall. intros tm Hin.
    pose proof (proj1 (Forall_forall _ _) HF tm Hin) as Hle.
    cbn in Hle. apply N.leb_le. lia. }
  split.
  - rewrite Hi. unfold dueBy. rewrite (forallb_filter_id _ _ Hfa).
    destruct (timers (Hook.env w)) eqn:Et; [|reflexivity].
    destruct (Hook.isUpdating w); [|reflexivity]. now elim HU.
  - rewrite He. cbn [timers advanceTo]. now apply filter_all_drops_all.
Qed.

Lemma indicator_clears_within_delay_witness :
  (1500 <= 1500)%N /\
  Hook.isUpdating
    (Hook.run [Hook.OrderUpdated 0 Samples.deliveredOrder; Hook.Elapse 1000;
               Hook.TrajectoryInserted 0 Samples.latePoint]
              Samples.tracked) = true /\
  Hook.isUpdating
    (exec (Hook.elapse 1500)
       (Hook.run (Samples.trackedSearch
                  ++ [Hook.OrderUpdated 0 Samples.deliveredOrder; Hook.Elapse 1000;
                      Hook.TrajectoryInserted 0 Samples.latePoint])
                 (Hook.initial true))) = false.
Proof.
  split; [apply N.le_refl|]. split; [reflexivity|].
  exact (proj1 (proj2
    (@indicator_clears_within_delay true
       (Samples.trackedSearch
        ++ [Hook.OrderUpdated 0 Samples.deliveredOrder; Hook.Elapse 1000;
            Hook.TrajectoryInserted 0 Samples.latePoint])
       1500%N (N.le_refl 1500)))).
Defined.

(** ** The session and its subscription *)

Lemma handle_subscription_frame ev w :
  Hook.subscriptionRef (exec (Hook.handle ev) w) = Hook.subscriptionRef w.
Proof.
  destruct ev; unfold Hook.handle; HookFacts.run_hook;
    [|destruct (Hook.toastMessage w)]; reflexivity.
Qed.

Lemma trajectory_insert_session w d p :
  Hook.trackingData w = Some d ->
  Hook.trackingData (exec (Hook.onTrajectoryInsert p) w)
    = Some (mkTrackingData (order d) (p :: trajectories d) (orderItems d)).
Proof.
  intros Hd. HookFacts.run_hook.
  destruct (Hook.toastMessage w); cbn; now rewrite Hd.
Qed.

Lemma sessionMatchesRef_same w w' :
  Hook.trackingData w' = Hook.trackingData w ->
  Hook.subscriptionRef w' = Hook.subscriptionRef w ->
  HookInv.sessionMatchesRef w -> HookInv.sessionMatchesRef w'.
Proof.
  intros Ht Hr H d Hd. rewrite Ht in Hd. rewrite Hr. now apply H.
Qed.

Lemma step_keeps_sessionMatchesRef a w :
  Hook.heldIsOnly w -> HookInv.sessionMatchesRef w ->
  HookInv.sessionMatchesRef (exec (Hook.step a) w).
Proof.
  intros Hh Hs.
  destruct a as [n | r | o t i | h o | h p | ms | | ].
  - destruct (truthy (trim n)) eqn:Ht.
    + destruct (handleSearch_starts n w Ht) as (_ & _ & A3 & _).
      intros d Hd. rewrite A3 in Hd. discriminate.
    + unfold exec, Hook.step, Hook.handleSearch. rewrite Ht. exact Hs.
  - destruct r as [[o|]|e].
    + destruct (lookup_found_issues_queries o w) as (_ & _ & C3 & _ & C5 & _).
      eapply sessionMatchesRef_same; eassumption.
    + destruct (not_found_settles w) as (_ & _ & C3 & C4 & _).
      eapply sessionMatchesRef_same; eassumption.
    + destruct (lookup_failure_settles e w) as (_ & _ & C3 & C4 & _).
      eapply sessionMatchesRef_same; eassumption.
  - destruct (secondary_settles o t i w) as (G1 & _).
    destruct (secondary_subscribes o t i w) as (c & Hr & _ & Hc).
    intros d Hd. cbn zeta in G1. cbn [Hook.step] in *. rewrite G1 in Hd.
    inversion Hd; subst. exists c. split; [exact Hr | exact Hc].
  - cbn [Hook.step]. unfold exec, Hook.deliverOrderUpdate.
    destruct (liveChannel h (Hook.env w)) as [c'|] eqn:El; [|exact Hs].
    destruct (order_id o =? chan_orderId c')%string eqn:Eo; [|exact Hs].
    apply String.eqb_eq in Eo.
    destruct Hh as [Hc | (c & Hc & Hr)]; unfold liveChannel in El;
      rewrite Hc in El; cbn [find] in El; [discriminate|].
    destruct (chan_id c =? h); [|discriminate]. inversion El; subst c'.
    intros d Hd. exists c. split.
    + HookFacts.run_hook. exact Hr.
    + HookFacts.run_hook. destruct (Hook.trackingData w); [|discriminate].
      inversion Hd; subst. cbn. now symmetry.
  - cbn [Hook.step]. unfold exec, Hook.deliverTrajectoryInsert.
    destruct (liveChannel h (Hook.env w)) as [c'|]; [|exact Hs].
    destruct (trajectory_order_id p =? chan_orderId c')%string; [|exact Hs].
    intros d Hd.
    destruct (Hook.trackingData w) as [d0|] eqn:Ed.
    + pose proof (trajectory_insert_session w p Ed) as H1.
      unfold exec in H1. rewrite H1 in Hd. inversion Hd; subst d.
      destruct (Hs d0 Ed) as (c & Hr & Hc). exists c. split.
      * pose proof (handle_subscription_frame (Hook.TrajectoryInsert p) w) as F.
        cbn [Hook.handle] in F. unfold exec in F. now rewrite F.
      * exact Hc.
    + exfalso.
      assert (Hn : Hook.trackingData (snd (Hook.onTrajectoryInsert p w)) = None).
      { HookFacts.run_hook. destruct (Hook.toastMessage w); cbn; now rewrite Ed. }
      rewrite Hn in Hd. discriminate.
  - destruct (HookFacts.elapse_spec ms w) as (_ & _ & H3 & H4 & _).
    eapply sessionMatchesRef_same; eassumption.
  - destruct (removeHeldChannel_frame w) as (_ & _ & F3 & _ & F5 & _).
    eapply sessionMatchesRef_same; eassumption.
  - destruct (removeHeldChannel_frame w) as (_ & _ & F3 & _ & F5 & _).
    eapply sessionMatchesRef_same; [| |exact Hs];
      unfold Hook.step, Hook.unmount, Hook.effectCleanup, exec, bind,
        Hook.markUnmounted; cbn [snd Hook.trackingData Hook.subscriptionRef];
      assumption.
Qed.


(** ** Where messages go *)

Lemma step_outputs a w :
  Hook.toastMessage (exec (Hook.step a) w) = Hook.toastMessage w /\
  (Hook.toastMessage w = false ->
   toasts (Hook.env (exec (Hook.step a) w)) = toasts (Hook.env w)) /\
  (Hook.toastMessage w = true ->
   filter HookInv.isConsoleLog (console (Hook.env (exec (Hook.step a) w)))
   = filter HookInv.isConsoleLog (console (Hook.env w))).
Proof.
  destruct a as [n | r | o t i | h o | h p | ms | | ]; cbn [Hook.step].
  - unfold exec, Hook.handleSearch.
    destruct (negb (truthy (trim n))); [cbn; auto|]. HookFacts.run_hook. auto.
  - destruct r as [[o|]|e]; HookFacts.run_hook; cbn; HookFacts.run_hook;
      destruct (Hook.toastMessage w) eqn:E; cbn; rewrite ?E;
      repeat split; auto; discriminate.
  - destruct t as [tl|te], i as [il|ie]; HookFacts.run_hook; cbn;
      destruct (Hook.subscriptionRef w); cbn;
      rewrite ?filter_app; cbn; rewrite ?app_nil_r; auto.
  - unfold exec, Hook.deliverOrderUpdate.
    destruct (liveChannel h (Hook.env w)) as [c|]; [|cbn; auto].
    destruct (order_id o =? chan_orderId c)%string; [|cbn; auto].
    HookFacts.run_hook. auto.
  - unfold exec, Hook.deliverTrajectoryInsert.
    destruct (liveChannel h (Hook.env w)) as [c|]; [|cbn; auto].
    destruct (trajectory_order_id p =? chan_orderId c)%string; [|cbn; auto].
    HookFacts.run_hook. destruct (Hook.toastMessage w) eqn:E; cbn; rewrite ?E;
      repeat split; auto; discriminate.
  - destruct (HookFacts.elapse_spec ms w) as (_ & _ & _ & _ & H5 & _ & He & _).
    cbn zeta in He. rewrite H5, He. cbn. auto.
  - destruct (removeHeldChannel_frame w) as (_ & _ & _ & _ & _ & _ & _ & F8 & F9 & _).
    unfold Hook.cleanupSubscription. rewrite F8, F9.
    HookFacts.run_hook. destruct (Hook.subscriptionRef w); cbn; auto.
  - destruct (removeHeldChannel_frame w) as (_ & _ & _ & _ & _ & _ & _ & F8 & F9 & _).
    unfold Hook.unmount, Hook.effectCleanup, exec, bind, Hook.markUnmounted in *.
    cbn [snd Hook.env Hook.toastMessage]. rewrite F8, F9.
    HookFacts.run_hook. destruct (Hook.subscriptionRef w); cbn; auto.
Qed.

(** X7.  A message of the hook goes to one place only.  A hook that was
    given a toast callback never writes a message line to the console (the
    console receives only the logged query failures), and a hook that was
    given none never produces a toast, whatever the run. *)
Theorem messages_have_one_sink :
  forall trace : list Hook.Action,
    filter HookInv.isConsoleLog
      (console (Hook.env (Hook.run trace (Hook.initial true)))) = [] /\
    toasts (Hook.env (Hook.run trace (Hook.initial false))) = [].
Proof.
  intros trace. split.
  - apply (HookFacts.run_invariant
      (fun w => Hook.toastMessage w = true /\
                filter HookInv.isConsoleLog (console (Hook.env w)) = [])
      ); [|split; reflexivity].
    intros a w [Ht Hc]. destruct (step_outputs a w) as (S1 & _ & S3).
    split; [congruence | rewrite (S3 Ht); exact Hc].
  - apply (HookFacts.run_invariant
      (fun w => Hook.toastMessage w = false /\ toasts (Hook.env w) = [])
      ); [|split; reflexivity].
    intros a w [Ht Hc]. destruct (step_outputs a w) as (S1 & S2 & _).
    split; [congruence | rewrite (S2 Ht); exact Hc].
Qed.

(** ** The map's view of the session *)

Lemma notNull_map_parse {C} (parse : TrajectoryPoint -> option C) l :
  map fst
    (Views.notNull
       (map (fun t => match parse t with
                      | None => None
                      | Some coord => Some (t, coord)
                      end) l))
  = filter (fun t => match parse t with Some _ => true | None => false end) l /\
  Forall (fun tc => parse (fst tc) = Some (snd tc))
    (Views.notNull
       (map (fun t => match parse t with
                      | None => None
                      | Some coord => Some (t, coord)
                      end) l)).
Proof.
  induction l as [|t l [IH1 IH2]]; cbn [map Views.notNull filter].
  - split; [reflexivity | constructor].
  - destruct (parse t) as [c|] eqn:E; cbn [map Views.notNull fst].
    + split; [now rewrite IH1 | constructor; [exact E | exact IH2]].
    + split; assumption.
Qed.

(** X8.  The points drawn on the map are exactly the trajectory points the
    parser gives a coordinate for, in the order of the timeline and each
    with the coordinate parsed from it; the points without a usable
    coordinate are dropped from the map only, and without a session the map
    has no points. *)
Theorem mapTrajectories_keeps_parseable :
  forall (Coordinate : Type)
         (parseTrajectoryCoordinate : TrajectoryPoint -> option Coordinate)
         (d : TrackingData),
    map fst (Views.mapTrajectories parseTrajectoryCoordinate (Some d))
      = filter (fun t => match parseTrajectoryCoordinate t with
                         | Some _ => true
                         | None => false
                         end) (trajectories d) /\
    Forall (fun tc => parseTrajectoryCoordinate (fst tc) = Some (snd tc))
      (Views.mapTrajectories parseTrajectoryCoordinate (Some d)) /\
    List.length (Views.mapTrajectories parseTrajectoryCoordinate (Some d))
      <= List.length (trajectories d) /\
    Views.mapTrajectories parseTrajectoryCoordinate None = [].
Proof.
  intros C parse d. unfold Views.mapTrajectories.
  destruct (notNull_map_parse parse (trajectories d)) as [H1 H2].
  split; [exact H1|]. split; [exact H2|]. split; [|reflexivity].
  pose proof (f_equal (@List.length TrajectoryPoint) H1) as HL.
  rewrite length_map in HL. unfold Views.TrajectoryPointWithCoords in *.
  rewrite HL. apply filter_length_le.
Qed.

(** X9.  The views follow the feed.  On an active session, a trajectory
    insert puts the new point first on the map when the parser gives it a
    coordinate and leaves the map's points as they were when it does not,
    and it moves neither end point; an order update leaves the map's points
    as they were and recomputes the two end points from the new record. *)
Theorem views_follow_events :
  forall (Coordinate : Type)
         (parseTrajectoryCoordinate : TrajectoryPoint -> option Coordinate)
         (parseOrderCoordinate : Order -> Views.Endpoint -> option Coordinate)
         (w : Hook.World) (d : TrackingData) (p : TrajectoryPoint) (o : Order),
    Hook.trackingData w = Some d ->
    Views.mapTrajectories parseTrajectoryCoordinate
      (Hook.trackingData (exec (Hook.onTrajectoryInsert p) w))
    = match parseTrajectoryCoordinate p with
      | Some coord =>
          (p, coord) :: Views.mapTrajectories parseTrajectoryCoordinate (Some d)
      | None => Views.mapTrajectories parseTrajectoryCoordinate (Some d)
      end /\
    Views.startPoint parseOrderCoordinate
      (Hook.trackingData (exec (Hook.onTrajectoryInsert p) w))
    = Views.startPoint parseOrderCoordinate (Some d) /\
    Views.endPoint parseOrderCoordinate
      (Hook.trackingData (exec (Hook.onTrajectoryInsert p) w))
    = Views.endPoint parseOrderCoordinate (Some d) /\
    Views.mapTrajectories parseTrajectoryCoordinate
      (Hook.trackingData (exec (Hook.onOrderUpdate o) w))
    = Views.mapTrajectories parseTrajectoryCoordinate (Some d) /\
    Views.startPoint parseOrderCoordinate
      (Hook.trackingData (exec (Hook.onOrderUpdate o) w))
    = parseOrderCoordinate o Views.sender /\
    Views.endPoint parseOrderCoordinate
      (Hook.trackingData (exec (Hook.onOrderUpdate o) w))
    = parseOrderCoordinate o Views.receiver.
Proof.
  intros C parseT parseO w d p o Hd.
  rewrite (trajectory_insert_session w p Hd).
  assert (E : Hook.trackingData (exec (Hook.onOrderUpdate o) w)
              = Some (mkTrackingData o (trajectories d) (orderItems d))).
  { HookFacts.run_hook. now rewrite Hd. }
  rewrite E. unfold Views.mapTrajectories, Views.startPoint, Views.endPoint.
  cbn [trajectories order map Views.notNull].
  destruct (parseT p); repeat split.
Qed.

Lemma views_follow_events_witness :
  Hook.trackingData Samples.tracked = Some Samples.sampleSession /\
  List.length
    (Views.mapTrajectories
       (fun t => if (timestamp t =? "2024-01-15T08:00:00Z")%string
                 then None else Some (timestamp t))
       (Hook.trackingData
          (exec (Hook.onTrajectoryInsert Samples.latePoint) Samples.tracked))) = 2.
Proof.
  split; [reflexivity|].
  rewrite (proj1 (@views_follow_events string
             (fun t => if (timestamp t =? "2024-01-15T08:00:00Z")%string
                       then None else Some (timestamp t))
             (fun _ _ => None)
             Samples.tracked Samples.sampleSession Samples.latePoint
             Samples.sampleOrder eq_refl)).
  reflexivity.
Defined.

(** ** The earlier page *)

(** X10.  On the earlier page, a trajectory query that fails does not fail
    the search: the failure is written to the console, the order is
    published with an empty timeline, no message is shown, the loading flag
    is cleared and the order's channel is subscribed. *)
Theorem page_trajectory_failure_degrades :
  forall (w : Page.World) (orderData : Order) (e : PostgrestError),
    Page.trackingData
      (exec (Page.handleSearch_afterTrajectories orderData (ResponseFailure e)) w)
    = Some (Page.mkTrackingData orderData []) /\
    console (Page.env
      (exec (Page.handleSearch_afterTrajectories orderData (ResponseFailure e)) w))
    = console (Page.env w) ++ [ConsoleError "轨迹加载失败" e] /\
    toasts (Page.env
      (exec (Page.handleSearch_afterTrajectories orderData (ResponseFailure e)) w))
    = toasts (Page.env w) /\
    Page.loading
      (exec (Page.handleSearch_afterTrajectories orderData (ResponseFailure e)) w)
    = false /\
    exists c,
      Page.subscriptionRef
        (exec (Page.handleSearch_afterTrajectories orderData (ResponseFailure e)) w)
      = Some c /\
      In c (channels (Page.env
        (exec (Page.handleSearch_afterTrajectories orderData (ResponseFailure e)) w))) /\
      chan_orderId c = order_id orderData.
Proof.
  intros w o e. PageFacts.run_page. cbn.
  destruct (Page.subscriptionRef w); cbn;
    (repeat (split; [reflexivity|]); eexists; split; [reflexivity|];
     split; [apply in_or_app; right; left; reflexivity | reflexivity]).
Qed.

Lemma page_delivery_without_channel l :
  forall w, channels (Page.env w) = [] ->
    forallb PageInv.isDelivery l = true -> Page.run l w = w.
Proof.
  induction l as [|a l IH]; intros w Hc Hf; cbn [Page.run]; [reflexivity|].
  cbn [forallb] in Hf. apply andb_true_iff in Hf. destruct Hf as [Ha Hl].
  assert (E : exec (Page.step a) w = w).
  { destruct a; try discriminate; cbn [Page.step];
      unfold exec, Page.deliverOrderUpdate, Page.deliverTrajectoryInsert,
        liveChannel; rewrite Hc; reflexivity. }
  rewrite E. now apply IH.
Qed.


(** ** The map component *)

(** Splits on every test left in the goal after the callbacks are unfolded. *)
Ltac map_cases :=
  MapFacts.run_map;
  repeat (match goal with
          | |- context [if ?b then _ else _] => destruct b eqn:?
          | |- context [match ?x with Some _ => _ | None => _ end] =>
              destruct x eqn:?
          end; cbn).

Lemma map_step_loader_frame a w :
  MapAdapter.loaderPromise (exec (MapAdapter.step a) w) = MapAdapter.loaderPromise w /\
  MapAdapter.loadCalls (exec (MapAdapter.step a) w) = MapAdapter.loadCalls w.
Proof.
  destruct a as [[|] | | | | ]; map_cases; split; reflexivity.
Qed.

Lemma map_effect_loader e w :
  let w' := exec (MapAdapter.effect e) w in
  (MapAdapter.loaderPromise w = true ->
   MapAdapter.loaderPromise w' = true /\
   MapAdapter.loadCalls w' = MapAdapter.loadCalls w) /\
  (MapAdapter.loaderPromise w = false ->
   if MapAdapter.truthyVar (MapAdapter.VITE_AMAP_KEY e)
   then MapAdapter.loaderPromise w' = true /\
        MapAdapter.loadCalls w' = S (MapAdapter.loadCalls w)
   else MapAdapter.loaderPromise w' = false /\
        MapAdapter.loadCalls w' = MapAdapter.loadCalls w).
Proof.
  cbn zeta. split; intros H; MapFacts.run_map; rewrite H; cbn;
    destruct (MapAdapter.truthyVar (MapAdapter.VITE_AMAP_KEY e)) eqn:K;
    destruct (MapAdapter.truthyVar (MapAdapter.VITE_AMAP_SECURITY_CODE e)) eqn:C;
    cbn; split; reflexivity.
Qed.

Lemma runEvents_invariant (P : MapAdapter.World -> Prop) :
  (forall ev w, P w -> P (exec (MapLifecycle.stepEvent ev) w)) ->
  forall l w, P w -> P (MapLifecycle.runEvents l w).
Proof.
  intros Hs l. induction l as [|ev l IH]; intros w Hw; cbn [MapLifecycle.runEvents];
    [exact Hw | now apply IH, Hs].
Qed.

(** X12.  The SDK is loaded at most once.  However often the effect runs
    and whatever happens in between, [AMapLoader.load] is called at most
    once; it is not called at all when a load had already been started
    before the component was mounted, and after any call the shared loader
    promise is set. *)
Theorem sdk_loaded_at_most_once :
  forall (alreadyStarted : bool) (events : list MapLifecycle.Event),
    MapAdapter.loadCalls
      (MapLifecycle.runEvents events (MapAdapter.initial alreadyStarted)) <= 1 /\
    (alreadyStarted = true ->
     MapAdapter.loadCalls
       (MapLifecycle.runEvents events (MapAdapter.initial alreadyStarted)) = 0) /\
    (MapAdapter.loadCalls
       (MapLifecycle.runEvents events (MapAdapter.initial alreadyStarted)) = 1 ->
     MapAdapter.loaderPromise
       (MapLifecycle.runEvents events (MapAdapter.initial alreadyStarted)) = true).
Proof.
  intros b events.
  assert (H : (fun w =>
             (b = true -> MapAdapter.loaderPromise w = true /\ MapAdapter.loadCalls w = 0) /\
             (b = false ->
              (MapAdapter.loaderPromise w = false /\ MapAdapter.loadCalls w = 0) \/
              (MapAdapter.loaderPromise w = true /\ MapAdapter.loadCalls w = 1)))
            (MapLifecycle.runEvents events (MapAdapter.initial b))).
  { apply runEvents_invariant.
    - intros ev w [H1 H2]. destruct ev as [e|a]; cbn [MapLifecycle.stepEvent].
      + destruct (map_effect_loader e w) as [E1 E2]. cbn zeta in E1, E2. split.
        * intros Hb. destruct (H1 Hb) as [P C]. destruct (E1 P) as [P' C'].
          split; [exact P' | congruence].
        * intros Hb. destruct (H2 Hb) as [[P C] | [P C]].
          -- specialize (E2 P).
             destruct (MapAdapter.truthyVar (MapAdapter.VITE_AMAP_KEY e));
               destruct E2 as [P' C']; [right | left]; split; congruence.
          -- destruct (E1 P) as [P' C']. right. split; congruence.
      + destruct (map_step_loader_frame a w) as [F1 F2]. rewrite F1, F2.
        split; assumption.
    - destruct b; split; intros Hb; try discriminate; [split | left; split];
        reflexivity. }
  cbn beta in H. destruct H as [H1 H2]. destruct b.
  - destruct (H1 eq_refl) as [P C]. rewrite C. repeat split; auto.
  - destruct (H2 eq_refl) as [[P C] | [P C]]; rewrite C; repeat split; auto;
      discriminate.
Qed.

Lemma sdk_loaded_at_most_once_witness :
  MapAdapter.loadCalls
    (MapLifecycle.runEvents
       [MapLifecycle.EffectRun Samples.configured;
        MapLifecycle.After MapAdapter.Cleanup;
        MapLifecycle.EffectRun Samples.configured]
       (MapAdapter.initial false)) = 1 /\
  MapAdapter.loaderPromise
    (MapLifecycle.runEvents
       [MapLifecycle.EffectRun Samples.configured;
        MapLifecycle.After MapAdapter.Cleanup;
        MapLifecycle.EffectRun Samples.configured]
       (MapAdapter.initial false)) = true /\
  MapAdapter.loadCalls
    (MapLifecycle.runEvents [MapLifecycle.EffectRun Samples.configured]
       (MapAdapter.initial true)) = 0.
Proof.
  split; [reflexivity|]. split.
  - exact (proj2 (proj2 (sdk_loaded_at_most_once false
      [MapLifecycle.EffectRun Samples.configured;
       MapLifecycle.After MapAdapter.Cleanup;
       MapLifecycle.EffectRun Samples.configured])) eq_refl).
  - exact (proj1 (proj2 (sdk_loaded_at_most_once true
      [MapLifecycle.EffectRun Samples.configured])) eq_refl).
Defined.

Lemma map_run_app l1 l2 w :
  MapAdapter.run (l1 ++ l2) w = MapAdapter.run l2 (MapAdapter.run l1 w).
Proof.
  revert w. induction l1 as [|a l1 IH]; intros w; cbn [MapAdapter.run app];
    [reflexivity | apply IH].
Qed.

Lemma map_step_keeps_frameTracked a w :
  MapLifecycle.frameTracked w -> MapLifecycle.frameTracked (exec (MapAdapter.step a) w).
Proof.
  unfold MapLifecycle.frameTracked.
  intros H. destruct a as [[|] | | | | ]; MapFacts.run_map.
  - destruct (MapAdapter.destroyed w || negb (MapAdapter.containerRef w)); cbn;
      [exact H | now right].
  - destruct (MapAdapter.destroyed w); cbn; exact H.
  - destruct (MapAdapter.pendingFrame w) eqn:Ep; cbn;
      [|first [left; reflexivity | left; exact Ep]].
    destruct (MapAdapter.destroyed w || negb (MapAdapter.containerRef w)); cbn;
      [now left|].
    destruct (MapAdapter.mapInstanceRef w); cbn; now left.
  - destruct (MapAdapter.destroyed w); cbn; exact H.
  - destruct (MapAdapter.destroyed w); cbn; exact H.
  - destruct (MapAdapter.animationFrameId w) as [h|] eqn:Ea; cbn.
    + destruct (MapAdapter.pendingFrame w) as [h'|] eqn:Ep; cbn.
      * destruct H as [H|H]; [discriminate|]. inversion H; subst.
        rewrite Nat.eqb_refl. cbn.
        destruct (MapAdapter.mapInstanceRef w); cbn; now left.
      * destruct (MapAdapter.mapInstanceRef w); cbn;
          first [left; reflexivity | left; exact Ep].
    + destruct (MapAdapter.mapInstanceRef w); cbn;
        (destruct H as [H|H]; first [left; exact H | right; exact H]).
Qed.

Lemma map_effect_frame e w :
  MapAdapter.pendingFrame (exec (MapAdapter.effect e) w) = MapAdapter.pendingFrame w /\
  MapAdapter.mapInstanceRef (exec (MapAdapter.effect e) w) = MapAdapter.mapInstanceRef w /\
  MapAdapter.nextMap (exec (MapAdapter.effect e) w) = MapAdapter.nextMap w /\
  MapAdapter.destroyedMaps (exec (MapAdapter.effect e) w) = MapAdapter.destroyedMaps w.
Proof.
  map_cases; repeat split; reflexivity.
Qed.

Lemma map_effect_frameTracked e b :
  MapLifecycle.frameTracked (exec (MapAdapter.effect e) (MapAdapter.initial b)).
Proof.
  left. now rewrite (proj1 (map_effect_frame e (MapAdapter.initial b))).
Qed.

Lemma map_cleanup_settles w :
  MapLifecycle.frameTracked w ->
  MapAdapter.destroyed (exec MapAdapter.cleanup w) = true /\
  MapAdapter.pendingFrame (exec MapAdapter.cleanup w) = None /\
  MapAdapter.mapInstanceRef (exec MapAdapter.cleanup w) = None.
Proof.
  unfold MapLifecycle.frameTracked. intros H. MapFacts.run_map.
  destruct (MapAdapter.animationFrameId w) as [h|] eqn:Ea; cbn.
  - destruct (MapAdapter.pendingFrame w) as [h'|] eqn:Ep; cbn.
    + destruct H as [H|H]; [discriminate|]. inversion H; subst.
      rewrite Nat.eqb_refl. cbn.
      destruct (MapAdapter.mapInstanceRef w); cbn; auto.
    + destruct (MapAdapter.mapInstanceRef w); cbn; rewrite ?Ep; auto.
  - destruct (MapAdapter.mapInstanceRef w); cbn;
      (destruct H as [H|H]; rewrite ?H; auto).
Qed.

Lemma map_step_after_teardown a w :
  MapAdapter.destroyed w = true -> MapAdapter.pendingFrame w = None ->
  MapAdapter.mapInstanceRef w = None ->
  MapAdapter.destroyed (exec (MapAdapter.step a) w) = true /\
  MapAdapter.pendingFrame (exec (MapAdapter.step a) w) = None /\
  MapAdapter.mapInstanceRef (exec (MapAdapter.step a) w) = None /\
  MapLifecycle.visible (exec (MapAdapter.step a) w) = MapLifecycle.visible w.
Proof.
  intros Hd Hp Hm. unfold MapLifecycle.visible.
  destruct a as [[|] | | | | ]; MapFacts.run_map;
    rewrite ?Hd, ?Hp, ?Hm; cbn; rewrite ?Hd, ?Hp, ?Hm; auto.
  destruct (MapAdapter.animationFrameId w); cbn; rewrite ?Hp, ?Hm; cbn;
    rewrite ?Hm; auto.
Qed.

(** X13.  What arrives after the teardown is discarded.  Take any run of
    one effect and clean it up: the map held is released and, whatever
    happens afterwards (the load settling either way, a frame, map events,
    another cleanup), the loading state, the messages shown, the maps
    constructed and destroyed and [window.AMap] stay as the cleanup left
    them, and no map is held. *)
Theorem teardown_discards_late_results :
  forall (e : MapAdapter.ImportMetaEnv) (loaderStarted : bool)
         (before after : list MapAdapter.Action),
    MapAdapter.mapInstanceRef
      (MapAdapter.run (before ++ [MapAdapter.Cleanup])
         (exec (MapAdapter.effect e) (MapAdapter.initial loaderStarted))) = None /\
    MapLifecycle.visible
      (MapAdapter.run (before ++ MapAdapter.Cleanup :: after)
         (exec (MapAdapter.effect e) (MapAdapter.initial loaderStarted)))
    = MapLifecycle.visible
        (MapAdapter.run (before ++ [MapAdapter.Cleanup])
           (exec (MapAdapter.effect e) (MapAdapter.initial loaderStarted))).
Proof.
  intros e b before after.
  set (w0 := exec (MapAdapter.effect e) (MapAdapter.initial b)).
  assert (Hft : MapLifecycle.frameTracked (MapAdapter.run before w0)).
  { generalize (map_effect_frameTracked e b). fold w0. generalize w0.
    induction before as [|a l IH]; intros w Hw; cbn [MapAdapter.run];
      [exact Hw | now apply IH, map_step_keeps_frameTracked]. }
  destruct (map_cleanup_settles Hft) as (Hd & Hp & Hm).
  rewrite !map_run_app. cbn [MapAdapter.run MapAdapter.step].
  set (c := exec MapAdapter.cleanup (MapAdapter.run before w0)) in *.
  split; [exact Hm|].
  clearbody c. clear Hft. revert c Hd Hp Hm.
  induction after as [|a l IH]; intros c Hd Hp Hm; cbn [MapAdapter.run];
    [reflexivity|].
  destruct (map_step_after_teardown a c Hd Hp Hm) as (Hd' & Hp' & Hm' & Hv).
  rewrite (IH _ Hd' Hp' Hm'). exact Hv.
Qed.

Lemma map_step_keeps_accounted ev w :
  MapLifecycle.mapsAccountedFor w ->
  MapLifecycle.mapsAccountedFor (exec (MapLifecycle.stepEvent ev) w).
Proof.
  unfold MapLifecycle.mapsAccountedFor, MapLifecycle.held. intros H.
  destruct ev as [e | [[|] | | | | ]]; cbn [MapLifecycle.stepEvent];
    [|MapFacts.run_map ..].
  - destruct (map_effect_frame e w) as (_ & E2 & E3 & E4).
    now rewrite E2, E3, E4.
  - destruct (MapAdapter.destroyed w || negb (MapAdapter.containerRef w)); cbn;
      exact H.
  - destruct (MapAdapter.destroyed w); cbn; exact H.
  - destruct (MapAdapter.pendingFrame w); cbn -[seq]; [|exact H].
    destruct (MapAdapter.destroyed w || negb (MapAdapter.containerRef w));
      cbn -[seq]; [exact H|].
    destruct (MapAdapter.mapInstanceRef w) as [h|]; cbn -[seq] in *;
      rewrite seq_S, <- H; cbn [Nat.add]; rewrite ?app_nil_r; reflexivity.
  - destruct (MapAdapter.destroyed w); cbn; exact H.
  - destruct (MapAdapter.destroyed w); cbn; exact H.
  - destruct (MapAdapter.animationFrameId w) as [f|]; cbn;
      [destruct (MapAdapter.pendingFrame w) as [f'|]; cbn;
         [destruct (f' =? f); cbn|]|];
      destruct (MapAdapter.mapInstanceRef w) as [h|]; cbn;
      rewrite ?app_nil_r in *; exact H.
Qed.

(** X14.  No map instance leaks.  However often the effect runs and
    whatever happens in between, every map ever constructed is either the
    one held in [mapInstanceRef] or has been destroyed, none is destroyed
    twice, and after a cleanup every map constructed so far has been
    destroyed. *)
Theorem no_map_instance_leaks :
  forall (loaderStarted : bool) (events : list MapLifecycle.Event),
    MapAdapter.destroyedMaps
      (MapLifecycle.runEvents events (MapAdapter.initial loaderStarted))
    ++ MapLifecycle.held
         (MapLifecycle.runEvents events (MapAdapter.initial loaderStarted))
    = seq 0 (MapAdapter.nextMap
               (MapLifecycle.runEvents events (MapAdapter.initial loaderStarted))) /\
    NoDup (MapAdapter.destroyedMaps
             (MapLifecycle.runEvents events (MapAdapter.initial loaderStarted))) /\
    MapAdapter.destroyedMaps
      (exec MapAdapter.cleanup
         (MapLifecycle.runEvents events (MapAdapter.initial loaderStarted)))
    = seq 0 (MapAdapter.nextMap
               (exec MapAdapter.cleanup
                  (MapLifecycle.runEvents events (MapAdapter.initial loaderStarted)))).
Proof.
  intros b events.
  assert (H : MapLifecycle.mapsAccountedFor
                (MapLifecycle.runEvents events (MapAdapter.initial b))).
  { apply runEvents_invariant; [exact map_step_keeps_accounted | reflexivity]. }
  split; [exact H|]. split.
  - pose proof (seq_NoDup (MapAdapter.nextMap
        (MapLifecycle.runEvents events (MapAdapter.initial b))) 0) as N.
    unfold MapLifecycle.mapsAccountedFor in H. rewrite <- H in N.
    now apply NoDup_app_remove_r in N.
  - pose proof (map_step_keeps_accounted (MapLifecycle.After MapAdapter.Cleanup) H)
      as Hc.
    unfold MapLifecycle.mapsAccountedFor, MapLifecycle.held in Hc.
    cbn [MapLifecycle.stepEvent MapAdapter.step] in Hc.
    assert (Hm : MapAdapter.mapInstanceRef
                   (exec MapAdapter.cleanup
                      (MapLifecycle.runEvents events (MapAdapter.initial b))) = None).
    { MapFacts.run_map.
      destruct (MapAdapter.animationFrameId _) as [f|]; cbn;
        [destruct (MapAdapter.pendingFrame _) as [f'|]; cbn;
           [destruct (f' =? f); cbn|]|];
        destruct (MapAdapter.mapInstanceRef _); reflexivity. }
    rewrite Hm, app_nil_r in Hc. exact Hc.
Qed.


(** X16.  The map never shows an error and keeps the overlay.  Every step
    of the component, the effect included, either shows no message or
    shows exactly one and leaves the loading state ended. *)
Theorem map_message_always_ends_loading :
  forall (ev : MapLifecycle.Event) (w : MapAdapter.World),
    MapAdapter.messages (exec (MapLifecycle.stepEvent ev) w) = MapAdapter.messages w \/
    (exists m,
       MapAdapter.messages (exec (MapLifecycle.stepEvent ev) w)
         = MapAdapter.messages w ++ [m]) /\
    MapAdapter.loading (exec (MapLifecycle.stepEvent ev) w) = false.
Proof.
  intros ev w.
  destruct ev as [e | [[|] | | | | ]]; cbn [MapLifecycle.stepEvent]; map_cases;
    first [ left; reflexivity
          | right; split; [eexists; reflexivity | reflexivity] ].
Qed.

(** ** Rows of other orders *)

Lemma reachable_session_invariant b trace :
  Hook.heldIsOnly (Hook.run trace (Hook.initial b)) /\
  HookInv.sessionMatchesRef (Hook.run trace (Hook.initial b)).
Proof.
  apply (HookFacts.run_invariant
           (fun w => Hook.heldIsOnly w /\ HookInv.sessionMatchesRef w)).
  - intros a w [Hh Hs]. split.
    + now apply HookFacts.step_keeps_heldIsOnly.
    + now apply step_keeps_sessionMatchesRef.
  - split; [left; reflexivity | intros d0 Hd0; discriminate].
Qed.

Lemma liveChannel_is_held w h c' :
  Hook.heldIsOnly w -> liveChannel h (Hook.env w) = Some c' ->
  Hook.subscriptionRef w = Some c'.
Proof.
  intros [Hc | (c & Hc & Hr)] El; unfold liveChannel in El; rewrite Hc in El;
    cbn [find] in El; [discriminate|].
  destruct (chan_id c =? h); [|discriminate]. now inversion El; subst.
Qed.

(** X17.  The session only ever receives rows of its own order.  In every
    state the hook can reach in which a session is shown, a delivery, on
    any handle, of an order record with another id or of a trajectory point
    of another order changes nothing at all. *)
Theorem foreign_rows_change_nothing :
  forall (withToast : bool) (trace : list Hook.Action) (d : TrackingData)
         (h : nat) (o : Order) (p : TrajectoryPoint),
    Hook.trackingData (Hook.run trace (Hook.initial withToast)) = Some d ->
    (order_id o <> order_id (order d) ->
     exec (Hook.step (Hook.OrderUpdated h o)) (Hook.run trace (Hook.initial withToast))
     = Hook.run trace (Hook.initial withToast)) /\
    (trajectory_order_id p <> order_id (order d) ->
     exec (Hook.step (Hook.TrajectoryInserted h p))
          (Hook.run trace (Hook.initial withToast))
     = Hook.run trace (Hook.initial withToast)).
Proof.
  intros b trace d h o p Hd.
  destruct (reachable_session_invariant b trace) as [Hh Hs].
  destruct (Hs d Hd) as (c & Hr & Hc).
  set (w := Hook.run trace (Hook.initial b)) in *.
  split; intros Hne; cbn [Hook.step];
    unfold exec, Hook.deliverOrderUpdate, Hook.deliverTrajectoryInsert;
    destruct (liveChannel h (Hook.env w)) as [c'|] eqn:El; try reflexivity;
    pose proof (liveChannel_is_held h Hh El) as Hr';
    assert (c' = c) by congruence; subst c'.
  - destruct (String.eqb_spec (order_id o) (chan_orderId c)) as [E|E];
      [exfalso; apply Hne; congruence | reflexivity].
  - destruct (String.eqb_spec (trajectory_order_id p) (chan_orderId c)) as [E|E];
      [exfalso; apply Hne; congruence | reflexivity].
Qed.

Lemma foreign_rows_change_nothing_witness :
  Hook.trackingData (Hook.run Samples.trackedSearch (Hook.initial true))
    = Some Samples.sampleSession /\
  exec (Hook.step (Hook.OrderUpdated 0
          (mkOrder "o-2" "ORD202401150002" pending None None None None)))
       (Hook.run Samples.trackedSearch (Hook.initial true))
  = Hook.run Samples.trackedSearch (Hook.initial true).
Proof.
  split; [reflexivity|].
  apply (proj1 (@foreign_rows_change_nothing true Samples.trackedSearch
                  Samples.sampleSession 0
                  (mkOrder "o-2" "ORD202401150002" pending None None None None)
                  Samples.latePoint eq_refl)).
  discriminate.
Defined.

(** * Later mounts and overlapping searches *)

(** ** A second mount on the client a stale search left behind *)

(** C1, at the failing input.  The view is unmounted while a search is in
    flight; the search then settles and leaves the channel of order o-1
    subscribed on the client, with nothing left to release it (the defect
    of C3).  The view is mounted again: its ref is new and empty, the
    client is the same.  A search for order o-2 succeeds:
    [subscribeToOrderUpdates] finds nothing in the ref to release and
    opens a second channel, so the client holds two subscriptions, and
    one is left after [cleanupSubscription].  The earlier page does the
    same. *)
Lemma second_mount_holds_two_subscriptions :
  channels Mounts.leakedClient = [mkChannel 0 "order-tracking-o-1" "o-1"] /\
  Hook.subscriptionRef (Mounts.hookOn true Mounts.leakedClient) = None /\
  Hook.trackingData Mounts.secondMount
    = Some (mkTrackingData Mounts.otherOrder [] []) /\
  Hook.subscriptionRef Mounts.secondMount
    = Some (mkChannel 1 "order-tracking-o-2" "o-2") /\
  channels (Hook.env Mounts.secondMount)
    = [mkChannel 0 "order-tracking-o-1" "o-1";
       mkChannel 1 "order-tracking-o-2" "o-2"] /\
  Hook.subscriptionCount Mounts.secondMount = 2 /\
  Hook.subscriptionCount (exec Hook.cleanupSubscription Mounts.secondMount) = 1 /\
  channels Mounts.pageLeakedClient = [mkChannel 0 "order-tracking-o-1" "o-1"] /\
  channels (Page.env Mounts.pageSecondMount)
    = [mkChannel 0 "order-tracking-o-1" "o-1";
       mkChannel 1 "order-tracking-o-2" "o-2"] /\
  Page.subscriptionCount Mounts.pageSecondMount = 2.
Proof. vm_compute. repeat split. Qed.

(** ** A lookup that answers while another search has published *)

(** C7, the claim as written fails when searches overlap: [handleSearch]
    keeps no mark of the search that is current.  The search for
    UNKNOWN123 is waiting for its lookup when a second search is started,
    found and published; the first lookup then answers with no record.
    The not-found message is reported and the loading flag cleared, but
    the session is the one the second search published, not null. *)
Lemma overlapping_search_keeps_other_session :
  Hook.trackingData (Hook.run Mounts.overlappingSearches (Hook.initial true))
    = Some Samples.sampleSession /\
  Hook.searched (Hook.run Mounts.overlappingSearches (Hook.initial true)) = true /\
  Hook.loading (Hook.run Mounts.overlappingSearches (Hook.initial true)) = false /\
  toasts (Hook.env (Hook.run Mounts.overlappingSearches (Hook.initial true)))
    = [(LError, "未找到该订单信息，请检查单号"%string)] /\
  Hook.subscriptionCount
    (Hook.run Mounts.overlappingSearches (Hook.initial true)) = 1.
Proof. vm_compute. repeat split. Qed.

(** No step clears [searched] or changes the hook's argument. *)
Lemma step_keeps_search_flags a w :
  Hook.toastMessage (exec (Hook.step a) w) = Hook.toastMessage w /\
  (Hook.searched w = true -> Hook.searched (exec (Hook.step a) w) = true).
Proof.
  split; [exact (proj1 (step_outputs a w))|].
  intros Hs. destruct (Hook.fromFeed a) eqn:Ef.
  - destruct (feed_step_frame a w Ef) as (_ & F2 & _). congruence.
  - destruct a as [n | r | o t i | h o | h p | ms | | ]; try discriminate.
    + unfold exec, Hook.step, Hook.handleSearch.
      destruct (negb (truthy (trim n))); [exact Hs|]. HookFacts.run_hook.
      reflexivity.
    + destruct r as [[o|]|e].
      * exact (eq_trans (proj1 (proj2 (lookup_found_issues_queries o w))) Hs).
      * exact (eq_trans (proj1 (proj2 (not_found_settles w))) Hs).
      * exact (eq_trans (proj1 (proj2 (lookup_failure_settles e w))) Hs).
    + exact (eq_trans (proj1 (proj2 (proj2 (secondary_settles o t i w)))) Hs).
    + exact (eq_trans (proj1 (proj2 (removeHeldChannel_frame w))) Hs).
    + exact (eq_trans (proj1 (proj2 (removeHeldChannel_frame w))) Hs).
Qed.

Lemma run_keeps_search_flags l :
  forall w,
    Hook.toastMessage (Hook.run l w) = Hook.toastMessage w /\
    (Hook.searched w = true -> Hook.searched (Hook.run l w) = true).
Proof.
  induction l as [|a l IH]; intros w; cbn [Hook.run]; [split; auto|].
  destruct (IH (exec (Hook.step a) w)) as [I1 I2].
  destruct (step_keeps_search_flags a w) as [S1 S2].
  split; [congruence | auto].
Qed.

(** C7, amended.  For every search whose lookup answers with no record,
    whatever ran while the lookup was in flight, the step that takes the
    answer reports the not-found message once through [showMessage] (as an
    error toast, or on the console when the hook was given no toast
    callback), clears the loading flag and leaves [searched] set; it
    issues no query, opens and releases no channel and leaves the ref and
    the session as they were at that moment.  When nothing but feed
    deliveries and timeouts ran in between, the search ends in the
    "no result" state, session null, with the channels and the ref as they
    were before the search; a session that another search published in
    between is left in place. *)
Theorem lookup_without_record_ends_not_found :
  forall (w : Hook.World) (orderNumber : jsstring) (events : list Hook.Action),
    truthy (trim orderNumber) = true ->
    let w1 := Hook.run (Hook.CallHandleSearch orderNumber :: events) w in
    let w2 := exec (Hook.step (Hook.LookupSettled (ResponseSuccess None))) w1 in
    Hook.searched w2 = true /\
    Hook.loading w2 = false /\
    (if Hook.toastMessage w
     then toasts (Hook.env w2)
            = toasts (Hook.env w1)
              ++ [(LError, "未找到该订单信息，请检查单号"%string)] /\
          console (Hook.env w2) = console (Hook.env w1)
     else console (Hook.env w2)
            = console (Hook.env w1)
              ++ [ConsoleLog LError "未找到该订单信息，请检查单号"] /\
          toasts (Hook.env w2) = toasts (Hook.env w1)) /\
    Hook.trackingData w2 = Hook.trackingData w1 /\
    channels (Hook.env w2) = channels (Hook.env w1) /\
    nextChannel (Hook.env w2) = nextChannel (Hook.env w1) /\
    Hook.subscriptionRef w2 = Hook.subscriptionRef w1 /\
    requests (Hook.env w2) = requests (Hook.env w1) /\
    (forallb Hook.fromFeed events = true ->
     Hook.trackingData w2 = None /\
     channels (Hook.env w2) = channels (Hook.env w) /\
     nextChannel (Hook.env w2) = nextChannel (Hook.env w) /\
     Hook.subscriptionRef w2 = Hook.subscriptionRef w /\
     requests (Hook.env w2)
       = requests (Hook.env w) ++ [RpcGetOrderByNumber (trim orderNumber)]).
Proof.
  intros w n events Ht w1 w2.
  destruct (handleSearch_starts n w Ht) as (A1 & A2 & A3 & A4 & A5 & A6 & A7 & A8).
  set (w0 := exec (Hook.step (Hook.CallHandleSearch n)) w) in *.
  assert (E1 : w1 = Hook.run events w0) by reflexivity.
  destruct (run_keeps_search_flags events w0) as [R1 R2].
  rewrite <- E1 in R1, R2.
  destruct (not_found_settles w1) as (C1 & C2 & C3 & C4 & C5 & C6 & C7 & C8).
  fold w2 in C1, C2, C3, C4, C5, C6, C7, C8.
  assert (Etoast : Hook.toastMessage w1 = Hook.toastMessage w) by congruence.
  rewrite Etoast in C8.
  split; [rewrite C2; auto|]. split; [exact C1|]. split; [exact C8|].
  repeat (split; [assumption|]).
  intros Hf.
  destruct (feed_run_frame events w0 Hf) as (B1 & B2 & B3 & B4 & B5 & B6 & B7).
  pose proof (hook_feed_keeps_null events w0 Hf A3) as B8.
  rewrite <- E1 in *.
  repeat split; congruence.
Qed.

Lemma lookup_without_record_ends_not_found_witness :
  truthy (trim (lit "UNKNOWN123")) = true /\
  forallb Hook.fromFeed [Hook.TrajectoryInserted 0 Samples.latePoint] = true /\
  Hook.searched
    (Hook.run [Hook.CallHandleSearch (lit "UNKNOWN123");
               Hook.TrajectoryInserted 0 Samples.latePoint;
               Hook.LookupSettled (ResponseSuccess None)]
              Samples.tracked) = true /\
  Hook.loading
    (Hook.run [Hook.CallHandleSearch (lit "UNKNOWN123");
               Hook.TrajectoryInserted 0 Samples.latePoint;
               Hook.LookupSettled (ResponseSuccess None)]
              Samples.tracked) = false /\
  Hook.trackingData
    (Hook.run [Hook.CallHandleSearch (lit "UNKNOWN123");
               Hook.TrajectoryInserted 0 Samples.latePoint;
               Hook.LookupSettled (ResponseSuccess None)]
              Samples.tracked) = None.
Proof.
  split; [reflexivity|]. split; [reflexivity|].
  destruct (@lookup_without_record_ends_not_found Samples.tracked
              (lit "UNKNOWN123") [Hook.TrajectoryInserted 0 Samples.latePoint]
              eq_refl) as (H1 & H2 & _ & _ & _ & _ & _ & _ & H9).
  split; [exact H1|]. split; [exact H2|]. exact (proj1 (H9 eq_refl)).
Defined.

(** ** A search that succeeds, on any client *)

Lemma secondary_channels o t i w :
  let w' := exec (Hook.step (Hook.SecondarySettled o t i)) w in
  let c := mkChannel (nextChannel (Hook.env w))
                     ("order-tracking-" ++ order_id o) (order_id o) in
  Hook.subscriptionRef w' = Some c /\
  channels (Hook.env w') = Mounts.releasedChannels w ++ [c] /\
  nextChannel (Hook.env w') = S (nextChannel (Hook.env w)).
Proof.
  cbn zeta. unfold Mounts.releasedChannels.
  destruct t as [tl|te], i as [il|ie]; HookFacts.run_hook; cbn;
    destruct (Hook.subscriptionRef w); cbn; repeat split.
Qed.

Lemma heldIsOnly_released w :
  Hook.heldIsOnly w -> Mounts.releasedChannels w = [].
Proof.
  unfold Mounts.releasedChannels.
  intros [Hc | (c & Hc & Hr)].
  - rewrite Hc. now destruct (Hook.subscriptionRef w).
  - rewrite Hr, Hc. cbn. now rewrite Nat.eqb_refl.
Qed.

(** X2.  A search that succeeds publishes exactly what was fetched, on any
    client.  For every state, non-blank order number, found order and
    fetched lists, when nothing but feed deliveries and timeouts runs while
    the queries are in flight: the session is the order with the two lists
    as the store returned them, the loading flag is cleared, the three
    queries were issued in order (lookup, trajectories, items), and the ref
    holds a channel opened under the next unused handle, filtered on that
    order.  The channel the ref held before is released and every other
    channel of the client is left as it was; so the new channel is the only
    one held when the client held none besides the ref's, and is one among
    others when an earlier mount left channels behind. *)
Theorem successful_search_publishes_fetched :
  forall (w : Hook.World) (orderNumber : jsstring) (o : Order)
         (fetched : list TrajectoryPoint) (items : list OrderItem)
         (during1 during2 : list Hook.Action),
    truthy (trim orderNumber) = true ->
    forallb Hook.fromFeed during1 = true ->
    forallb Hook.fromFeed during2 = true ->
    let w' :=
      Hook.run
        ((Hook.CallHandleSearch orderNumber :: during1)
         ++ (Hook.LookupSettled (ResponseSuccess (Some o)) :: during2)
         ++ [Hook.SecondarySettled o (ResponseSuccess fetched) (ResponseSuccess items)])
        w in
    let c := mkChannel (nextChannel (Hook.env w))
                       ("order-tracking-" ++ order_id o) (order_id o) in
    Hook.trackingData w' = Some (mkTrackingData o fetched items) /\
    Hook.loading w' = false /\ Hook.searched w' = true /\
    requests (Hook.env w')
      = requests (Hook.env w)
        ++ [RpcGetOrderByNumber (trim orderNumber);
            SelectTrajectories (order_id o); SelectOrderItems (order_id o)] /\
    Hook.subscriptionRef w' = Some c /\
    channels (Hook.env w') = Mounts.releasedChannels w ++ [c] /\
    nextChannel (Hook.env w') = S (nextChannel (Hook.env w)) /\
    (Forall (fun c' => chan_id c' < nextChannel (Hook.env w)) (channels (Hook.env w)) ->
     ~ In c (channels (Hook.env w))) /\
    (Hook.heldIsOnly w -> channels (Hook.env w') = [c]).
Proof.
  intros w n o tl il d1 d2 Ht Hf1 Hf2 w' c.
  subst w'. rewrite !hook_run_app. cbn [Hook.run].
  set (w0 := exec (Hook.step (Hook.CallHandleSearch n)) w).
  destruct (handleSearch_starts n w Ht) as (A1 & A2 & A3 & A4 & A5 & A6 & A7 & A8).
  fold w0 in A1, A2, A3, A4, A5, A6, A7, A8.
  set (w1 := Hook.run d1 w0).
  destruct (feed_run_frame d1 w0 Hf1) as (B1 & B2 & B3 & B4 & B5 & B6 & B7).
  fold w1 in B1, B2, B3, B4, B5, B6, B7.
  set (w2 := exec (Hook.step (Hook.LookupSettled (ResponseSuccess (Some o)))) w1).
  destruct (lookup_found_issues_queries o w1) as (C1 & C2 & C3 & C4 & C5 & C6 & C7 & C8 & C9).
  fold w2 in C1, C2, C3, C4, C5, C6, C7, C8, C9.
  assert (C10 : nextChannel (Hook.env w2) = nextChannel (Hook.env w1)).
  { exact (proj1 (proj2 (HookFacts.step_subscription_frame
             (Hook.LookupSettled (ResponseSuccess (Some o))) w1 eq_refl))). }
  set (w3 := Hook.run d2 w2).
  destruct (feed_run_frame d2 w2 Hf2) as (D1 & D2 & D3 & D4 & D5 & D6 & D7).
  fold w3 in D1, D2, D3, D4, D5, D6, D7.
  destruct (secondary_settles o (ResponseSuccess tl) (ResponseSuccess il) w3)
    as (G1 & G2 & G3 & G4 & _).
  cbn zeta in G1, G2, G3, G4. cbn [data orEmpty] in G1.
  destruct (secondary_channels o (ResponseSuccess tl) (ResponseSuccess il) w3)
    as (K1 & K2 & K3).
  cbn zeta in K1, K2, K3.
  assert (En : nextChannel (Hook.env w3) = nextChannel (Hook.env w)) by congruence.
  assert (Er : Mounts.releasedChannels w3 = Mounts.releasedChannels w).
  { unfold Mounts.releasedChannels.
    replace (Hook.subscriptionRef w3) with (Hook.subscriptionRef w) by congruence.
    replace (channels (Hook.env w3)) with (channels (Hook.env w)) by congruence.
    reflexivity. }
  rewrite En in K1, K2, K3. rewrite Er in K2. fold c in K1, K2.
  split; [exact G1|]. split; [exact G2|]. split; [congruence|]. split.
  { rewrite G4, D4, C9, B4, A8, <- app_assoc. reflexivity. }
  split; [exact K1|]. split; [exact K2|]. split; [exact K3|]. split.
  - intros Hall Hin.
    pose proof (proj1 (Forall_forall _ _) Hall c Hin) as Hlt. cbn in Hlt. lia.
  - intros Hh. rewrite K2, (heldIsOnly_released Hh). reflexivity.
Qed.

Lemma successful_search_publishes_fetched_witness :
  truthy (trim (lit "ORD202401150002")) = true /\
  Hook.heldIsOnly Samples.tracked /\
  channels (Hook.env
    (Hook.run
       ((Hook.CallHandleSearch (lit "ORD202401150002")
           :: [Hook.TrajectoryInserted 0 Samples.latePoint])
        ++ (Hook.LookupSettled (ResponseSuccess (Some Mounts.otherOrder))
              :: [Hook.Elapse 200])
        ++ [Hook.SecondarySettled Mounts.otherOrder
              (ResponseSuccess []) (ResponseSuccess [])])
       Samples.tracked))
  = [mkChannel 1 "order-tracking-o-2" "o-2"] /\
  channels (Hook.env
    (Hook.run
       ((Hook.CallHandleSearch (lit "ORD202401150002") :: [])
        ++ (Hook.LookupSettled (ResponseSuccess (Some Mounts.otherOrder)) :: [])
        ++ [Hook.SecondarySettled Mounts.otherOrder
              (ResponseSuccess []) (ResponseSuccess [])])
       (Mounts.hookOn true Mounts.leakedClient)))
  = [mkChannel 0 "order-tracking-o-1" "o-1";
     mkChannel 1 "order-tracking-o-2" "o-2"].
Proof.
  assert (H : Hook.heldIsOnly Samples.tracked).
  { right. eexists. split; reflexivity. }
  split; [reflexivity|]. split; [exact H|]. split.
  - destruct (@successful_search_publishes_fetched Samples.tracked
                (lit "ORD202401150002") Mounts.otherOrder [] []
                [Hook.TrajectoryInserted 0 Samples.latePoint]
                [Hook.Elapse 200] eq_refl eq_refl eq_refl)
      as (_ & _ & _ & _ & _ & _ & _ & _ & K).
    exact (K H).
  - destruct (@successful_search_publishes_fetched
                (Mounts.hookOn true Mounts.leakedClient)
                (lit "ORD202401150002") Mounts.otherOrder [] [] [] []
                eq_refl eq_refl eq_refl)
      as (_ & _ & _ & _ & _ & K & _).
    exact K.
Defined.

(** X3.  A lookup that fails with a store error is reported once.  For
    every search whose lookup answers with an error, whatever ran while the
    lookup was in flight, the step that takes the answer reports one error,
    with the error's own message when the error object is an [Error] and
    the fixed text otherwise, clears the loading flag and leaves [searched]
    set; it issues no query and leaves the session, the ref and the
    client's channels as they were at that moment.  When nothing but feed
    deliveries and timeouts ran in between, the session is null and the
    channels and the ref are those held before the search. *)
Theorem lookup_error_is_reported :
  forall (w : Hook.World) (orderNumber : jsstring) (events : list Hook.Action)
         (e : PostgrestError),
    truthy (trim orderNumber) = true ->
    let w1 := Hook.run (Hook.CallHandleSearch orderNumber :: events) w in
    let w2 := exec (Hook.step (Hook.LookupSettled (ResponseFailure e))) w1 in
    let text := if pg_instanceofError e then pg_message e
                else "查询失败，请稍后重试"%string in
    Hook.searched w2 = true /\
    Hook.loading w2 = false /\
    (if Hook.toastMessage w
     then toasts (Hook.env w2) = toasts (Hook.env w1) ++ [(LError, text)] /\
          console (Hook.env w2) = console (Hook.env w1)
     else console (Hook.env w2) = console (Hook.env w1) ++ [ConsoleLog LError text] /\
          toasts (Hook.env w2) = toasts (Hook.env w1)) /\
    Hook.trackingData w2 = Hook.trackingData w1 /\
    channels (Hook.env w2) = channels (Hook.env w1) /\
    Hook.subscriptionRef w2 = Hook.subscriptionRef w1 /\
    requests (Hook.env w2) = requests (Hook.env w1) /\
    (forallb Hook.fromFeed events = true ->
     Hook.trackingData w2 = None /\
     channels (Hook.env w2) = channels (Hook.env w) /\
     Hook.subscriptionRef w2 = Hook.subscriptionRef w /\
     requests (Hook.env w2)
       = requests (Hook.env w) ++ [RpcGetOrderByNumber (trim orderNumber)]).
Proof.
  intros w n events e Ht w1 w2 text.
  destruct (handleSearch_starts n w Ht) as (A1 & A2 & A3 & A4 & A5 & A6 & A7 & A8).
  set (w0 := exec (Hook.step (Hook.CallHandleSearch n)) w) in *.
  assert (E1 : w1 = Hook.run events w0) by reflexivity.
  destruct (run_keeps_search_flags events w0) as [R1 R2].
  rewrite <- E1 in R1, R2.
  destruct (lookup_failure_settles e w1) as (C1 & C2 & C3 & C4 & C5 & C6 & C7).
  fold w2 in C1, C2, C3, C4, C5, C6, C7. fold text in C7.
  assert (Etoast : Hook.toastMessage w1 = Hook.toastMessage w) by congruence.
  rewrite Etoast in C7.
  split; [rewrite C2; auto|]. split; [exact C1|]. split; [exact C7|].
  repeat (split; [assumption|]).
  intros Hf.
  destruct (feed_run_frame events w0 Hf) as (B1 & B2 & B3 & B4 & B5 & B6 & B7).
  pose proof (hook_feed_keeps_null events w0 Hf A3) as B8.
  rewrite <- E1 in *.
  repeat split; congruence.
Qed.

Lemma lookup_error_is_reported_witness :
  truthy (trim (lit "ORD202401150001")) = true /\
  forallb Hook.fromFeed [Hook.Elapse 100] = true /\
  toasts (Hook.env
    (Hook.run [Hook.CallHandleSearch (lit "ORD202401150001"); Hook.Elapse 100;
               Hook.LookupSettled
                 (ResponseFailure (mkPostgrestError "permission denied" true))]
              Samples.tracked))
  = [(LError, "permission denied"%string)] /\
  Hook.trackingData
    (Hook.run [Hook.CallHandleSearch (lit "ORD202401150001"); Hook.Elapse 100;
               Hook.LookupSettled
                 (ResponseFailure (mkPostgrestError "permission denied" true))]
              Samples.tracked) = None.
Proof.
  split; [reflexivity|]. split; [reflexivity|].
  destruct (@lookup_error_is_reported Samples.tracked (lit "ORD202401150001")
              [Hook.Elapse 100]
              (mkPostgrestError "permission denied" true) eq_refl)
    as (_ & _ & H3 & _ & _ & _ & _ & H8).
  split; [exact (proj1 H3) | exact (proj1 (H8 eq_refl))].
Defined.

(** ** Release, on any client *)

Lemma dead_handle_drops_deliveries h w :
  liveChannel h (Hook.env w) = None ->
  (forall o, exec (Hook.step (Hook.OrderUpdated h o)) w = w) /\
  (forall p, exec (Hook.step (Hook.TrajectoryInserted h p)) w = w).
Proof.
  intros H. split; intros x; cbn [Hook.step];
    unfold exec, Hook.deliverOrderUpdate, Hook.deliverTrajectoryInsert;
    rewrite H; reflexivity.
Qed.

Lemma find_after_removal h (l : list RealtimeChannel) :
  find (fun c => chan_id c =? h) (filter (fun c' => negb (chan_id c' =? h)) l) = None.
Proof.
  induction l as [|a l IH]; cbn [filter find]; [reflexivity|].
  destruct (chan_id a =? h) eqn:E; cbn [negb]; [exact IH|].
  cbn [find]. rewrite E. exact IH.
Qed.

Lemma filter_twice {A} (f : A -> bool) l : filter f (filter f l) = filter f l.
Proof.
  induction l as [|a l IH]; cbn [filter]; [reflexivity|].
  destruct (f a) eqn:E; cbn [filter]; rewrite ?E, IH; reflexivity.
Qed.

Lemma removeHeldChannel_channels w :
  channels (Hook.env (exec Hook.removeHeldChannel w)) = Mounts.releasedChannels w.
Proof.
  unfold Mounts.releasedChannels. HookFacts.run_hook.
  destruct (Hook.subscriptionRef w); reflexivity.
Qed.

Lemma removeHeldChannel_twice w :
  exec Hook.removeHeldChannel (exec Hook.removeHeldChannel w)
  = exec Hook.removeHeldChannel w.
Proof.
  destruct w as [l s t u r tm m [ch nx rq nw ti to co]].
  HookFacts.run_hook. destruct r as [c|]; cbn; [|reflexivity].
  unfold removeChannel. cbn. now rewrite filter_twice.
Qed.

(** X4.  Releasing stops the released channel, on any client.  For every
    state of the hook, [cleanupSubscription], and likewise the unmount
    cleanup, removes from the client exactly the channel the ref points
    to: deliveries on its handle change nothing afterwards, and the
    client's other channels stay.  The release touches nothing else (the
    session, [loading], [searched], [isUpdating] and the ref stay, and so
    do the pending timeouts), and releasing once more changes nothing.
    When the client held no channel besides the ref's, it holds none
    afterwards and no delivery at all changes anything. *)
Theorem release_stops_deliveries :
  forall w : Hook.World,
    (channels (Hook.env (exec Hook.cleanupSubscription w)) = Mounts.releasedChannels w /\
     channels (Hook.env (exec Hook.unmount w)) = Mounts.releasedChannels w) /\
    (forall c o p,
       Hook.subscriptionRef w = Some c ->
       exec (Hook.step (Hook.OrderUpdated (chan_id c) o))
            (exec Hook.cleanupSubscription w)
         = exec Hook.cleanupSubscription w /\
       exec (Hook.step (Hook.TrajectoryInserted (chan_id c) p))
            (exec Hook.cleanupSubscription w)
         = exec Hook.cleanupSubscription w /\
       exec (Hook.step (Hook.OrderUpdated (chan_id c) o)) (exec Hook.unmount w)
         = exec Hook.unmount w /\
       exec (Hook.step (Hook.TrajectoryInserted (chan_id c) p)) (exec Hook.unmount w)
         = exec Hook.unmount w) /\
    exec Hook.cleanupSubscription (exec Hook.cleanupSubscription w)
      = exec Hook.cleanupSubscription w /\
    (Hook.trackingData (exec Hook.cleanupSubscription w) = Hook.trackingData w /\
     Hook.loading (exec Hook.cleanupSubscription w) = Hook.loading w /\
     Hook.searched (exec Hook.cleanupSubscription w) = Hook.searched w /\
     Hook.isUpdating (exec Hook.cleanupSubscription w) = Hook.isUpdating w /\
     Hook.subscriptionRef (exec Hook.cleanupSubscription w) = Hook.subscriptionRef w /\
     timers (Hook.env (exec Hook.cleanupSubscription w)) = timers (Hook.env w)) /\
    (Hook.trackingData (exec Hook.unmount w) = Hook.trackingData w /\
     Hook.loading (exec Hook.unmount w) = Hook.loading w /\
     Hook.searched (exec Hook.unmount w) = Hook.searched w /\
     Hook.isUpdating (exec Hook.unmount w) = Hook.isUpdating w /\
     Hook.subscriptionRef (exec Hook.unmount w) = Hook.subscriptionRef w /\
     timers (Hook.env (exec Hook.unmount w)) = timers (Hook.env w)) /\
    (Hook.heldIsOnly w ->
     Hook.subscriptionCount (exec Hook.cleanupSubscription w) = 0 /\
     Hook.subscriptionCount (exec Hook.unmount w) = 0 /\
     forall deliveries,
       forallb HookInv.isDelivery deliveries = true ->
       Hook.run deliveries (exec Hook.cleanupSubscription w)
         = exec Hook.cleanupSubscription w /\
       Hook.run deliveries (exec Hook.unmount w) = exec Hook.unmount w).
Proof.
  intros w.
  pose proof (removeHeldChannel_channels w) as Hc.
  destruct (removeHeldChannel_frame w)
    as (F1 & F2 & F3 & F4 & F5 & F6 & _).
  cbn zeta in F1, F2, F3, F4, F5, F6.
  assert (Hu : channels (Hook.env (exec Hook.unmount w)) = Mounts.releasedChannels w).
  { unfold Hook.unmount, Hook.effectCleanup, exec, bind, Hook.markUnmounted.
    cbn [snd Hook.env]. exact Hc. }
  split; [split; [exact Hc | exact Hu]|]. split.
  { intros c o p Hr.
    assert (Dr : liveChannel (chan_id c) (Hook.env (exec Hook.cleanupSubscription w)) = None).
    { unfold liveChannel. unfold Hook.cleanupSubscription. rewrite Hc.
      unfold Mounts.releasedChannels. rewrite Hr. apply find_after_removal. }
    assert (Du : liveChannel (chan_id c) (Hook.env (exec Hook.unmount w)) = None).
    { unfold liveChannel. rewrite Hu.
      unfold Mounts.releasedChannels. rewrite Hr. apply find_after_removal. }
    destruct (dead_handle_drops_deliveries _ _ Dr) as [R1 R2].
    destruct (dead_handle_drops_deliveries _ _ Du) as [U1 U2].
    repeat split; auto. }
  split; [apply removeHeldChannel_twice|].
  split; [repeat split; assumption|].
  split.
  { unfold Hook.unmount, Hook.effectCleanup, exec, bind, Hook.markUnmounted in *.
    cbn [snd Hook.trackingData Hook.loading Hook.searched Hook.isUpdating
         Hook.subscriptionRef Hook.env].
    repeat split; assumption. }
  intros Hh. pose proof (heldIsOnly_released Hh) as He.
  assert (Hr0 : channels (Hook.env (exec Hook.cleanupSubscription w)) = [])
    by (unfold Hook.cleanupSubscription; congruence).
  assert (Hu0 : channels (Hook.env (exec Hook.unmount w)) = []) by congruence.
  split; [unfold Hook.subscriptionCount; now rewrite Hr0|].
  split; [unfold Hook.subscriptionCount; now rewrite Hu0|].
  intros deliveries Hd.
  split; now apply deliveries_without_channel.
Qed.

Lemma release_stops_deliveries_witness :
  Hook.subscriptionRef Samples.tracked = Some (mkChannel 0 "order-tracking-o-1" "o-1") /\
  Hook.heldIsOnly Samples.tracked /\
  forallb HookInv.isDelivery
    [Hook.TrajectoryInserted 0 Samples.latePoint;
     Hook.OrderUpdated 0 Samples.deliveredOrder] = true /\
  exec (Hook.step (Hook.OrderUpdated 0 Samples.deliveredOrder))
       (exec Hook.cleanupSubscription Samples.tracked)
  = exec Hook.cleanupSubscription Samples.tracked /\
  Hook.run [Hook.TrajectoryInserted 0 Samples.latePoint;
            Hook.OrderUpdated 0 Samples.deliveredOrder]
           (exec Hook.unmount Samples.tracked)
  = exec Hook.unmount Samples.tracked.
Proof.
  assert (H : Hook.heldIsOnly Samples.tracked).
  { right. eexists. split; reflexivity. }
  split; [reflexivity|]. split; [exact H|]. split; [reflexivity|].
  destruct (release_stops_deliveries Samples.tracked)
    as (_ & D & _ & _ & _ & K).
  split.
  - exact (proj1 (D (mkChannel 0 "order-tracking-o-1" "o-1")
                    Samples.deliveredOrder Samples.latePoint eq_refl)).
  - exact (proj2 (proj2 (proj2 (K H))
             [Hook.TrajectoryInserted 0 Samples.latePoint;
              Hook.OrderUpdated 0 Samples.deliveredOrder] eq_refl)).
Defined.

Lemma page_dead_handle_drops_deliveries h w :
  liveChannel h (Page.env w) = None ->
  (forall o, exec (Page.step (Page.OrderUpdated h o)) w = w) /\
  (forall p, exec (Page.step (Page.TrajectoryInserted h p)) w = w).
Proof.
  intros H. split; intros x; cbn [Page.step];
    unfold exec, Page.deliverOrderUpdate, Page.deliverTrajectoryInsert;
    rewrite H; reflexivity.
Qed.

Lemma page_logout_frame w :
  channels (Page.env (exec Page.handleLogout w)) = Mounts.pageReleasedChannels w /\
  Page.trackingData (exec Page.handleLogout w) = Page.trackingData w /\
  Page.loading (exec Page.handleLogout w) = Page.loading w /\
  Page.searched (exec Page.handleLogout w) = Page.searched w /\
  Page.isUpdating (exec Page.handleLogout w) = Page.isUpdating w /\
  Page.subscriptionRef (exec Page.handleLogout w) = Page.subscriptionRef w /\
  timers (Page.env (exec Page.handleLogout w)) = timers (Page.env w) /\
  toasts (Page.env (exec Page.handleLogout w)) = toasts (Page.env w).
Proof.
  unfold Mounts.pageReleasedChannels. PageFacts.run_page.
  destruct (Page.subscriptionRef w) eqn:E; cbn; rewrite ?E; repeat split.
Qed.

Lemma page_logout_twice w :
  exec Page.handleLogout (exec Page.handleLogout w) = exec Page.handleLogout w.
Proof.
  destruct w as [l s t u r m [ch nx rq nw ti to co]].
  PageFacts.run_page. destruct r as [c|]; cbn; [|reflexivity].
  unfold removeChannel. cbn. now rewrite filter_twice.
Qed.

Lemma page_heldIsOnly_released w :
  Page.heldIsOnly w -> Mounts.pageReleasedChannels w = [].
Proof.
  unfold Mounts.pageReleasedChannels.
  intros [Hc | (c & Hc & Hr)].
  - rewrite Hc. now destruct (Page.subscriptionRef w).
  - rewrite Hr, Hc. cbn. now rewrite Nat.eqb_refl.
Qed.

(** X11.  On the earlier page, logging out releases the page's channel
    before the sign-out is attempted, on any client.  For every state of
    the page, the first statement of [handleLogout] removes from the client
    exactly the channel the ref points to: deliveries on its handle change
    nothing afterwards and the client's other channels stay.  It touches
    nothing else (the session, [loading], [searched], [isUpdating], the ref
    and the pending timeouts stay, and no message is shown), and running it
    again changes nothing.  When the client held no channel besides the
    ref's, it holds none afterwards and no delivery at all changes
    anything. *)
Theorem page_logout_releases_first :
  forall w : Page.World,
    channels (Page.env (exec Page.handleLogout w)) = Mounts.pageReleasedChannels w /\
    (forall c o p,
       Page.subscriptionRef w = Some c ->
       exec (Page.step (Page.OrderUpdated (chan_id c) o)) (exec Page.handleLogout w)
         = exec Page.handleLogout w /\
       exec (Page.step (Page.TrajectoryInserted (chan_id c) p))
            (exec Page.handleLogout w)
         = exec Page.handleLogout w) /\
    exec Page.handleLogout (exec Page.handleLogout w) = exec Page.handleLogout w /\
    (Page.trackingData (exec Page.handleLogout w) = Page.trackingData w /\
     Page.loading (exec Page.handleLogout w) = Page.loading w /\
     Page.searched (exec Page.handleLogout w) = Page.searched w /\
     Page.isUpdating (exec Page.handleLogout w) = Page.isUpdating w /\
     Page.subscriptionRef (exec Page.handleLogout w) = Page.subscriptionRef w /\
     timers (Page.env (exec Page.handleLogout w)) = timers (Page.env w) /\
     toasts (Page.env (exec Page.handleLogout w)) = toasts (Page.env w)) /\
    (Page.heldIsOnly w ->
     Page.subscriptionCount (exec Page.handleLogout w) = 0 /\
     forall deliveries,
       forallb PageInv.isDelivery deliveries = true ->
       Page.run deliveries (exec Page.handleLogout w) = exec Page.handleLogout w).
Proof.
  intros w. destruct (page_logout_frame w) as (Hc & F).
  split; [exact Hc|]. split.
  { intros c o p Hr.
    assert (D : liveChannel (chan_id c) (Page.env (exec Page.handleLogout w)) = None).
    { unfold liveChannel. rewrite Hc. unfold Mounts.pageReleasedChannels.
      rewrite Hr. apply find_after_removal. }
    destruct (page_dead_handle_drops_deliveries _ _ D) as [R1 R2]. auto. }
  split; [apply page_logout_twice|]. split; [exact F|].
  intros Hh. pose proof (page_heldIsOnly_released Hh) as He.
  assert (H0 : channels (Page.env (exec Page.handleLogout w)) = []) by congruence.
  split; [unfold Page.subscriptionCount; now rewrite H0|].
  intros deliveries Hd. now apply page_delivery_without_channel.
Qed.

Lemma page_logout_releases_first_witness :
  Page.subscriptionRef Samples.pageTracked
    = Some (mkChannel 0 "order-tracking-o-1" "o-1") /\
  Page.heldIsOnly Samples.pageTracked /\
  forallb PageInv.isDelivery [Page.OrderUpdated 0 Samples.deliveredOrder] = true /\
  exec (Page.step (Page.TrajectoryInserted 0 Samples.latePoint))
       (exec Page.handleLogout Samples.pageTracked)
  = exec Page.handleLogout Samples.pageTracked /\
  Page.run [Page.OrderUpdated 0 Samples.deliveredOrder]
           (exec Page.handleLogout Samples.pageTracked)
  = exec Page.handleLogout Samples.pageTracked.
Proof.
  assert (H : Page.heldIsOnly Samples.pageTracked).
  { right. eexists. split; reflexivity. }
  split; [reflexivity|]. split; [exact H|]. split; [reflexivity|].
  destruct (page_logout_releases_first Samples.pageTracked)
    as (_ & D & _ & _ & K).
  split.
  - exact (proj2 (D (mkChannel 0 "order-tracking-o-1" "o-1")
                    Samples.deliveredOrder Samples.latePoint eq_refl)).
  - exact (proj2 (K H) [Page.OrderUpdated 0 Samples.deliveredOrder] eq_refl).
Defined.

(** ** The session and its subscription, from any start *)




(** ** The map, from the effect on *)

Lemma map_step_without_map a w :
  MapMount.isLoadSettled a = false ->
  MapAdapter.pendingFrame w = None -> MapAdapter.mapInstanceRef w = None ->
  MapAdapter.pendingFrame (exec (MapAdapter.step a) w) = None /\
  MapAdapter.mapInstanceRef (exec (MapAdapter.step a) w) = None /\
  MapAdapter.nextMap (exec (MapAdapter.step a) w) = MapAdapter.nextMap w /\
  MapAdapter.destroyedMaps (exec (MapAdapter.step a) w) = MapAdapter.destroyedMaps w /\
  MapAdapter.nextFrame (exec (MapAdapter.step a) w) = MapAdapter.nextFrame w /\
  MapAdapter.windowAMap (exec (MapAdapter.step a) w) = MapAdapter.windowAMap w.
Proof.
  intros Ha Hp Hm. destruct a as [r | | | | ]; try discriminate;
    MapFacts.run_map; rewrite ?Hp, ?Hm; cbn.
  - repeat split; auto.
  - destruct (MapAdapter.destroyed w); cbn; repeat split; auto.
  - destruct (MapAdapter.destroyed w); cbn; repeat split; auto.
  - destruct (MapAdapter.animationFrameId w); cbn; rewrite ?Hp, ?Hm; cbn;
      rewrite ?Hp, ?Hm; repeat split; auto.
Qed.

Lemma map_run_without_map l :
  forall w,
    MapAdapter.pendingFrame w = None -> MapAdapter.mapInstanceRef w = None ->
    let w' := MapAdapter.run (filter (fun a => negb (MapMount.isLoadSettled a)) l) w in
    MapAdapter.mapInstanceRef w' = None /\
    MapAdapter.nextMap w' = MapAdapter.nextMap w /\
    MapAdapter.destroyedMaps w' = MapAdapter.destroyedMaps w /\
    MapAdapter.nextFrame w' = MapAdapter.nextFrame w /\
    MapAdapter.windowAMap w' = MapAdapter.windowAMap w.
Proof.
  induction l as [|a l IH]; intros w Hp Hm; cbn [filter].
  - cbn. auto.
  - destruct (MapMount.isLoadSettled a) eqn:Ea; cbn [negb]; [now apply IH|].
    cbn [MapAdapter.run].
    destruct (map_step_without_map a w Ea Hp Hm) as (S1 & S2 & S3 & S4 & S5 & S6).
    destruct (IH _ S1 S2) as (I1 & I2 & I3 & I4 & I5).
    cbn zeta in *. repeat split; congruence.
Qed.

(** X15.  A load that succeeds gives one map and ends the overlay without a
    message, when [initMap] awaits it.  Mount the component with both the
    key and the security code set and the container attached: after the
    effect, the settled load, the frame and the map's [complete] event, the
    overlay is off, the messages are as they were, a newly constructed map
    is held in [mapInstanceRef] and published as [window.AMap], the map
    held before (if any) is destroyed, and no frame is pending.  With the
    key or the security code missing [initMap] returns before its [await]:
    whatever frames, map events and cleanups follow the effect on a fresh
    mount, no frame is requested and no map is constructed, held or
    published. *)
Theorem load_frame_complete_shows_map :
  (forall (e : MapAdapter.ImportMetaEnv) (w : MapAdapter.World),
     MapMount.awaitsLoad e = true ->
     MapAdapter.containerRef w = true ->
     MapAdapter.loading
       (MapMount.runMount e
          [MapAdapter.LoadSettled MapAdapter.Loaded; MapAdapter.Frame;
           MapAdapter.MapComplete] w) = false /\
     MapAdapter.messages
       (MapMount.runMount e
          [MapAdapter.LoadSettled MapAdapter.Loaded; MapAdapter.Frame;
           MapAdapter.MapComplete] w) = MapAdapter.messages w /\
     MapAdapter.mapInstanceRef
       (MapMount.runMount e
          [MapAdapter.LoadSettled MapAdapter.Loaded; MapAdapter.Frame;
           MapAdapter.MapComplete] w) = Some (MapAdapter.nextMap w) /\
     MapAdapter.windowAMap
       (MapMount.runMount e
          [MapAdapter.LoadSettled MapAdapter.Loaded; MapAdapter.Frame;
           MapAdapter.MapComplete] w) = true /\
     MapAdapter.destroyedMaps
       (MapMount.runMount e
          [MapAdapter.LoadSettled MapAdapter.Loaded; MapAdapter.Frame;
           MapAdapter.MapComplete] w)
     = MapAdapter.destroyedMaps w ++ MapLifecycle.held w /\
     MapAdapter.pendingFrame
       (MapMount.runMount e
          [MapAdapter.LoadSettled MapAdapter.Loaded; MapAdapter.Frame;
           MapAdapter.MapComplete] w) = None)
  /\
  (forall (e : MapAdapter.ImportMetaEnv) (loaderStarted : bool)
          (l : list MapAdapter.Action),
     MapMount.awaitsLoad e = false ->
     MapAdapter.mapInstanceRef
       (MapMount.runMount e l (MapAdapter.initial loaderStarted)) = None /\
     MapAdapter.nextMap
       (MapMount.runMount e l (MapAdapter.initial loaderStarted)) = 0 /\
     MapAdapter.destroyedMaps
       (MapMount.runMount e l (MapAdapter.initial loaderStarted)) = [] /\
     MapAdapter.nextFrame
       (MapMount.runMount e l (MapAdapter.initial loaderStarted)) = 1 /\
     MapAdapter.windowAMap
       (MapMount.runMount e l (MapAdapter.initial loaderStarted)) = false).
Proof.
  split.
  - intros e w Ha Hc. unfold MapMount.runMount. rewrite Ha.
    unfold MapMount.awaitsLoad in Ha. apply andb_true_iff in Ha.
    destruct Ha as [K C]. cbn [MapAdapter.run]. unfold MapLifecycle.held.
    MapFacts.run_map. rewrite K, C. cbn.
    destruct (MapAdapter.loaderPromise w); cbn; rewrite Hc; cbn;
      destruct (MapAdapter.mapInstanceRef w); cbn;
      rewrite ?app_nil_r; repeat split.
  - intros e b l Ha. unfold MapMount.runMount. rewrite Ha.
    destruct (map_effect_frame e (MapAdapter.initial b)) as (E1 & E2 & E3 & E4).
    assert (E5 : MapAdapter.nextFrame (exec (MapAdapter.effect e) (MapAdapter.initial b)) = 1
                 /\ MapAdapter.windowAMap
                      (exec (MapAdapter.effect e) (MapAdapter.initial b)) = false).
    { map_cases; split; reflexivity. }
    destruct (map_run_without_map l _ E1 E2) as (I1 & I2 & I3 & I4 & I5).
    cbn zeta in I1, I2, I3, I4, I5.
    rewrite I2, I3, I4, I5, E3, E4. destruct E5 as [E5 E6].
    rewrite E5, E6. repeat split. exact I1.
Qed.

Lemma load_frame_complete_shows_map_witness :
  MapMount.awaitsLoad Samples.configured = true /\
  MapAdapter.containerRef (MapAdapter.initial false) = true /\
  MapAdapter.mapInstanceRef
    (MapMount.runMount Samples.configured
       [MapAdapter.LoadSettled MapAdapter.Loaded; MapAdapter.Frame;
        MapAdapter.MapComplete] (MapAdapter.initial false)) = Some 0 /\
  MapMount.awaitsLoad Samples.withoutSecurityCode = false /\
  MapAdapter.mapInstanceRef
    (MapMount.runMount Samples.withoutSecurityCode
       [MapAdapter.LoadSettled MapAdapter.Loaded; MapAdapter.Frame;
        MapAdapter.MapComplete] (MapAdapter.initial false)) = None.
Proof.
  split; [reflexivity|]. split; [reflexivity|]. split.
  - exact (proj1 (proj2 (proj2
      (proj1 load_frame_complete_shows_map Samples.configured
         (MapAdapter.initial false) eq_refl eq_refl)))).
  - split; [reflexivity|].
    exact (proj1 (proj2 load_frame_complete_shows_map Samples.withoutSecurityCode
             false
             [MapAdapter.LoadSettled MapAdapter.Loaded; MapAdapter.Frame;
              MapAdapter.MapComplete] eq_refl)).
Defined.
